(** * Rolling-window throughput aggregator (broker_throughput.py)

    A shallow embedding of the classes [TimeHistogram] (with the fields and
    the tick loop it inherits from [TimeAware]) and [ThroughputCounter].

    Conventions of the embedding:
    - Python [int]s are [Z]; values that may be [int] or [float] (clock
      readings, bin contents, latencies) are exact rationals [Q], and
      arithmetic on them is exact: there is no rounding and no infinity. A
      number beyond the range of a double therefore stands for an [int];
      the division of [mean] converts its operands to [float] and raises
      [OverflowError] on such a number, as Python does;
    - [time()] is an effect: the [c]-th call made by the program returns
      [clk c], and the number of calls made so far is part of the state
      threaded through every operation;
    - an exception aborts the operation and leaves the object as it was
      mutated up to that point: [Raise] carries that state;
    - the [while] loop of [check_for_tick_changed] runs on fuel; a loop that
      needs more iterations than the fuel allows yields [OutOfFuel];
    - writes to [sys.stderr] are not part of the modelled state. *)

From Stdlib Require Import ZArith QArith Qabs Qround Lia Lra Ascii String.
From stdpp Require Import gmap strings list fin_maps.

(** ** Exceptions, outcomes and the program monad *)

Inductive exn : Type := ValueError | ZeroDivisionError | IndexError | OverflowError.

Inductive result (St A : Type) : Type :=
| Ok (a : A) (s : St) (c : nat)
| Raise (e : exn) (s : St) (c : nat)
| OutOfFuel.

Arguments Ok {St A} a s c.
Arguments Raise {St A} e s c.
Arguments OutOfFuel {St A}.

(** A computation reads the clock [clk] and the loop bound [fuel], starts
    from an object state [s] with [c] calls of [time()] already made. *)
Definition M (St A : Type) : Type := (nat -> Q) -> nat -> St -> nat -> result St A.

Definition ret {St A} (a : A) : M St A := fun _ _ s c => Ok a s c.

Definition bind {St A B} (m : M St A) (f : A -> M St B) : M St B :=
  fun clk fuel s c =>
    match m clk fuel s c with
    | Ok a s' c' => f a clk fuel s' c'
    | Raise e s' c' => Raise e s' c'
    | OutOfFuel => OutOfFuel
    end.

Declare Scope prog_scope.
Delimit Scope prog_scope with prog.
Notation "x <- c1 ;; c2" := (bind c1 (fun x => c2))
  (at level 100, c1 at next level, right associativity) : prog_scope.
Notation "c1 ;; c2" := (bind c1 (fun _ => c2))
  (at level 100, right associativity) : prog_scope.
Open Scope prog_scope.

Definition get {St} : M St St := fun _ _ s c => Ok s s c.
Definition put {St} (s : St) : M St unit := fun _ _ _ c => Ok tt s c.
Definition modify {St} (f : St -> St) : M St unit := fun _ _ s c => Ok tt (f s) c.
Definition raise {St A} (e : exn) : M St A := fun _ _ s c => Raise e s c.

(** [time()] *)
Definition time {St} : M St Q := fun clk _ s c => Ok (clk c) s (S c).

(** Run a method of a sub-object (a field read by [proj], written back by
    [upd]) inside a method of the object that owns it. *)
Definition zoom {St T A} (proj : St -> T) (upd : T -> St -> St) (m : M T A) : M St A :=
  fun clk fuel s c =>
    match m clk fuel (proj s) c with
    | Ok a t' c' => Ok a (upd t' s) c'
    | Raise e t' c' => Raise e (upd t' s) c'
    | OutOfFuel => OutOfFuel
    end.

(** [while cond: body] *)
Fixpoint while_loop {St} (n : nat) (cond : St -> bool) (body : M St unit) : M St unit :=
  fun clk fuel s c =>
    if cond s then
      match n with
      | O => OutOfFuel
      | S n' =>
          match body clk fuel s c with
          | Ok _ s' c' => while_loop n' cond body clk fuel s' c'
          | Raise e s' c' => Raise e s' c'
          | OutOfFuel => OutOfFuel
          end
      end
    else Ok tt s c.

Definition while {St} (cond : St -> bool) (body : M St unit) : M St unit :=
  fun clk fuel s c => while_loop fuel cond body clk fuel s c.

(** [map(f, xs)] of Python 2: eager, left to right. *)
Fixpoint mapM {St A B} (f : A -> M St B) (xs : list A) : M St (list B) :=
  match xs with
  | [] => ret []
  | x :: xs' => y <- f x ;; ys <- mapM f xs' ;; ret (y :: ys)
  end.

(** ** Python list primitives *)

(** Position denoted by an index expression [l[i]]: negative indices count
    from the end, anything outside [-len, len) is an [IndexError]. *)
Definition py_index {A} (i : Z) (l : list A) : option nat :=
  let len := Z.of_nat (length l) in
  if ((0 <=? i) && (i <? len))%Z then Some (Z.to_nat i)
  else if ((- len <=? i) && (i <? 0))%Z then Some (Z.to_nat (i + len))
  else None.

(** Clamping of a slice bound: a negative bound counts from the end and
    saturates at 0, a non-negative one saturates at the length. *)
Definition slice_bound (i len : Z) : nat :=
  Z.to_nat (if (i <? 0)%Z then Z.max (i + len) 0 else Z.min i len).

(** [l[i:]] *)
Definition slice_from {A} (i : Z) (l : list A) : list A :=
  drop (slice_bound i (Z.of_nat (length l))) l.

(** [l[:j]] *)
Definition slice_to {A} (j : Z) (l : list A) : list A :=
  take (slice_bound j (Z.of_nat (length l))) l.

(** The builtin [sum(l)]: left fold of [+] from [0]. *)
Definition pysum (l : list Q) : Q := fold_left Qplus l 0%Q.

(** ** Conversion to [float] *)

(** [float(n)], and the conversion that [/] applies to an [int] operand when
    the other one is a [float], raise [OverflowError] when [n] does not round
    to a finite double, that is from the magnitude [2^1024 - 2^970] on (half
    way between the largest double, [2^1024 - 2^971], and [2^1024]). *)
Definition double_limit : Z := (2 ^ 1024 - 2 ^ 970)%Z.

Definition fits_double (x : Q) : bool :=
  negb (Qle_bool (inject_Z double_limit) (Qabs x)).

#[global] Arguments fits_double : simpl never.

(** ** class TimeHistogram(TimeAware) *)

Module TimeHistogram.

Record t : Type := mk {
  last_tick : Q;
  start_time : Q;
  ticklen : Z;
  n_ticks : Z;
  totalticktime : Z;
  nbins : Z;
  _bins : list Q;
  current_bin : Z
}.

Definition set_last_tick (v : Q) (h : t) : t :=
  mk v (start_time h) (ticklen h) (n_ticks h) (totalticktime h)
     (nbins h) (_bins h) (current_bin h).
Definition set_n_ticks (v : Z) (h : t) : t :=
  mk (last_tick h) (start_time h) (ticklen h) v (totalticktime h)
     (nbins h) (_bins h) (current_bin h).
Definition set_totalticktime (v : Z) (h : t) : t :=
  mk (last_tick h) (start_time h) (ticklen h) (n_ticks h) v
     (nbins h) (_bins h) (current_bin h).
Definition set_bins (v : list Q) (h : t) : t :=
  mk (last_tick h) (start_time h) (ticklen h) (n_ticks h) (totalticktime h)
     (nbins h) v (current_bin h).
Definition set_current_bin (v : Z) (h : t) : t :=
  mk (last_tick h) (start_time h) (ticklen h) (n_ticks h) (totalticktime h)
     (nbins h) (_bins h) v.

(** [TimeHistogram.__init__(nbins, seconds_per_bin)], which runs
    [TimeAware.__init__(seconds_per_bin)] first. *)
Definition init {St} (nbins : Z) (seconds_per_bin : Z) : M St t :=
  now <- time ;;
  ret (mk now now seconds_per_bin 0 0 nbins (replicate (Z.to_nat nbins) 0%Q) 0).

(** [TimeHistogram.on_tick_change] *)
Definition on_tick_change : M t unit :=
  h <- get ;;
  if (nbins h =? 0)%Z then raise ZeroDivisionError
  else
    modify (set_current_bin ((current_bin h + 1) mod nbins h)) ;;
    h <- get ;;
    match py_index (current_bin h) (_bins h) with
    | Some i => put (set_bins (<[i := 0%Q]> (_bins h)) h)
    | None => raise IndexError
    end.

(** [TimeAware.check_for_tick_changed] *)
Definition check_for_tick_changed : M t unit :=
  tnow <- time ;;
  while (fun h => Qle_bool (inject_Z (ticklen h)) (tnow - last_tick h))
    (modify (fun h => set_n_ticks (n_ticks h + 1) h) ;;
     modify (fun h => set_totalticktime (totalticktime h + ticklen h) h) ;;
     modify (fun h => set_last_tick (last_tick h + inject_Z (ticklen h)) h) ;;
     on_tick_change).

(** [TimeHistogram.add] *)
Definition add (n : Q) : M t unit :=
  check_for_tick_changed ;;
  h <- get ;;
  match py_index (current_bin h) (_bins h) with
  | Some i =>
      match _bins h !! i with
      | Some x => put (set_bins (<[i := (x + n)%Q]> (_bins h)) h)
      | None => raise IndexError
      end
  | None => raise IndexError
  end.

(** The property [TimeHistogram.bins]: bins in time order, oldest first. *)
Definition bins : M t (list Q) :=
  check_for_tick_changed ;;
  h <- get ;;
  ret (slice_from (current_bin h + 1) (_bins h)
       ++ slice_to (current_bin h + 1) (_bins h)).

(** [TimeHistogram.sum]; [/] on two [int]s is floor division. *)
Definition sum (k : Z) : M t Q :=
  h <- get ;;
  if (ticklen h =? 0)%Z then raise ZeroDivisionError
  else
    let bins_to_check := (k / ticklen h)%Z in
    bs <- bins ;;
    ret (pysum (slice_from (- bins_to_check) bs)).

(** [TimeHistogram.mean]. In [self.sum(k) / float(bins_to_check)] the sum
    is computed first, then [float(bins_to_check)], then the quotient, for
    which the sum is converted to [float]. *)
Definition mean (k : Z) : M t Q :=
  h <- get ;;
  let k := if (totalticktime h <? k)%Z then totalticktime h else k in
  if (ticklen h =? 0)%Z then raise ZeroDivisionError
  else
    let bins_to_check := (k / ticklen h)%Z in
    if (bins_to_check =? 0)%Z then ret 0%Q
    else
      s <- sum k ;;
      if fits_double (inject_Z bins_to_check) && fits_double s
      then ret (s / inject_Z bins_to_check)%Q
      else raise OverflowError.

End TimeHistogram.

(** ** The builtin [int(s)] on a string *)

(** Python 2 reads an optional sign and a run of decimal digits, with
    white space allowed around the number and after the sign; any other
    string is a [ValueError], rendered here as [None]. *)
Definition is_space (a : ascii) : bool :=
  existsb (Ascii.eqb a)
    [" "%char; "009"%char; "010"%char; "011"%char; "012"%char; "013"%char].

Fixpoint skip_spaces (s : string) : string :=
  match s with
  | String a s' => if is_space a then skip_spaces s' else s
  | EmptyString => s
  end.

Definition digit_val (a : ascii) : option Z :=
  let n := Z.of_nat (nat_of_ascii a) in
  if ((48 <=? n) && (n <=? 57))%Z then Some (n - 48)%Z else None.

Fixpoint read_digits (s : string) (acc : Z) (seen : bool) : option Z :=
  match s with
  | EmptyString => if seen then Some acc else None
  | String a s' =>
      match digit_val a with
      | Some d => read_digits s' (10 * acc + d)%Z true
      | None =>
          if seen && match skip_spaces s with EmptyString => true | _ => false end
          then Some acc else None
      end
  end.

Definition py_int (s : string) : option Z :=
  match skip_spaces s with
  | String "-" s' => Z.opp <$> read_digits (skip_spaces s') 0 false
  | String "+" s' => read_digits (skip_spaces s') 0 false
  | s' => read_digits s' 0 false
  end.

(** ** class ThroughputCounter *)

Module ThroughputCounter.

(** [input_stream] and [_reader_state] belong to the line reader and are
    not touched by the methods embedded here. An event record [data] is
    the reader's dictionary of stripped strings. *)
Record t : Type := mk {
  point_hist : TimeHistogram.t;
  burst_hist : TimeHistogram.t;
  acked_burst_hist : TimeHistogram.t;
  latency_hist : TimeHistogram.t;
  ack_hist : TimeHistogram.t;
  outstanding_bursts : gmap string (Q * Z)   (* burstid -> start timestamp, points *)
}.

Definition set_point_hist (v : TimeHistogram.t) (s : t) : t :=
  mk v (burst_hist s) (acked_burst_hist s) (latency_hist s) (ack_hist s)
     (outstanding_bursts s).
Definition set_burst_hist (v : TimeHistogram.t) (s : t) : t :=
  mk (point_hist s) v (acked_burst_hist s) (latency_hist s) (ack_hist s)
     (outstanding_bursts s).
Definition set_acked_burst_hist (v : TimeHistogram.t) (s : t) : t :=
  mk (point_hist s) (burst_hist s) v (latency_hist s) (ack_hist s)
     (outstanding_bursts s).
Definition set_latency_hist (v : TimeHistogram.t) (s : t) : t :=
  mk (point_hist s) (burst_hist s) (acked_burst_hist s) v (ack_hist s)
     (outstanding_bursts s).
Definition set_ack_hist (v : TimeHistogram.t) (s : t) : t :=
  mk (point_hist s) (burst_hist s) (acked_burst_hist s) (latency_hist s) v
     (outstanding_bursts s).
Definition set_outstanding_bursts (v : gmap string (Q * Z)) (s : t) : t :=
  mk (point_hist s) (burst_hist s) (acked_burst_hist s) (latency_hist s)
     (ack_hist s) v.

(** [ThroughputCounter.__init__] *)
Definition init {St} : M St t :=
  point <- TimeHistogram.init 600 1 ;;
  burst <- TimeHistogram.init 600 1 ;;
  acked_burst <- TimeHistogram.init 600 1 ;;
  latency <- TimeHistogram.init 600 1 ;;
  ack <- TimeHistogram.init 600 1 ;;
  ret (mk point burst acked_burst latency ack ∅).

(** [ThroughputCounter.get_outstanding] *)
Definition get_outstanding (last_n_seconds : list Z) : M t (list Q) :=
  total_burst_counts <-
    mapM (fun k => zoom point_hist set_point_hist (TimeHistogram.sum k))
         last_n_seconds ;;
  total_ack_counts <-
    mapM (fun k => zoom ack_hist set_ack_hist (TimeHistogram.sum k))
         last_n_seconds ;;
  ret (zip_with (fun nbursts nacks => (nbursts - nacks)%Q)
         total_burst_counts total_ack_counts).

(** [ThroughputCounter.get_total_outstanding_points]: the points of all
    [(timestamp, points)] values of the table, added up from 0. *)
Definition get_total_outstanding_points : M t Z :=
  s <- get ;;
  ret (map_fold (fun _ (v : Q * Z) acc => (acc + v.2)%Z) 0%Z (outstanding_bursts s)).

(** [ThroughputCounter.get_points_per_seconds] *)
Definition get_points_per_seconds (over_seconds : list Z) : M t (list Q) :=
  mapM (fun k => zoom point_hist set_point_hist (TimeHistogram.mean k)) over_seconds.

(** [ThroughputCounter.get_total_bursts] *)
Definition get_total_bursts (over_seconds : list Z) : M t (list Q) :=
  mapM (fun k => zoom burst_hist set_burst_hist (TimeHistogram.mean k)) over_seconds.

(** [ThroughputCounter.get_acks_per_second] *)
Definition get_acks_per_second (over_seconds : list Z) : M t (list Q) :=
  mapM (fun k => zoom ack_hist set_ack_hist (TimeHistogram.mean k)) over_seconds.

(** [ThroughputCounter.get_average_latencies]; [nbursts > 0] is the
    negation of [nbursts <= 0]. The count [nbursts] of acknowledged bursts
    and the latency sum are taken to be within the range of a double. *)
Definition get_average_latencies (over_seconds : list Z) : M t (list Q) :=
  burst_counts <-
    mapM (fun k => zoom acked_burst_hist set_acked_burst_hist (TimeHistogram.sum k))
         over_seconds ;;
  latency_sums <-
    mapM (fun k => zoom latency_hist set_latency_hist (TimeHistogram.sum k))
         over_seconds ;;
  ret (zip_with (fun latencysum nbursts =>
                   if negb (Qle_bool nbursts 0) then (latencysum / nbursts)%Q else 0%Q)
         latency_sums burst_counts).

(** [ThroughputCounter.process_burst] *)
Definition process_burst (data : gmap string string) : M t unit :=
  match data !! "identity", data !! "message id", data !! "points" with
  | Some identity, Some message_id, Some pts =>
      let msgtag := identity +:+ message_id in
      match py_int pts with
      | None => raise ValueError
      | Some points =>
          timestamp <- time ;;
          modify (fun s =>
            set_outstanding_bursts
              (<[msgtag := (timestamp, points)]> (outstanding_bursts s)) s) ;;
          zoom burst_hist set_burst_hist (TimeHistogram.add 1) ;;
          zoom point_hist set_point_hist (TimeHistogram.add (inject_Z points))
      end
  | _, _, _ => ret tt   (* 'malformed databurst info. ignoring' *)
  end.

(** [ThroughputCounter.process_ack] *)
Definition process_ack (data : gmap string string) : M t unit :=
  match data !! "identity", data !! "message id" with
  | Some identity, Some message_id =>
      let msgtag := identity +:+ message_id in
      s <- get ;;
      match outstanding_bursts s !! msgtag with
      | None => ret tt   (* got ack we didn't see the burst for *)
      | Some (burst_timestamp, points) =>
          modify (fun s =>
            set_outstanding_bursts (delete msgtag (outstanding_bursts s)) s) ;;
          now <- time ;;
          let latency := (now - burst_timestamp)%Q in
          zoom ack_hist set_ack_hist (TimeHistogram.add (inject_Z points)) ;;
          zoom acked_burst_hist set_acked_burst_hist (TimeHistogram.add 1) ;;
          zoom latency_hist set_latency_hist (TimeHistogram.add latency)
      end
  | _, _ => ret tt   (* 'malformed ack info. ignoring' *)
  end.

End ThroughputCounter.


(** ** Reference notions used to state the properties *)

(** Structural invariant of a window: as many bins as [nbins] says, and a
    current-bin index inside the bin sequence. *)
Definition inv (h : TimeHistogram.t) : Prop :=
  Z.of_nat (length (TimeHistogram._bins h)) = TimeHistogram.nbins h
  /\ (0 <= TimeHistogram.current_bin h < TimeHistogram.nbins h)%Z.

(** A window as the constructor is meant to build it: the invariant and a
    positive tick length. *)
Definition wf (h : TimeHistogram.t) : Prop :=
  inv h /\ (0 < TimeHistogram.ticklen h)%Z.

(** Time elapsed at reading [tnow] since the last tick boundary. *)
Definition elapsed (tnow : Q) (h : TimeHistogram.t) : Q :=
  (tnow - TimeHistogram.last_tick h)%Q.

(** Exactly [m] whole tick intervals have elapsed at reading [tnow]; for
    [m = 0] this only says that less than one interval has, which includes
    a clock that went backwards. *)
Definition ticks_due (m : nat) (tnow : Q) (h : TimeHistogram.t) : Prop :=
  (elapsed tnow h < inject_Z ((Z.of_nat m + 1) * TimeHistogram.ticklen h))%Q
  /\ ((0 < m)%nat ->
      (inject_Z (Z.of_nat m * TimeHistogram.ticklen h) <= elapsed tnow h)%Q).

(** The number of whole tick intervals elapsed at reading [tnow]. *)
Definition whole_ticks (tnow : Q) (h : TimeHistogram.t) : nat :=
  Z.to_nat (Qfloor (elapsed tnow h / inject_Z (TimeHistogram.ticklen h))).

(** One tick: the boundary and the counters move on by one interval, the
    current-bin index steps cyclically and the bin it reaches is zeroed. *)
Definition tick (h : TimeHistogram.t) : TimeHistogram.t :=
  let cb := ((TimeHistogram.current_bin h + 1) mod TimeHistogram.nbins h)%Z in
  TimeHistogram.mk
    (TimeHistogram.last_tick h + inject_Z (TimeHistogram.ticklen h))%Q
    (TimeHistogram.start_time h)
    (TimeHistogram.ticklen h)
    (TimeHistogram.n_ticks h + 1)
    (TimeHistogram.totalticktime h + TimeHistogram.ticklen h)
    (TimeHistogram.nbins h)
    (<[Z.to_nat cb := 0%Q]> (TimeHistogram._bins h))
    cb.

(** The window after the ticks due at reading [tnow]. *)
Definition advance (tnow : Q) (h : TimeHistogram.t) : TimeHistogram.t :=
  Nat.iter (whole_ticks tnow h) tick h.

(** The bins in time order, oldest first, ending with the current bin. *)
Definition ordered (h : TimeHistogram.t) : list Q :=
  drop (Z.to_nat (TimeHistogram.current_bin h + 1)) (TimeHistogram._bins h)
  ++ take (Z.to_nat (TimeHistogram.current_bin h + 1)) (TimeHistogram._bins h).

(** The current bin increased by [n]. *)
Definition bump (n : Q) (h : TimeHistogram.t) : TimeHistogram.t :=
  TimeHistogram.set_bins
    (alter (fun x => (x + n)%Q) (Z.to_nat (TimeHistogram.current_bin h))
       (TimeHistogram._bins h)) h.

(** The last [n] elements of a list (all of it when it has fewer). *)
Definition lastn {A} (n : nat) (l : list A) : list A := drop (length l - n) l.

(** The body of the loop of [check_for_tick_changed]. *)
Definition tick_body : M TimeHistogram.t unit :=
  modify (fun h => TimeHistogram.set_n_ticks (TimeHistogram.n_ticks h + 1) h) ;;
  modify (fun h => TimeHistogram.set_totalticktime
                     (TimeHistogram.totalticktime h + TimeHistogram.ticklen h) h) ;;
  modify (fun h => TimeHistogram.set_last_tick
                     (TimeHistogram.last_tick h + inject_Z (TimeHistogram.ticklen h)) h) ;;
  TimeHistogram.on_tick_change.

Definition tick_cond (tnow : Q) (h : TimeHistogram.t) : bool :=
  Qle_bool (inject_Z (TimeHistogram.ticklen h)) (tnow - TimeHistogram.last_tick h).


(** ** Concrete inputs *)

(** A clock given by its first readings; it stays at the last one. *)
Definition clock_of (readings : list Q) (n : nat) : Q :=
  nth n readings (List.last readings 0%Q).

(** [k] seconds rounded up to whole bins of [t] seconds, as the
    specification of [sum_over] words it. *)
Definition ceil_div (k t : Z) : Z := (- ((- k) / t))%Z.

(** A window of three bins of two seconds, one tick after its creation at
    time 0, holding 5 in its first bin and 7 in the current one. *)
Definition window3 : TimeHistogram.t :=
  TimeHistogram.mk 2 0 2 1 2 3 [5%Q; 7%Q; 0%Q] 1.

(** A window of three bins of one second in the same situation. *)
Definition window3s : TimeHistogram.t :=
  TimeHistogram.mk 1 0 1 1 1 3 [5%Q; 7%Q; 0%Q] 1.

(** An operation taking window [h] to [h'] keeps the structural invariant
    and the number of bins it refers to. *)
Definition preserved (h h' : TimeHistogram.t) : Prop :=
  inv h' /\ TimeHistogram.nbins h' = TimeHistogram.nbins h.

(** All five windows of an aggregator are well formed. *)
Definition wf_counter (tc : ThroughputCounter.t) : Prop :=
  wf (ThroughputCounter.point_hist tc)
  /\ wf (ThroughputCounter.burst_hist tc)
  /\ wf (ThroughputCounter.acked_burst_hist tc)
  /\ wf (ThroughputCounter.latency_hist tc)
  /\ wf (ThroughputCounter.ack_hist tc).

(** The total of a window: all its bins added up. *)
Definition total (h : TimeHistogram.t) : Q := pysum (TimeHistogram._bins h).

(** Event records as the line reader hands them over. *)
Definition burst_record (identity message_id points : string) : gmap string string :=
  <["identity" := identity]> (<["message id" := message_id]> (<["points" := points]> ∅)).

Definition ack_record (identity message_id : string) : gmap string string :=
  <["identity" := identity]> (<["message id" := message_id]> ∅).

(** The aggregator as its constructor leaves it when the clock reads 0. *)
Definition fresh_counter : ThroughputCounter.t :=
  let w := TimeHistogram.mk 0 0 1 0 0 600 (replicate 600 0%Q) 0 in
  ThroughputCounter.mk w w w w w ∅.

(** What [sum k] reads off a window once its ticks have been caught up
    with: the bins in time order, sliced by [-(k / ticklen)], added up. *)
Definition window_sum (k : Z) (h : TimeHistogram.t) : Q :=
  pysum (slice_from (- (k / TimeHistogram.ticklen h)) (ordered h)).

(** The window after catching up, one reading after the other, with the
    [n] clock readings that follow the first [c]. *)
Fixpoint caught_up (clk : nat -> Q) (c n : nat) (h : TimeHistogram.t) : TimeHistogram.t :=
  match n with
  | O => h
  | S n' => caught_up clk (S c) n' (advance (clk c) h)
  end.

(** A clock for an aggregator built at time 0 (five readings), on which a
    burst is then recorded at time 0 (three readings) and acknowledged at
    time 2 (four readings). *)
Definition roundtrip_clock : nat -> Q :=
  clock_of [0; 0; 0; 0; 0; 0; 0; 0; 2; 2; 2; 2]%Q.

(** * Further properties: definitions *)

From Stdlib Require Import Lqa.

(** ** Calls on a window *)

(** The calls a client can make on a window, and a sequence of them run
    one after the other, results discarded. *)
Inductive window_call : Type :=
| CallAdd (n : Q)
| CallSum (k : Z)
| CallMean (k : Z)
| CallBins
| CallCheck.

Definition run_call (o : window_call) : M TimeHistogram.t unit :=
  match o with
  | CallAdd n => TimeHistogram.add n
  | CallSum k => _ <- TimeHistogram.sum k ;; ret tt
  | CallMean k => _ <- TimeHistogram.mean k ;; ret tt
  | CallBins => _ <- TimeHistogram.bins ;; ret tt
  | CallCheck => TimeHistogram.check_for_tick_changed
  end.

Fixpoint run_calls (os : list window_call) : M TimeHistogram.t unit :=
  match os with
  | [] => ret tt
  | o :: os' => run_call o ;; run_calls os'
  end.

(** The tick counters agree with each other and with the boundaries: the
    time accounted for is [n_ticks] tick lengths, and the last boundary lies
    that much after the start. *)
Definition counters_consistent (h : TimeHistogram.t) : Prop :=
  TimeHistogram.totalticktime h = (TimeHistogram.n_ticks h * TimeHistogram.ticklen h)%Z
  /\ (0 <= TimeHistogram.n_ticks h)%Z
  /\ (TimeHistogram.last_tick h
      == TimeHistogram.start_time h + inject_Z (TimeHistogram.totalticktime h))%Q.

(** [add] applied to each element of a list in turn. *)
Fixpoint add_all (ns : list Q) : M TimeHistogram.t unit :=
  match ns with
  | [] => ret tt
  | n :: ns' => TimeHistogram.add n ;; add_all ns'
  end.

(** The elements of a list added up exactly. *)
Fixpoint Qsum (ns : list Q) : Q :=
  match ns with
  | [] => 0%Q
  | n :: ns' => (n + Qsum ns')%Q
  end.

(** ** Returning normally *)

(** Computation [m], started from state [s] after [c] clock readings,
    returns normally whenever the fuel is at least some bound, always with
    the same value, state and number of readings, and these satisfy [Q]. *)
Definition returns {St A} (clk : nat -> Q) (m : M St A) (s : St) (c : nat)
    (Q : A -> St -> nat -> Prop) : Prop :=
  exists a s' c' (n0 : nat),
    Q a s' c' /\ forall fuel, (n0 <= fuel)%nat -> m clk fuel s c = Ok a s' c'.

(** ** Events on an aggregator *)

(** What the reader and the reporter ask of an aggregator, and a sequence
    of such requests run one after the other, results discarded. *)
Inductive event : Type :=
| EvBurst (data : gmap string string)
| EvAck (data : gmap string string)
| EvOutstanding (horizons : list Z)
| EvPointsPerSecond (horizons : list Z)
| EvTotalBursts (horizons : list Z)
| EvAcksPerSecond (horizons : list Z)
| EvAverageLatencies (horizons : list Z)
| EvTotalOutstandingPoints.

Definition run_event (e : event) : M ThroughputCounter.t unit :=
  match e with
  | EvBurst data => ThroughputCounter.process_burst data
  | EvAck data => ThroughputCounter.process_ack data
  | EvOutstanding hs => _ <- ThroughputCounter.get_outstanding hs ;; ret tt
  | EvPointsPerSecond hs => _ <- ThroughputCounter.get_points_per_seconds hs ;; ret tt
  | EvTotalBursts hs => _ <- ThroughputCounter.get_total_bursts hs ;; ret tt
  | EvAcksPerSecond hs => _ <- ThroughputCounter.get_acks_per_second hs ;; ret tt
  | EvAverageLatencies hs => _ <- ThroughputCounter.get_average_latencies hs ;; ret tt
  | EvTotalOutstandingPoints => _ <- ThroughputCounter.get_total_outstanding_points ;; ret tt
  end.

Fixpoint run_events (es : list event) : M ThroughputCounter.t unit :=
  match es with
  | [] => ret tt
  | e :: es' => run_event e ;; run_events es'
  end.

(** A burst record counts as numeric when its point count, if it has one,
    is accepted by [int]. *)
Definition numeric_points (e : event) : Prop :=
  match e with
  | EvBurst data => forall ps, data !! "points" = Some ps -> py_int ps <> None
  | _ => True
  end.

(** The points of all entries of an outstanding table, added up: the value
    [get_total_outstanding_points] computes. *)
Definition points_outstanding (m : gmap string (Q * Z)) : Z :=
  map_fold (fun _ (v : Q * Z) acc => (acc + v.2)%Z) 0%Z m.

(** The points recorded under a key, 0 when there is no entry. *)
Definition points_under (key : string) (m : gmap string (Q * Z)) : Z :=
  match m !! key with Some (_, p) => p | None => 0%Z end.

(** The aggregator of [fresh_counter] after one burst of 405 points
    recorded at time 0. *)
Definition counter_after_burst : ThroughputCounter.t :=
  let w := ThroughputCounter.point_hist fresh_counter in
  ThroughputCounter.mk (bump 405 w) (bump 1 w) w w w
    (<["0x00e43c9877" +:+ "0xf394" := (0%Q, 405%Z)]> ∅).

(** ** String methods used by the line reader *)

(** [s.rstrip()] and [s.strip()], on the white space that [is_space]
    recognises. *)
Fixpoint rstrip (s : string) : string :=
  match s with
  | EmptyString => EmptyString
  | String a s' =>
      match rstrip s' with
      | EmptyString => if is_space a then EmptyString else String a EmptyString
      | r => String a r
      end
  end.

Definition strip (s : string) : string := rstrip (skip_spaces s).

(** [s.partition(sep)] for a one-character separator: the text before its
    first occurrence, the separator, the text after; without an occurrence,
    the whole string and two empty strings. *)
Fixpoint partition (sep : ascii) (s : string) : string * string * string :=
  match s with
  | EmptyString => (EmptyString, EmptyString, EmptyString)
  | String a s' =>
      if Ascii.eqb a sep then (EmptyString, String sep EmptyString, s')
      else let '(k, tok, v) := partition sep s' in (String a k, tok, v)
  end.

(** [pat in s] *)
Fixpoint contains (pat s : string) : bool :=
  String.prefix pat s
  || match s with
     | EmptyString => false
     | String _ s' => contains pat s'
     end.

(** [s.split()]: the maximal runs of characters that are not white space. *)
Fixpoint split (s : string) : list string :=
  match s with
  | EmptyString => []
  | String a s' =>
      if is_space a then split s'
      else
        match s' with
        | EmptyString => [String a EmptyString]
        | String b _ =>
            if is_space b then String a EmptyString :: split s'
            else
              match split s' with
              | w :: ws => String a w :: ws
              | [] => [String a EmptyString]
              end
        end
  end.

(** ** The line reader of ThroughputCounter *)

(** A value of the reader's dictionary: a string, or the [int] stored under
    ['bytes']. *)
Inductive pyval : Type := PStr (s : string) | PInt (z : Z).

(** The entries of a dictionary whose value is a string. [process_burst]
    and [process_ack] look at the keys ['identity'], ['message id'] and
    ['points'] only, and [process_line] binds none of them to anything but
    a string, so this is the part of the reader's dictionary they see. *)
Definition strs (d : gmap string pyval) : gmap string string :=
  omap (fun v => match v with PStr s => Some s | PInt _ => None end) d.

(** What one call of [input_stream.readline()] yields: a line, or [IOError]
    when the non-blocking stream has nothing to deliver at the moment. *)
Inductive read_result : Type := Line (l : string) | NoData.

Module LineReader.

(** The whole [ThroughputCounter] object: the aggregator fields of
    [ThroughputCounter.t] together with [_reader_state] and
    [input_stream], the latter given by what its coming [readline] calls
    yield; once these are used up the stream is at its end and [readline]
    returns the empty string. *)
Record t : Type := mk {
  core : ThroughputCounter.t;
  _reader_state : gmap string pyval;
  input_stream : list read_result
}.

Definition set_core (v : ThroughputCounter.t) (r : t) : t :=
  mk v (_reader_state r) (input_stream r).
Definition set_reader_state (v : gmap string pyval) (r : t) : t :=
  mk (core r) v (input_stream r).
Definition set_input_stream (v : list read_result) (r : t) : t :=
  mk (core r) (_reader_state r) v.

(** [state.get(key) == s] *)
Definition get_is (state : gmap string pyval) (key s : string) : bool :=
  match state !! key with
  | Some (PStr s') => String.eqb s' s
  | _ => false
  end.

(** [ThroughputCounter.process_line]. The local [state] names the same
    dictionary as [self._reader_state] until it is rebound to a new empty
    one after a dispatch; [self._reader_state] itself is rebound by the two
    header branches only. *)
Definition process_line (line : string) : M t unit :=
  let line := strip line in
  let '(k, tok, v) := partition ":" line in
  (if String.eqb tok ":" then
     modify (fun r => set_reader_state (<[k := PStr (strip v)]> (_reader_state r)) r) ;;
     r <- get ;;
     let state := _reader_state r in
     state <- (if get_is state "reading" "burst" && String.eqb k "points" then
                 zoom core set_core (ThroughputCounter.process_burst (strs state)) ;;
                 ret (∅ : gmap string pyval)
               else ret state) ;;
     if get_is state "reading" "ack" && String.eqb k "message id" then
       zoom core set_core (ThroughputCounter.process_ack (strs state))
     else ret tt
   else ret tt) ;;
  if contains "received " line then
    match split line !! 1%nat with
    | None => raise IndexError
    | Some w =>
        match py_int w with
        | None => raise ValueError
        | Some n =>
            modify (set_reader_state
                      (<["reading" := PStr "burst"]> (<["bytes" := PInt n]> ∅)))
        end
    end
  else if contains "got ingestd ACK" line then
    modify (set_reader_state (<["reading" := PStr "ack"]> ∅))
  else ret tt.

(** [input_stream.readline()], with [None] for [IOError]. *)
Definition readline : M t (option string) :=
  r <- get ;;
  match input_stream r with
  | [] => ret (Some EmptyString)
  | Line l :: rest => put (set_input_stream rest r) ;; ret (Some l)
  | NoData :: rest => put (set_input_stream rest r) ;; ret None
  end.

(** [while True: body], left by a [return] in the body: the body answers
    whether to go on. *)
Fixpoint loop_until_return (n : nat) (body : M t bool) : M t unit :=
  fun clk fuel s c =>
    match n with
    | O => OutOfFuel
    | S n' =>
        match body clk fuel s c with
        | Ok true s' c' => loop_until_return n' body clk fuel s' c'
        | Ok false s' c' => Ok tt s' c'
        | Raise e s' c' => Raise e s' c'
        | OutOfFuel => OutOfFuel
        end
    end.

(** [ThroughputCounter.process_lines_from_stream] *)
Definition process_lines_from_stream : M t unit :=
  fun clk fuel s c =>
    loop_until_return fuel
      (l <- readline ;;
       match l with
       | Some l => process_line l ;; ret true
       | None => ret false   (* except IOError: return *)
       end)
      clk fuel s c.

End LineReader.

(** Lines fed to [process_line] one after the other. *)
Fixpoint feed (lines : list string) : M LineReader.t unit :=
  match lines with
  | [] => ret tt
  | l :: ls => LineReader.process_line l ;; feed ls
  end.

(** The sample trace of the docstring of [process_line]. *)
Definition sample_ack_lines : list string :=
  ["got ingestd ACK";
   "    identity:   0x00e43c9880";
   "    message id: 0xeb9a"].

Definition sample_burst_lines : list string :=
  ["received 5222 bytes";
   "    identity:   0x00e43c9877";
   "    message id: 0xf394";
   "    compressed: 5214 bytes";
   "    uncompressed:       61133 bytes";
   "    points:             405"].

(** The sample burst record with a point count that is not a number. *)
Definition malformed_burst_lines : list string :=
  ["received 5222 bytes";
   "    identity:   0x00e43c9877";
   "    message id: 0xf394";
   "    compressed: 5214 bytes";
   "    uncompressed:       61133 bytes";
   "    points:             4o5"].

(** ** Kinds of lines *)

(** A field line: its stripped text has a colon, and holds neither of the
    two header marks; read as the key before the first colon and the
    stripped text after it. *)
Definition parse_field (line : string) : option (string * string) :=
  let line := strip line in
  let '(k, tok, v) := partition ":" line in
  if String.eqb tok ":" && negb (contains "received " line)
     && negb (contains "got ingestd ACK" line)
  then Some (k, strip v) else None.

(** The header line of an ack record: no colon, the mark of an ack and not
    that of a burst. *)
Definition is_ack_header (line : string) : bool :=
  let line := strip line in
  let '(_, tok, _) := partition ":" line in
  negb (String.eqb tok ":") && negb (contains "received " line)
  && contains "got ingestd ACK" line.

(** The header line of a burst record: no colon, the mark of a burst, and a
    second word that [int] accepts; read as that number. *)
Definition burst_header_bytes (line : string) : option Z :=
  let line := strip line in
  let '(_, tok, _) := partition ":" line in
  if negb (String.eqb tok ":") && contains "received " line
  then match split line !! 1%nat with Some w => py_int w | None => None end
  else None.

(** The state of [f] applied to the state of an outcome. *)
Definition result_map_state {St A} (f : St -> St) (res : result St A) : result St A :=
  match res with
  | Ok a s c => Ok a (f s) c
  | Raise e s c => Raise e (f s) c
  | OutOfFuel => OutOfFuel
  end.

(** The reader's dictionary holds an [int] under the key ['bytes'] only. *)
Definition ints_under_bytes_only (d : gmap string pyval) : Prop :=
  forall k z, d !! k = Some (PInt z) -> k = "bytes".

(** The state an outcome leaves behind, if it is one that returns or
    raises. *)
Definition outcome_state {St A} (res : result St A) : option St :=
  match res with
  | Ok _ s _ => Some s
  | Raise _ s _ => Some s
  | OutOfFuel => None
  end.

(** The reader state the sample burst record leaves behind. *)
Definition sample_burst_state : gmap string pyval :=
  <["points" := PStr "405"]>
    (<["uncompressed" := PStr "61133 bytes"]>
       (<["compressed" := PStr "5214 bytes"]>
          (<["message id" := PStr "0xf394"]>
             (<["identity" := PStr "0x00e43c9877"]>
                (<["reading" := PStr "burst"]> (<["bytes" := PInt 5222]> ∅)))))).

(** The two halves of the body of [process_line]: what it does with the
    parts of a partitioned line, and what it does with header marks. *)
Definition field_step (k tok v : string) : M LineReader.t unit :=
  if String.eqb tok ":" then
    modify (fun r => LineReader.set_reader_state
                       (<[k := PStr (strip v)]> (LineReader._reader_state r)) r) ;;
    r <- get ;;
    let state := LineReader._reader_state r in
    state <- (if LineReader.get_is state "reading" "burst" && String.eqb k "points" then
                zoom LineReader.core LineReader.set_core
                  (ThroughputCounter.process_burst (strs state)) ;;
                ret (∅ : gmap string pyval)
              else ret state) ;;
    if LineReader.get_is state "reading" "ack" && String.eqb k "message id" then
      zoom LineReader.core LineReader.set_core
        (ThroughputCounter.process_ack (strs state))
    else ret tt
  else ret tt.

Definition header_step (line : string) : M LineReader.t unit :=
  if contains "received " line then
    match split line !! 1%nat with
    | None => raise IndexError
    | Some w =>
        match py_int w with
        | None => raise ValueError
        | Some n =>
            modify (LineReader.set_reader_state
                      (<["reading" := PStr "burst"]> (<["bytes" := PInt n]> ∅)))
        end
    end
  else if contains "got ingestd ACK" line then
    modify (LineReader.set_reader_state (<["reading" := PStr "ack"]> ∅))
  else ret tt.

(** ** Words of a line *)

(** Some character of the string is white space. *)
Fixpoint has_space (s : string) : bool :=
  match s with
  | EmptyString => false
  | String a s' => is_space a || has_space s'
  end.

(** Some white space follows the first character that is none. *)
Fixpoint has_gap (s : string) : bool :=
  match s with
  | EmptyString => false
  | String a s' => if is_space a then has_gap s' else has_space s'
  end.

(** ** Returning or raising *)

(** Computation [m] raises [e] whenever the fuel is at least some bound,
    always leaving the same state, which satisfies [Q]. *)
Definition raises {St A} (clk : nat -> Q) (m : M St A) (s : St) (c : nat)
    (e : exn) (Q : St -> Prop) : Prop :=
  exists s' c' (n0 : nat),
    Q s' /\ forall fuel, (n0 <= fuel)%nat -> m clk fuel s c = Raise e s' c'.

(** ** The loop of [process_lines_from_stream] *)

(** One pass of the loop: the answer says whether the loop goes on. *)
Definition drain_body : M LineReader.t bool :=
  l <- LineReader.readline ;;
  match l with
  | Some l => LineReader.process_line l ;; ret true
  | None => ret false   (* except IOError: return *)
  end.
(** ** Python list primitives inside their bounds *)

Lemma py_index_in_range {A} (i : Z) (l : list A) :
  (0 <= i < Z.of_nat (length l))%Z -> py_index i l = Some (Z.to_nat i).
Proof.
  intros [H0 H1]. unfold py_index.
  destruct (Z.leb_spec 0 i); [|lia].
  destruct (Z.ltb_spec i (Z.of_nat (length l))); [reflexivity|lia].
Qed.

Lemma slice_from_in_range {A} (i : Z) (l : list A) :
  (0 <= i <= Z.of_nat (length l))%Z -> slice_from i l = drop (Z.to_nat i) l.
Proof.
  intros [H0 H1]. unfold slice_from, slice_bound.
  destruct (Z.ltb_spec i 0); [lia|]. by rewrite Z.min_l.
Qed.

Lemma slice_to_in_range {A} (j : Z) (l : list A) :
  (0 <= j <= Z.of_nat (length l))%Z -> slice_to j l = take (Z.to_nat j) l.
Proof.
  intros [H0 H1]. unfold slice_to, slice_bound.
  destruct (Z.ltb_spec j 0); [lia|]. by rewrite Z.min_l.
Qed.

(** [l[-b:]] for [b >= 1] is the last [b] elements. *)
Lemma slice_from_neg_lastn {A} (b : Z) (l : list A) :
  (1 <= b)%Z -> slice_from (- b) l = lastn (Z.to_nat b) l.
Proof.
  intros Hb. unfold slice_from, slice_bound, lastn.
  destruct (Z.ltb_spec (- b) 0); [|lia]. f_equal. lia.
Qed.

(** [l[-0:]] is the whole list. *)
Lemma slice_from_zero {A} (l : list A) : slice_from (- 0) l = l.
Proof.
  unfold slice_from, slice_bound. simpl. rewrite Z.min_l by lia. reflexivity.
Qed.

(** ** The tick loop *)

Lemma inv_nbins_pos h : inv h -> (0 < TimeHistogram.nbins h)%Z.
Proof. intros [_ ?]. lia. Qed.

Lemma tick_inv h : inv h -> inv (tick h).
Proof.
  intros [Hlen Hcb]. unfold inv, tick. simpl. rewrite length_insert.
  split; [done|]. apply Z.mod_pos_bound. lia.
Qed.

Lemma tick_wf h : wf h -> wf (tick h).
Proof. intros [Hi Ht]. split; [by apply tick_inv | done]. Qed.

Lemma iter_tick_wf m h : wf h -> wf (Nat.iter m tick h).
Proof. intros Hw. induction m; simpl; [done | by apply tick_wf]. Qed.

Lemma iter_tick_ticklen m h :
  TimeHistogram.ticklen (Nat.iter m tick h) = TimeHistogram.ticklen h.
Proof. induction m; simpl; [done | by rewrite <- IHm]. Qed.

Lemma iter_tick_nbins m h :
  TimeHistogram.nbins (Nat.iter m tick h) = TimeHistogram.nbins h.
Proof. induction m; simpl; [done | by rewrite <- IHm]. Qed.

Lemma tick_body_spec clk fuel h c :
  inv h -> tick_body clk fuel h c = Ok tt (tick h) c.
Proof.
  intros [Hlen Hcb]. unfold tick_body, TimeHistogram.on_tick_change, bind, modify, get, put, raise.
  simpl. destruct (Z.eqb_spec (TimeHistogram.nbins h) 0); [lia|].
  simpl. rewrite py_index_in_range; [reflexivity|].
  rewrite Hlen. apply Z.mod_pos_bound. lia.
Qed.

Lemma tick_cond_true tnow h :
  tick_cond tnow h = true <-> (inject_Z (TimeHistogram.ticklen h) <= elapsed tnow h)%Q.
Proof. unfold tick_cond, elapsed. apply Qle_bool_iff. Qed.

Lemma tick_cond_false tnow h :
  tick_cond tnow h = false <-> (elapsed tnow h < inject_Z (TimeHistogram.ticklen h))%Q.
Proof.
  rewrite <- not_true_iff_false, tick_cond_true. split.
  - apply Qnot_le_lt.
  - apply Qlt_not_le.
Qed.

Lemma ticks_due_0 tnow h :
  ticks_due 0 tnow h <-> (elapsed tnow h < inject_Z (TimeHistogram.ticklen h))%Q.
Proof.
  unfold ticks_due. simpl (Z.of_nat 0 + 1)%Z. rewrite Z.mul_1_l. split.
  - by intros [? _].
  - intros ?. split; [done | lia].
Qed.

Lemma ticks_due_S m tnow h :
  (0 < TimeHistogram.ticklen h)%Z ->
  ticks_due (S m) tnow h ->
  tick_cond tnow h = true /\ ticks_due m tnow (tick h).
Proof.
  intros Ht [Hlt Hge]. specialize (Hge ltac:(lia)).
  assert (E : (elapsed tnow (tick h) == elapsed tnow h - inject_Z (TimeHistogram.ticklen h))%Q).
  { unfold elapsed, tick. simpl. ring. }
  assert (E1 : (inject_Z ((Z.of_nat (S m) + 1) * TimeHistogram.ticklen h) ==
                inject_Z ((Z.of_nat m + 1) * TimeHistogram.ticklen h)
                + inject_Z (TimeHistogram.ticklen h))%Q).
  { rewrite <- inject_Z_plus. apply inject_Z_injective. lia. }
  assert (E2 : (inject_Z (Z.of_nat (S m) * TimeHistogram.ticklen h) ==
                inject_Z (Z.of_nat m * TimeHistogram.ticklen h)
                + inject_Z (TimeHistogram.ticklen h))%Q).
  { rewrite <- inject_Z_plus. apply inject_Z_injective. lia. }
  assert (P : (0 <= inject_Z (Z.of_nat m * TimeHistogram.ticklen h))%Q).
  { change 0%Q with (inject_Z 0). rewrite <- Zle_Qle. apply Z.mul_nonneg_nonneg; lia. }
  rewrite E1 in Hlt. rewrite E2 in Hge. clear E1 E2.
  split.
  - apply tick_cond_true.
    apply Qle_trans with (2 := Hge).
    rewrite <- (Qplus_0_l (inject_Z (TimeHistogram.ticklen h))) at 1.
    by apply Qplus_le_l.
  - unfold ticks_due. simpl (TimeHistogram.ticklen (tick h)). rewrite E. split.
    + apply Qplus_lt_l with (z := inject_Z (TimeHistogram.ticklen h)).
      eapply Qle_lt_trans; [|exact Hlt]. apply Qle_lteq. right. ring.
    + intros _.
      apply Qplus_le_l with (z := inject_Z (TimeHistogram.ticklen h)).
      eapply Qle_trans; [exact Hge|]. apply Qle_lteq. right. ring.
Qed.

Lemma while_ticks clk fuel tnow c m :
  forall n h, wf h -> ticks_due m tnow h -> (m <= n)%nat ->
  while_loop n (tick_cond tnow) tick_body clk fuel h c = Ok tt (Nat.iter m tick h) c.
Proof.
  induction m as [|m IH]; intros n h Hw Hd Hn.
  - apply ticks_due_0, tick_cond_false in Hd.
    destruct n; simpl; by rewrite Hd.
  - destruct n as [|n]; [lia|].
    destruct (ticks_due_S m tnow h (proj2 Hw) Hd) as [Hc Hd'].
    simpl. rewrite Hc, tick_body_spec by apply Hw.
    rewrite IH; [| by apply tick_wf | done | lia].
    by rewrite <- Nat.iter_succ_r.
Qed.

(** The closed form [whole_ticks] counts the ticks that are due. *)
Lemma whole_ticks_due tnow h :
  (0 < TimeHistogram.ticklen h)%Z -> ticks_due (whole_ticks tnow h) tnow h.
Proof.
  intros Ht. unfold whole_ticks.
  set (T := inject_Z (TimeHistogram.ticklen h)).
  set (e := elapsed tnow h).
  assert (HT : (0 < T)%Q). { unfold T. change 0%Q with (inject_Z 0). by rewrite <- Zlt_Qlt. }
  assert (HTn : ~ (T == 0)%Q). { intros E. rewrite E in HT. by apply Qlt_irrefl in HT. }
  pose proof (Qfloor_le (e / T)) as Hlo.
  pose proof (Qlt_floor (e / T)) as Hhi.
  set (q := Qfloor (e / T)) in *.
  assert (Hlo' : (inject_Z q * T <= e)%Q).
  { apply (Qmult_le_r _ _ T HT) in Hlo.
    eapply Qle_trans; [exact Hlo|]. apply Qle_lteq. right. field. exact HTn. }
  assert (Hhi' : (e < inject_Z (q + 1) * T)%Q).
  { apply (Qmult_lt_r _ _ T HT) in Hhi.
    eapply Qle_lt_trans; [|exact Hhi]. apply Qle_lteq. right. field. exact HTn. }
  unfold ticks_due. fold e. fold T.
  destruct (Z.le_gt_cases 0 q) as [Hq|Hq].
  - rewrite Z2Nat.id by done. rewrite !inject_Z_mult. fold T. split; [done|]. by intros _.
  - replace (Z.to_nat q) with 0%nat by lia. split; [|lia].
    simpl (Z.of_nat 0 + 1)%Z. rewrite Z.mul_1_l. fold T.
    eapply Qlt_le_trans; [exact Hhi'|].
    rewrite <- (Qmult_1_l T) at 2. apply Qmult_le_r; [done|].
    change 1%Q with (inject_Z 1). rewrite <- Zle_Qle. lia.
Qed.

(** Tick intervals are disjoint: the number of ticks due is unique. *)
Lemma ticks_due_unique m tnow h :
  (0 < TimeHistogram.ticklen h)%Z -> ticks_due m tnow h -> whole_ticks tnow h = m.
Proof.
  intros Ht Hm. pose proof (whole_ticks_due tnow h Ht) as Hw.
  set (w := whole_ticks tnow h) in *.
  destruct Hm as [Hm1 Hm2], Hw as [Hw1 Hw2].
  destruct (Nat.lt_trichotomy w m) as [Hlt|[Heq|Hgt]]; [|done|].
  - exfalso. specialize (Hm2 ltac:(lia)).
    pose proof (Qle_lt_trans _ _ _ Hm2 Hw1) as Hc.
    rewrite <- Zlt_Qlt in Hc. nia.
  - exfalso. specialize (Hw2 ltac:(lia)).
    pose proof (Qle_lt_trans _ _ _ Hw2 Hm1) as Hc.
    rewrite <- Zlt_Qlt in Hc. nia.
Qed.

Lemma advance_wf tnow h : wf h -> wf (advance tnow h).
Proof. apply iter_tick_wf. Qed.

(** [check_for_tick_changed] performs exactly the ticks that are due. *)
Lemma check_for_tick_changed_iter clk fuel h c m :
  wf h -> ticks_due m (clk c) h -> (m <= fuel)%nat ->
  TimeHistogram.check_for_tick_changed clk fuel h c = Ok tt (Nat.iter m tick h) (S c).
Proof.
  intros Hw Hd Hf.
  change (while_loop fuel (tick_cond (clk c)) tick_body clk fuel h (S c)
          = Ok tt (Nat.iter m tick h) (S c)).
  by apply while_ticks.
Qed.

Lemma check_for_tick_changed_spec clk fuel h c :
  wf h -> (whole_ticks (clk c) h <= fuel)%nat ->
  TimeHistogram.check_for_tick_changed clk fuel h c = Ok tt (advance (clk c) h) (S c).
Proof.
  intros Hw Hf. apply check_for_tick_changed_iter; [done | | done].
  apply whole_ticks_due, Hw.
Qed.

(** ** Bins in time order *)

Lemma rotation_step (l : list Q) (k : nat) :
  (k < length l)%nat ->
  drop (S k) (<[k := 0%Q]> l) ++ take (S k) (<[k := 0%Q]> l)
  = drop 1 (drop k l ++ take k l) ++ [0%Q].
Proof.
  intros Hk. destruct (lookup_lt_is_Some_2 l k Hk) as [x Hx].
  pose proof (take_drop_middle l k x Hx) as Hd.
  assert (Hlen : length (take k l) = k) by (rewrite length_take; lia).
  revert Hd Hlen. generalize (take k l) (drop (S k) l). intros A B <- HA.
  rewrite insert_app_r_alt by lia. replace (k - length A)%nat with 0%nat by lia.
  simpl (<[0%nat:=_]> _).
  rewrite drop_app_ge, take_app_ge by lia.
  replace (S k - length A)%nat with 1%nat by lia.
  rewrite (drop_app_length' A _ k) by done.
  simpl. rewrite !drop_0, take_0. by rewrite app_assoc.
Qed.

Lemma ordered_length h : inv h -> length (ordered h) = length (TimeHistogram._bins h).
Proof.
  intros [Hl Hc]. unfold ordered. rewrite length_app, length_drop, length_take. lia.
Qed.

Lemma ordered_tick h : inv h -> ordered (tick h) = drop 1 (ordered h) ++ [0%Q].
Proof.
  intros [Hl Hc]. unfold ordered, tick. simpl.
  set (l := TimeHistogram._bins h) in *.
  set (cb := TimeHistogram.current_bin h) in *.
  set (n := TimeHistogram.nbins h) in *.
  assert (Hk : (0 <= (cb + 1) mod n < n)%Z) by (apply Z.mod_pos_bound; lia).
  replace (Z.to_nat ((cb + 1) mod n + 1)) with (S (Z.to_nat ((cb + 1) mod n))) by lia.
  rewrite rotation_step by lia. do 2 f_equal.
  destruct (Z.eq_dec (cb + 1)%Z n) as [E|E].
  - rewrite E, Z.mod_same by lia. simpl.
    rewrite drop_0, take_0, drop_ge, take_ge by lia. by rewrite app_nil_r.
  - by rewrite Z.mod_small by lia.
Qed.

Lemma ordered_iter m h :
  inv h ->
  ordered (Nat.iter m tick h)
  = drop m (ordered h) ++ replicate (min m (length (TimeHistogram._bins h))) 0%Q.
Proof.
  intros Hi. pose proof (inv_nbins_pos h Hi) as Hp. pose proof Hi as [Hl _].
  induction m as [|m IH].
  - simpl. by rewrite drop_0, app_nil_r.
  - simpl (Nat.iter _ _ _). rewrite ordered_tick, IH.
    2:{ clear IH. induction m; simpl; [done | by apply tick_inv]. }
    pose proof (ordered_length h Hi) as Ho.
    destruct (Nat.lt_ge_cases m (length (TimeHistogram._bins h))) as [Hlt|Hge].
    + rewrite drop_app_le by (rewrite length_drop; lia).
      rewrite drop_drop, <- app_assoc.
      rewrite Nat.min_l, (Nat.min_l (S m)) by lia.
      rewrite replicate_S_end. by rewrite Nat.add_1_r.
    + rewrite (drop_ge _ m), (drop_ge _ (S m)) by lia. rewrite !app_nil_l.
      rewrite !Nat.min_r by lia. rewrite drop_replicate.
      rewrite <- replicate_S_end. f_equal. lia.
Qed.

(** After [m] ticks the [min m nbins] most recent bins are zero. *)
Lemma ordered_iter_recent m h :
  inv h ->
  lastn (min m (length (TimeHistogram._bins h))) (ordered (Nat.iter m tick h))
  = replicate (min m (length (TimeHistogram._bins h))) 0%Q.
Proof.
  intros Hi. rewrite ordered_iter by done. unfold lastn.
  pose proof (ordered_length h Hi) as Ho.
  apply drop_app_length'.
  rewrite length_app, length_drop, length_replicate. lia.
Qed.

(** ** Specifications of the methods of [TimeHistogram] *)

Lemma bins_spec clk fuel h c :
  wf h -> (whole_ticks (clk c) h <= fuel)%nat ->
  TimeHistogram.bins clk fuel h c
  = Ok (ordered (advance (clk c) h)) (advance (clk c) h) (S c).
Proof.
  intros Hw Hf. unfold TimeHistogram.bins, bind.
  rewrite check_for_tick_changed_spec by done.
  destruct (advance_wf (clk c) h Hw) as [[Hl Hc] _].
  unfold get, ret, ordered.
  rewrite slice_from_in_range, slice_to_in_range by lia. reflexivity.
Qed.

Lemma add_spec n clk fuel h c :
  wf h -> (whole_ticks (clk c) h <= fuel)%nat ->
  TimeHistogram.add n clk fuel h c = Ok tt (bump n (advance (clk c) h)) (S c).
Proof.
  intros Hw Hf. unfold TimeHistogram.add, bind.
  rewrite check_for_tick_changed_spec by done.
  destruct (advance_wf (clk c) h Hw) as [[Hl Hc] _].
  unfold get. rewrite py_index_in_range by lia.
  destruct (lookup_lt_is_Some_2 (TimeHistogram._bins (advance (clk c) h))
              (Z.to_nat (TimeHistogram.current_bin (advance (clk c) h)))
              ltac:(lia)) as [x Hx].
  rewrite Hx. unfold put, bump. do 2 f_equal.
  rewrite list_insert_alter. apply list_alter_ext; [|done].
  intros y Hy. congruence.
Qed.

Lemma sum_spec k clk fuel h c :
  wf h -> (whole_ticks (clk c) h <= fuel)%nat ->
  TimeHistogram.sum k clk fuel h c
  = Ok (pysum (slice_from (- (k / TimeHistogram.ticklen h)) (ordered (advance (clk c) h))))
       (advance (clk c) h) (S c).
Proof.
  intros Hw Hf. unfold TimeHistogram.sum, bind, get.
  destruct (Z.eqb_spec (TimeHistogram.ticklen h) 0) as [E|_]; [destruct Hw; lia|].
  by rewrite bins_spec.
Qed.

Lemma mean_spec k clk fuel h c :
  wf h -> (whole_ticks (clk c) h <= fuel)%nat ->
  let k' := if (TimeHistogram.totalticktime h <? k)%Z
            then TimeHistogram.totalticktime h else k in
  let b := (k' / TimeHistogram.ticklen h)%Z in
  let s := pysum (slice_from (- b) (ordered (advance (clk c) h))) in
  TimeHistogram.mean k clk fuel h c
  = if (b =? 0)%Z then Ok 0%Q h c
    else if fits_double (inject_Z b) && fits_double s
         then Ok (s / inject_Z b)%Q (advance (clk c) h) (S c)
         else Raise OverflowError (advance (clk c) h) (S c).
Proof.
  intros Hw Hf k' b s. unfold TimeHistogram.mean, bind, get.
  destruct (Z.eqb_spec (TimeHistogram.ticklen h) 0) as [E|_]; [destruct Hw; lia|].
  fold k'. fold b. destruct (b =? 0)%Z; [reflexivity|].
  rewrite sum_spec by done. fold b. fold s.
  by destruct (fits_double (inject_Z b) && fits_double s).
Qed.

(** [l[i:]] for a positive [i] drops the first [i] elements. *)
Lemma slice_from_pos_drop {A} (i : Z) (l : list A) :
  (1 <= i)%Z -> slice_from i l = drop (Z.to_nat i) l.
Proof.
  intros Hi. unfold slice_from, slice_bound.
  destruct (Z.ltb_spec i 0); [lia|].
  destruct (Z.le_ge_cases i (Z.of_nat (length l))).
  - by rewrite Z.min_l.
  - rewrite Z.min_r by done. rewrite Nat2Z.id.
    rewrite !drop_ge; [done | lia | lia].
Qed.

(** The two sample windows are what the constructor and two calls of
    [add], one tick apart, produce. *)
Example window3_reached :
  (h <- TimeHistogram.init 3 2 ;; put h ;; TimeHistogram.add 5 ;; TimeHistogram.add 7)
    (clock_of [0; 0; 2]%Q) 1%nat window3 0%nat
  = Ok tt window3 3%nat.
Proof. vm_compute. reflexivity. Qed.

Example window3s_reached :
  (h <- TimeHistogram.init 3 1 ;; put h ;; TimeHistogram.add 5 ;; TimeHistogram.add 7)
    (clock_of [0; 0; 1]%Q) 1%nat window3s 0%nat
  = Ok tt window3s 3%nat.
Proof. vm_compute. reflexivity. Qed.

(** ** Counters after [m] ticks *)

Lemma iter_tick_current_bin m h :
  inv h ->
  TimeHistogram.current_bin (Nat.iter m tick h)
  = ((TimeHistogram.current_bin h + Z.of_nat m) mod TimeHistogram.nbins h)%Z.
Proof.
  intros [_ Hc]. induction m as [|m IH].
  - simpl. rewrite Z.add_0_r, Z.mod_small; lia.
  - simpl (Nat.iter _ _ _). unfold tick at 1. simpl.
    rewrite IH, iter_tick_nbins, Z.add_mod_idemp_l by lia. f_equal. lia.
Qed.

Lemma iter_tick_n_ticks m h :
  TimeHistogram.n_ticks (Nat.iter m tick h) = (TimeHistogram.n_ticks h + Z.of_nat m)%Z.
Proof.
  induction m as [|m IH]; simpl (Nat.iter _ _ _).
  - simpl. lia.
  - unfold tick at 1. simpl. rewrite IH. lia.
Qed.

(** ** Properties of the rolling window *)

(** C8: when the clock reading lies before the last tick boundary (negative
    elapsed time), the tick-advance check performs no iteration at all (it
    returns even with no fuel) and leaves the whole window, its current-bin
    index, bins and tick counters included, as it was. *)
Theorem clock_regression_advances_no_tick clk fuel h c :
  (0 <= TimeHistogram.ticklen h)%Z ->
  (clk c < TimeHistogram.last_tick h)%Q ->
  TimeHistogram.check_for_tick_changed clk fuel h c = Ok tt h (S c).
Proof.
  intros Ht Hback.
  change (while_loop fuel (tick_cond (clk c)) tick_body clk fuel h (S c) = Ok tt h (S c)).
  assert (Hc : tick_cond (clk c) h = false).
  { apply tick_cond_false. unfold elapsed.
    apply Qlt_le_trans with 0%Q.
    - apply Qlt_minus_iff in Hback. apply Qlt_minus_iff.
      eapply Qlt_le_trans; [exact Hback|]. apply Qle_lteq. right. ring.
    - change 0%Q with (inject_Z 0). by rewrite <- Zle_Qle. }
  destruct fuel; simpl; by rewrite Hc.
Qed.

Lemma clock_regression_advances_no_tick_witness :
  TimeHistogram.check_for_tick_changed (clock_of [1]%Q) 0 window3 0%nat
  = Ok tt window3 1%nat.
Proof.
  apply clock_regression_advances_no_tick.
  - simpl. lia.
  - reflexivity.
Defined.

(** C4: when [m >= 1] whole tick intervals have elapsed since the last tick
    boundary, the tick-advance check of the next operation performs exactly
    [m] ticks, each stepping the current-bin index cyclically and zeroing
    the bin it reaches; the bins then read in time order end with
    [min m nbins] zeros. *)
Theorem idle_ticks_zero_recent_bins clk h c (m : nat) :
  wf h ->
  (1 <= m)%nat ->
  (inject_Z (Z.of_nat m * TimeHistogram.ticklen h) <= clk c - TimeHistogram.last_tick h)%Q ->
  (clk c - TimeHistogram.last_tick h < inject_Z ((Z.of_nat m + 1) * TimeHistogram.ticklen h))%Q ->
  exists n0 : nat, forall fuel, (n0 <= fuel)%nat ->
    let h' := Nat.iter m tick h in
    TimeHistogram.check_for_tick_changed clk fuel h c = Ok tt h' (S c)
    /\ TimeHistogram.bins clk fuel h c = Ok (ordered h') h' (S c)
    /\ TimeHistogram.current_bin h'
       = ((TimeHistogram.current_bin h + Z.of_nat m) mod TimeHistogram.nbins h)%Z
    /\ TimeHistogram.n_ticks h' = (TimeHistogram.n_ticks h + Z.of_nat m)%Z
    /\ lastn (min m (Z.to_nat (TimeHistogram.nbins h))) (ordered h')
       = replicate (min m (Z.to_nat (TimeHistogram.nbins h))) 0%Q.
Proof.
  intros Hw Hm Hlo Hhi. exists m. intros fuel Hf h'.
  assert (Hd : ticks_due m (clk c) h) by (split; [exact Hhi | intros _; exact Hlo]).
  pose proof (ticks_due_unique m (clk c) h (proj2 Hw) Hd) as Hu.
  assert (Ha : advance (clk c) h = h') by (unfold advance; by rewrite Hu).
  destruct Hw as [Hi Ht]. repeat split.
  - by apply check_for_tick_changed_iter.
  - rewrite bins_spec, Ha; [done | done | lia].
  - by apply iter_tick_current_bin.
  - apply iter_tick_n_ticks.
  - destruct Hi as [Hl Hc]. rewrite <- Hl, Nat2Z.id.
    apply ordered_iter_recent. by split.
Qed.

Lemma idle_ticks_zero_recent_bins_witness :
  exists n0 : nat, forall fuel, (n0 <= fuel)%nat ->
    let h' := Nat.iter 2 tick window3 in
    TimeHistogram.check_for_tick_changed (clock_of [7]%Q) fuel window3 0%nat = Ok tt h' 1%nat
    /\ TimeHistogram.bins (clock_of [7]%Q) fuel window3 0%nat = Ok (ordered h') h' 1%nat
    /\ TimeHistogram.current_bin h' = ((1 + 2) mod 3)%Z
    /\ TimeHistogram.n_ticks h' = (1 + 2)%Z
    /\ lastn (min 2 3) (ordered h') = replicate (min 2 3) 0%Q.
Proof.
  apply (idle_ticks_zero_recent_bins (clock_of [7]%Q) window3 0%nat 2).
  - repeat split; simpl; lia.
  - lia.
  - vm_compute. discriminate.
  - reflexivity.
Defined.

(** C3, as the code has it: after the forced tick-advance check, [sum k]
    returns the sum of the last [k / ticklen] bins in time order, where [/]
    rounds down and at least one whole bin is asked for; [lastn] takes the
    whole window when that number exceeds the number of bins. *)
Theorem sum_over_last_whole_bins clk h c k :
  wf h ->
  (1 <= k / TimeHistogram.ticklen h)%Z ->
  exists n0 : nat, forall fuel, (n0 <= fuel)%nat ->
    let h' := advance (clk c) h in
    TimeHistogram.check_for_tick_changed clk fuel h c = Ok tt h' (S c)
    /\ TimeHistogram.sum k clk fuel h c
       = Ok (pysum (lastn (Z.to_nat (k / TimeHistogram.ticklen h)) (ordered h'))) h' (S c).
Proof.
  intros Hw Hb. exists (whole_ticks (clk c) h). intros fuel Hf h'. split.
  - by apply check_for_tick_changed_spec.
  - rewrite sum_spec by done. by rewrite slice_from_neg_lastn.
Qed.

Lemma sum_over_last_whole_bins_witness :
  exists n0 : nat, forall fuel, (n0 <= fuel)%nat ->
    let h' := advance (clock_of [2]%Q 0%nat) window3 in
    TimeHistogram.check_for_tick_changed (clock_of [2]%Q) fuel window3 0%nat = Ok tt h' 1%nat
    /\ TimeHistogram.sum 3 (clock_of [2]%Q) fuel window3 0%nat
       = Ok (pysum (lastn (Z.to_nat (3 / 2)) (ordered h'))) h' 1%nat.
Proof.
  apply (sum_over_last_whole_bins (clock_of [2]%Q) window3 0%nat 3).
  - repeat split; simpl; lia.
  - vm_compute. discriminate.
Defined.

(** C3 as stated fails: with bins of two seconds, [sum 3] adds up one bin
    (3 / 2 rounded down), giving 7, while the last [ceil (3 / 2) = 2] bins
    add up to 12. *)
Lemma sum_over_ceil_counterexample :
  TimeHistogram.sum 3 (clock_of [2]%Q) 1 window3 0%nat = Ok 7%Q window3 1%nat
  /\ ordered window3 = [0; 5; 7]%Q
  /\ ceil_div 3 (TimeHistogram.ticklen window3) = 2%Z
  /\ pysum (lastn (Z.to_nat (ceil_div 3 (TimeHistogram.ticklen window3))) (ordered window3))
     = 12%Q
  /\ ~ (7 == 12)%Q.
Proof.
  repeat split; try (vm_compute; reflexivity). intros H. discriminate H.
Qed.

(** C9: for [0 <= k < ticklen] the integer division [k / ticklen] is 0, the
    slice [bins[-0:]] is the whole list, and [sum k] returns the total of
    all [nbins] bins. *)
Theorem sum_short_horizon_is_window_total clk h c k :
  wf h ->
  (0 <= k < TimeHistogram.ticklen h)%Z ->
  exists n0 : nat, forall fuel, (n0 <= fuel)%nat ->
    let h' := advance (clk c) h in
    (k / TimeHistogram.ticklen h = 0)%Z
    /\ TimeHistogram.sum k clk fuel h c = Ok (pysum (ordered h')) h' (S c)
    /\ length (ordered h') = Z.to_nat (TimeHistogram.nbins h).
Proof.
  intros Hw Hk. exists (whole_ticks (clk c) h). intros fuel Hf h'.
  pose proof (Z.div_small _ _ Hk) as Hz. repeat split.
  - exact Hz.
  - rewrite sum_spec by done. by rewrite Hz, slice_from_zero.
  - destruct (advance_wf (clk c) h Hw) as [Hi _].
    rewrite ordered_length by done. destruct Hi as [Hl _].
    unfold h', advance in *. rewrite iter_tick_nbins in Hl. lia.
Qed.

Lemma sum_short_horizon_is_window_total_witness :
  exists n0 : nat, forall fuel, (n0 <= fuel)%nat ->
    let h' := advance (clock_of [2]%Q 0%nat) window3 in
    (1 / 2 = 0)%Z
    /\ TimeHistogram.sum 1 (clock_of [2]%Q) fuel window3 0%nat = Ok (pysum (ordered h')) h' 1%nat
    /\ length (ordered h') = Z.to_nat 3.
Proof.
  apply (sum_short_horizon_is_window_total (clock_of [2]%Q) window3 0%nat 1).
  - repeat split; simpl; lia.
  - simpl. lia.
Defined.

(** C5, as the code has it: [mean k] first clamps the horizon to
    [k' = min k totalticktime], counts [b = k' / ticklen] bins, and returns 0
    without touching the window when [b = 0]. Otherwise it catches up with
    the pending ticks and divides [sum k'], not [sum k], by [b]: the sum of
    the last [b] bins when [b >= 1], the sum of all bins but the [-b] oldest
    when [b <= -1] (a negative horizon or a negative [totalticktime]). When
    [b] or the sum is beyond the range of a double, the division raises
    [OverflowError] once [sum] has returned. When [totalticktime] is
    [n_ticks] tick lengths and is less than [k], the bins counted are the
    [n_ticks] ticks recorded so far. *)
Theorem mean_over_clamped_horizon clk h c k :
  wf h ->
  let k' := Z.min k (TimeHistogram.totalticktime h) in
  let b := (k' / TimeHistogram.ticklen h)%Z in
  exists n0 : nat, forall fuel, (n0 <= fuel)%nat ->
    let h' := advance (clk c) h in
    let s := pysum (slice_from (- b) (ordered h')) in
    (b = 0%Z -> TimeHistogram.mean k clk fuel h c = Ok 0%Q h c)
    /\ (b <> 0%Z ->
        TimeHistogram.sum k' clk fuel h c = Ok s h' (S c)
        /\ TimeHistogram.mean k clk fuel h c
           = if fits_double (inject_Z b) && fits_double s
             then Ok (s / inject_Z b)%Q h' (S c)
             else Raise OverflowError h' (S c))
    /\ ((1 <= b)%Z -> s = pysum (lastn (Z.to_nat b) (ordered h')))
    /\ ((b <= -1)%Z -> s = pysum (drop (Z.to_nat (- b)) (ordered h')))
    /\ (TimeHistogram.totalticktime h = (TimeHistogram.n_ticks h * TimeHistogram.ticklen h)%Z ->
        (TimeHistogram.totalticktime h < k)%Z -> b = TimeHistogram.n_ticks h).
Proof.
  intros Hw k' b. exists (whole_ticks (clk c) h). intros fuel Hf h' s.
  pose proof (mean_spec k clk fuel h c Hw Hf) as Hm. cbv zeta in Hm.
  assert (Ek : (if (TimeHistogram.totalticktime h <? k)%Z
                then TimeHistogram.totalticktime h else k) = k').
  { unfold k'. destruct (Z.ltb_spec (TimeHistogram.totalticktime h) k); lia. }
  rewrite Ek in Hm. fold b in Hm. fold h' in Hm. fold s in Hm.
  split; [|split; [|split; [|split]]].
  - intros Hb. by rewrite Hm, Hb.
  - intros Hb. split.
    + by rewrite sum_spec.
    + rewrite Hm. by destruct (Z.eqb_spec b 0).
  - intros Hb. unfold s. by rewrite slice_from_neg_lastn.
  - intros Hb. unfold s. by rewrite slice_from_pos_drop by lia.
  - intros Ht Hlt. unfold b, k'. rewrite Z.min_r by lia. rewrite Ht.
    apply Z.div_mul. destruct Hw; lia.
Qed.

Lemma mean_over_clamped_horizon_witness :
  let k' := Z.min 60 1 in
  let b := (k' / 1)%Z in
  exists n0 : nat, forall fuel, (n0 <= fuel)%nat ->
    let h' := advance (clock_of [1]%Q 0%nat) window3s in
    let s := pysum (slice_from (- b) (ordered h')) in
    (b = 0%Z -> TimeHistogram.mean 60 (clock_of [1]%Q) fuel window3s 0%nat = Ok 0%Q window3s 0%nat)
    /\ (b <> 0%Z ->
        TimeHistogram.sum k' (clock_of [1]%Q) fuel window3s 0%nat = Ok s h' 1%nat
        /\ TimeHistogram.mean 60 (clock_of [1]%Q) fuel window3s 0%nat
           = if fits_double (inject_Z b) && fits_double s
             then Ok (s / inject_Z b)%Q h' 1%nat
             else Raise OverflowError h' 1%nat)
    /\ ((1 <= b)%Z -> s = pysum (lastn (Z.to_nat b) (ordered h')))
    /\ ((b <= -1)%Z -> s = pysum (drop (Z.to_nat (- b)) (ordered h')))
    /\ (1 = 1 * 1 -> 1 < 60 -> b = 1)%Z.
Proof.
  apply (mean_over_clamped_horizon (clock_of [1]%Q) window3s 0%nat 60).
  repeat split; simpl; lia.
Defined.

(** A negative horizon: with one-second bins holding 3, 5 and 7 in time
    order, [mean (-1)] adds up all bins but the oldest and divides by -1. *)
Example mean_negative_horizon :
  let h := TimeHistogram.mk 2 0 1 2 2 3 [3; 5; 7]%Q 2 in
  ordered h = [3; 5; 7]%Q
  /\ TimeHistogram.mean (-1) (clock_of [2]%Q) 1 h 0%nat = Ok (-12)%Q h 1%nat.
Proof. split; vm_compute; reflexivity. Qed.

(** A sum beyond the range of a double: once [10 ^ 400] has been added to
    the current bin, [mean 1] raises [OverflowError], where [sum 1] returns
    the sum. *)
Example mean_overflow :
  let big := inject_Z (10 ^ 400) in
  (TimeHistogram.add big ;; TimeHistogram.mean 1) (clock_of [1]%Q) 1 window3s 0%nat
  = Raise OverflowError (bump big window3s) 2%nat
  /\ (TimeHistogram.add big ;; TimeHistogram.sum 1) (clock_of [1]%Q) 1 window3s 0%nat
     = Ok (7 + big)%Q (bump big window3s) 2%nat.
Proof. split; vm_compute; reflexivity. Qed.

(** C5 as stated fails: one tick after its creation a window holding 5 and
    7 answers [mean 60] with 7 (the last bin alone, over one bin counted),
    while [sum 60] is 12, so the stated quotient is 12. *)
Lemma mean_over_counterexample :
  TimeHistogram.mean 60 (clock_of [1]%Q) 1 window3s 0%nat = Ok 7%Q window3s 1%nat
  /\ TimeHistogram.sum 60 (clock_of [1]%Q) 1 window3s 0%nat = Ok 12%Q window3s 1%nat
  /\ TimeHistogram.n_ticks window3s = 1%Z
  /\ ~ (7 == 12 / inject_Z 1)%Q.
Proof.
  repeat split; try (vm_compute; reflexivity). intros H. discriminate H.
Qed.

Lemma bump_inv n h : inv h -> inv (bump n h).
Proof. intros [Hl Hc]. unfold inv, bump. simpl. by rewrite length_alter. Qed.

Lemma bump_wf n h : wf h -> wf (bump n h).
Proof. intros [Hi Ht]. split; [by apply bump_inv | done]. Qed.

Lemma advance_preserved tnow h : wf h -> preserved h (advance tnow h).
Proof.
  intros Hw. split; [apply advance_wf, Hw | apply iter_tick_nbins].
Qed.

Lemma on_tick_change_spec clk fuel h c :
  inv h ->
  exists h', TimeHistogram.on_tick_change clk fuel h c = Ok tt h' c /\ preserved h h'.
Proof.
  intros [Hl Hc]. unfold TimeHistogram.on_tick_change, bind, modify, get, put, raise.
  destruct (Z.eqb_spec (TimeHistogram.nbins h) 0); [lia|].
  simpl. rewrite py_index_in_range.
  2:{ rewrite Hl. apply Z.mod_pos_bound. lia. }
  eexists. split; [reflexivity|].
  unfold preserved, inv. simpl. rewrite length_insert.
  repeat split; try done; apply Z.mod_pos_bound; lia.
Qed.

(** C10: from a window whose bin sequence has [nbins] entries and whose
    current-bin index lies in [0, nbins), with a positive tick length, every
    operation (a tick, the tick-advance check, [add], [sum], [mean] and the
    ordered-bins read) ends given enough fuel, and leaves a window with the
    same [nbins] that satisfies the invariant again. All of them return
    normally, except that [mean] raises [OverflowError] when its division
    has an operand beyond the range of a double; [sum] has returned by then,
    and the window is as [sum] left it. *)
Theorem window_operations_preserve_invariant clk h c :
  inv h ->
  (0 < TimeHistogram.ticklen h)%Z ->
  exists n0 : nat, forall fuel, (n0 <= fuel)%nat ->
    (exists h', TimeHistogram.on_tick_change clk fuel h c = Ok tt h' c /\ preserved h h')
    /\ (exists h', TimeHistogram.check_for_tick_changed clk fuel h c = Ok tt h' (S c)
                   /\ preserved h h')
    /\ (forall n, exists h', TimeHistogram.add n clk fuel h c = Ok tt h' (S c)
                             /\ preserved h h')
    /\ (forall k, exists v h', TimeHistogram.sum k clk fuel h c = Ok v h' (S c)
                               /\ preserved h h')
    /\ (forall k, exists h' c',
          ((exists v, TimeHistogram.mean k clk fuel h c = Ok v h' c')
           \/ TimeHistogram.mean k clk fuel h c = Raise OverflowError h' c')
          /\ preserved h h')
    /\ (exists bs h', TimeHistogram.bins clk fuel h c = Ok bs h' (S c)
                      /\ preserved h h'
                      /\ length bs = Z.to_nat (TimeHistogram.nbins h)).
Proof.
  intros Hi Ht. assert (Hw : wf h) by done.
  exists (whole_ticks (clk c) h). intros fuel Hf.
  pose proof (advance_preserved (clk c) h Hw) as Hp.
  repeat split.
  - by apply on_tick_change_spec.
  - eexists. split; [by apply check_for_tick_changed_spec | done].
  - intros n. eexists. split; [by apply add_spec|].
    destruct Hp as [Hp1 Hp2]. split; [by apply bump_inv | done].
  - intros k. do 2 eexists. split; [by apply sum_spec | done].
  - intros k. pose proof (mean_spec k clk fuel h c Hw Hf) as Hm. cbv zeta in Hm.
    rewrite Hm. destruct (_ =? 0)%Z; [|destruct (_ && _)]; do 2 eexists.
    + split; [left; eexists; reflexivity | by split].
    + split; [left; eexists; reflexivity | done].
    + split; [right; reflexivity | done].
  - do 2 eexists. split; [by apply bins_spec|]. split; [done|].
    destruct Hp as [Hp1 Hp2]. rewrite ordered_length by done.
    destruct Hp1 as [Hl _]. lia.
Qed.

Lemma window_operations_preserve_invariant_witness :
  exists n0 : nat, forall fuel, (n0 <= fuel)%nat ->
    (exists h', TimeHistogram.on_tick_change (clock_of [7]%Q) fuel window3 0%nat = Ok tt h' 0%nat
                /\ preserved window3 h')
    /\ (exists h', TimeHistogram.check_for_tick_changed (clock_of [7]%Q) fuel window3 0%nat
                   = Ok tt h' 1%nat /\ preserved window3 h')
    /\ (forall n, exists h', TimeHistogram.add n (clock_of [7]%Q) fuel window3 0%nat
                             = Ok tt h' 1%nat /\ preserved window3 h')
    /\ (forall k, exists v h', TimeHistogram.sum k (clock_of [7]%Q) fuel window3 0%nat
                               = Ok v h' 1%nat /\ preserved window3 h')
    /\ (forall k, exists h' c',
          ((exists v, TimeHistogram.mean k (clock_of [7]%Q) fuel window3 0%nat = Ok v h' c')
           \/ TimeHistogram.mean k (clock_of [7]%Q) fuel window3 0%nat
              = Raise OverflowError h' c')
          /\ preserved window3 h')
    /\ (exists bs h', TimeHistogram.bins (clock_of [7]%Q) fuel window3 0%nat = Ok bs h' 1%nat
                      /\ preserved window3 h' /\ length bs = Z.to_nat 3).
Proof.
  apply (window_operations_preserve_invariant (clock_of [7]%Q) window3 0%nat).
  - repeat split; simpl; lia.
  - simpl. lia.
Defined.

(** ** Totals of bins *)

Lemma fold_left_Qplus_acc (l : list Q) (a : Q) :
  (fold_left Qplus l a == a + fold_left Qplus l 0)%Q.
Proof.
  revert a. induction l as [|x l IH]; intros a; simpl.
  - ring.
  - rewrite IH, (IH (0 + x)%Q). ring.
Qed.

Lemma pysum_cons (x : Q) (l : list Q) : (pysum (x :: l) == x + pysum l)%Q.
Proof. unfold pysum. simpl. rewrite fold_left_Qplus_acc. ring. Qed.

Lemma pysum_alter (l : list Q) (i : nat) (n : Q) :
  (i < length l)%nat ->
  (pysum (alter (fun y => y + n) i l) == pysum l + n)%Q.
Proof.
  revert i. induction l as [|x l IH]; intros i Hi; simpl in Hi; [lia|].
  destruct i as [|i].
  - change (alter (fun y => y + n)%Q 0%nat (x :: l)) with ((x + n)%Q :: l).
    rewrite !pysum_cons. ring.
  - change (alter (fun y => y + n)%Q (S i) (x :: l))
      with (x :: alter (fun y => y + n)%Q i l).
    rewrite !pysum_cons, IH by lia. ring.
Qed.

(** [bump n] raises the total of a window by exactly [n]. *)
Lemma bump_total n h : inv h -> (total (bump n h) == total h + n)%Q.
Proof.
  intros [Hl Hc]. unfold total, bump. simpl. apply pysum_alter. lia.
Qed.

(** ** Specifications of the methods of [ThroughputCounter] *)

Example fresh_counter_constructed :
  ThroughputCounter.init (clock_of [0]%Q) 0 tt 0%nat = Ok fresh_counter tt 5%nat.
Proof. vm_compute. reflexivity. Qed.

Lemma fresh_counter_wf : wf_counter fresh_counter.
Proof. unfold wf_counter, wf, inv. simpl. repeat split; lia. Qed.

Lemma process_burst_spec clk fuel tc c data i m ps p :
  wf (ThroughputCounter.burst_hist tc) ->
  wf (ThroughputCounter.point_hist tc) ->
  data !! "identity" = Some i ->
  data !! "message id" = Some m ->
  data !! "points" = Some ps ->
  py_int ps = Some p ->
  (whole_ticks (clk (S c)) (ThroughputCounter.burst_hist tc) <= fuel)%nat ->
  (whole_ticks (clk (S (S c))) (ThroughputCounter.point_hist tc) <= fuel)%nat ->
  ThroughputCounter.process_burst data clk fuel tc c
  = Ok tt
      (ThroughputCounter.mk
         (bump (inject_Z p) (advance (clk (S (S c))) (ThroughputCounter.point_hist tc)))
         (bump 1 (advance (clk (S c)) (ThroughputCounter.burst_hist tc)))
         (ThroughputCounter.acked_burst_hist tc)
         (ThroughputCounter.latency_hist tc)
         (ThroughputCounter.ack_hist tc)
         (<[i +:+ m := (clk c, p)]> (ThroughputCounter.outstanding_bursts tc)))
      (S (S (S c))).
Proof.
  intros Hb Hp Hi Hm Hps Hint Hf1 Hf2.
  unfold ThroughputCounter.process_burst. rewrite Hi, Hm, Hps, Hint.
  unfold bind, time, modify, zoom.
  cbn [ThroughputCounter.burst_hist ThroughputCounter.set_outstanding_bursts].
  rewrite add_spec by done.
  cbn [ThroughputCounter.point_hist ThroughputCounter.set_burst_hist].
  rewrite add_spec by done.
  reflexivity.
Qed.

Lemma process_ack_spec clk fuel tc c data i m ts p :
  wf (ThroughputCounter.ack_hist tc) ->
  wf (ThroughputCounter.acked_burst_hist tc) ->
  wf (ThroughputCounter.latency_hist tc) ->
  data !! "identity" = Some i ->
  data !! "message id" = Some m ->
  ThroughputCounter.outstanding_bursts tc !! (i +:+ m) = Some (ts, p) ->
  (whole_ticks (clk (S c)) (ThroughputCounter.ack_hist tc) <= fuel)%nat ->
  (whole_ticks (clk (S (S c))) (ThroughputCounter.acked_burst_hist tc) <= fuel)%nat ->
  (whole_ticks (clk (S (S (S c)))) (ThroughputCounter.latency_hist tc) <= fuel)%nat ->
  ThroughputCounter.process_ack data clk fuel tc c
  = Ok tt
      (ThroughputCounter.mk
         (ThroughputCounter.point_hist tc)
         (ThroughputCounter.burst_hist tc)
         (bump 1 (advance (clk (S (S c))) (ThroughputCounter.acked_burst_hist tc)))
         (bump (clk c - ts) (advance (clk (S (S (S c)))) (ThroughputCounter.latency_hist tc)))
         (bump (inject_Z p) (advance (clk (S c)) (ThroughputCounter.ack_hist tc)))
         (delete (i +:+ m) (ThroughputCounter.outstanding_bursts tc)))
      (S (S (S (S c)))).
Proof.
  intros Ha Hab Hl Hi Hm Hk Hf1 Hf2 Hf3.
  unfold ThroughputCounter.process_ack. rewrite Hi, Hm.
  unfold bind at 1. unfold get. rewrite Hk.
  unfold bind, time, modify, zoom.
  cbn [ThroughputCounter.ack_hist ThroughputCounter.set_outstanding_bursts].
  rewrite add_spec by done.
  cbn [ThroughputCounter.acked_burst_hist ThroughputCounter.set_ack_hist].
  rewrite add_spec by done.
  cbn [ThroughputCounter.latency_hist ThroughputCounter.set_acked_burst_hist].
  rewrite add_spec by done.
  reflexivity.
Qed.

(** C7: a well-formed ack whose key has no outstanding entry returns
    normally and leaves the aggregator exactly as it was: no window, no bin,
    not the outstanding table; it does not even read the clock. *)
Theorem unmatched_ack_changes_nothing clk fuel tc c data i m :
  data !! "identity" = Some i ->
  data !! "message id" = Some m ->
  ThroughputCounter.outstanding_bursts tc !! (i +:+ m) = None ->
  ThroughputCounter.process_ack data clk fuel tc c = Ok tt tc c.
Proof.
  intros Hi Hm Hk. unfold ThroughputCounter.process_ack. rewrite Hi, Hm.
  unfold bind, get. by rewrite Hk.
Qed.

Lemma unmatched_ack_changes_nothing_witness :
  ThroughputCounter.process_ack (ack_record "0x00e43c9880" "0xeb9a")
    (clock_of [0]%Q) 0 fresh_counter 5%nat
  = Ok tt fresh_counter 5%nat.
Proof.
  apply (unmatched_ack_changes_nothing _ _ _ _ _ "0x00e43c9880" "0xeb9a");
    reflexivity.
Defined.

(** Records lacking a field are dropped: a burst record without
    [identity], [message id] or [points], and an ack record without
    [identity] or [message id], make the operation return normally with the
    aggregator unchanged. A burst record that has all three fields but whose
    [points] is not a number leaves the aggregator unchanged as well, yet
    [int] raises [ValueError]. *)
Lemma malformed_records_leave_state_unchanged clk fuel tc c data :
  (data !! "identity" = None \/ data !! "message id" = None \/ data !! "points" = None ->
   ThroughputCounter.process_burst data clk fuel tc c = Ok tt tc c)
  /\ (data !! "identity" = None \/ data !! "message id" = None ->
      ThroughputCounter.process_ack data clk fuel tc c = Ok tt tc c)
  /\ (forall i m ps,
        data !! "identity" = Some i -> data !! "message id" = Some m ->
        data !! "points" = Some ps -> py_int ps = None ->
        ThroughputCounter.process_burst data clk fuel tc c = Raise ValueError tc c).
Proof.
  repeat split.
  - unfold ThroughputCounter.process_burst.
    intros [H|[H|H]]; rewrite H; repeat case_match; reflexivity.
  - unfold ThroughputCounter.process_ack.
    intros [H|H]; rewrite H; repeat case_match; reflexivity.
  - intros i m ps Hi Hm Hp Hint. unfold ThroughputCounter.process_burst.
    by rewrite Hi, Hm, Hp, Hint.
Qed.

(** C2 does not hold of the code. [process_burst] sets out to ignore
    malformed burst info, and does drop a record that lacks its point count.
    Its guard tests the presence of the three fields only: the record with
    identity [0x00e43c9877], message id [0xf394] and points [4o5] passes it
    and reaches [int], which raises [ValueError]. Nothing catches it: fed
    the lines of that record, [process_lines_from_stream], which handles
    [IOError] alone, ends with the same [ValueError], the aggregator as it
    was and the lines that follow unread. *)
Theorem non_numeric_points_escape_the_guard :
  let clk := clock_of [0]%Q in
  ThroughputCounter.process_burst (delete "points" (burst_record "0x00e43c9877" "0xf394" "4o5"))
    clk 1 fresh_counter 5%nat
  = Ok tt fresh_counter 5%nat
  /\ py_int "4o5" = None
  /\ ThroughputCounter.process_burst (burst_record "0x00e43c9877" "0xf394" "4o5")
       clk 1 fresh_counter 5%nat
     = Raise ValueError fresh_counter 5%nat
  /\ exists state,
       LineReader.process_lines_from_stream clk 10
         (LineReader.mk fresh_counter ∅
            (map Line malformed_burst_lines ++ map Line sample_ack_lines)) 5%nat
       = Raise ValueError
           (LineReader.mk fresh_counter state (map Line sample_ack_lines)) 5%nat
       /\ strs state = burst_record "0x00e43c9877" "0xf394" "4o5"
                       ∪ {["reading" := "burst"]}
                       ∪ {["compressed" := "5214 bytes"]}
                       ∪ {["uncompressed" := "61133 bytes"]}.
Proof.
  intros clk. split; [vm_compute; reflexivity|].
  split; [vm_compute; reflexivity|].
  split; [vm_compute; reflexivity|].
  eexists. split; vm_compute; reflexivity.
Qed.

(** C6, as the code has it: from well-formed windows and a table without
    the key, a burst of [p] points followed at once by its ack returns
    normally after seven clock readings; the outstanding table is what it
    was before the burst, so the outstanding point total is its former value
    (0 when the table was empty); the ack window is caught up and its current
    bin raised by [p], the acked-bursts window by 1, and the latency window
    by the reading taken in [process_ack] minus the one taken in
    [process_burst]. *)
Theorem burst_then_ack_roundtrip clk tc c burst ack i m ps p :
  wf_counter tc ->
  burst !! "identity" = Some i -> burst !! "message id" = Some m ->
  burst !! "points" = Some ps -> py_int ps = Some p ->
  ack !! "identity" = Some i -> ack !! "message id" = Some m ->
  ThroughputCounter.outstanding_bursts tc !! (i +:+ m) = None ->
  exists n0 : nat, forall fuel, (n0 <= fuel)%nat ->
    exists tc',
      (ThroughputCounter.process_burst burst ;; ThroughputCounter.process_ack ack)
        clk fuel tc c = Ok tt tc' (7 + c)%nat
      /\ ThroughputCounter.outstanding_bursts tc' = ThroughputCounter.outstanding_bursts tc
      /\ (exists v,
            ThroughputCounter.get_total_outstanding_points clk fuel tc (7 + c)%nat
            = Ok v tc (7 + c)%nat
            /\ ThroughputCounter.get_total_outstanding_points clk fuel tc' (7 + c)%nat
               = Ok v tc' (7 + c)%nat)
      /\ (ThroughputCounter.outstanding_bursts tc = ∅ ->
          ThroughputCounter.get_total_outstanding_points clk fuel tc' (7 + c)%nat
          = Ok 0%Z tc' (7 + c)%nat)
      /\ (let w := advance (clk (4 + c)%nat) (ThroughputCounter.ack_hist tc) in
          ThroughputCounter.ack_hist tc' = bump (inject_Z p) w
          /\ (total (ThroughputCounter.ack_hist tc') == total w + inject_Z p)%Q)
      /\ (let w := advance (clk (5 + c)%nat) (ThroughputCounter.acked_burst_hist tc) in
          ThroughputCounter.acked_burst_hist tc' = bump 1 w
          /\ (total (ThroughputCounter.acked_burst_hist tc') == total w + 1)%Q)
      /\ (let w := advance (clk (6 + c)%nat) (ThroughputCounter.latency_hist tc) in
          let latency := (clk (3 + c)%nat - clk c)%Q in
          ThroughputCounter.latency_hist tc' = bump latency w
          /\ (total (ThroughputCounter.latency_hist tc') == total w + latency)%Q).
Proof.
  intros (Hwp & Hwb & Hwab & Hwl & Hwa) Hi Hm Hps Hint Hi' Hm' Hk.
  exists (Nat.max (whole_ticks (clk (S c)) (ThroughputCounter.burst_hist tc))
         (Nat.max (whole_ticks (clk (S (S c))) (ThroughputCounter.point_hist tc))
         (Nat.max (whole_ticks (clk (S (S (S (S c))))) (ThroughputCounter.ack_hist tc))
         (Nat.max (whole_ticks (clk (S (S (S (S (S c)))))) (ThroughputCounter.acked_burst_hist tc))
                  (whole_ticks (clk (S (S (S (S (S (S c))))))) (ThroughputCounter.latency_hist tc)))))).
  intros fuel Hf. eexists.
  unfold bind at 1.
  rewrite (process_burst_spec clk fuel tc c burst i m ps p) by (done || lia).
  rewrite (process_ack_spec clk fuel _ _ ack i m (clk c) p);
    try done;
    try (cbn [ThroughputCounter.ack_hist ThroughputCounter.acked_burst_hist
              ThroughputCounter.latency_hist]; lia).
  2:{ cbn [ThroughputCounter.outstanding_bursts]. apply lookup_insert_eq. }
  cbn [ThroughputCounter.outstanding_bursts ThroughputCounter.ack_hist
       ThroughputCounter.acked_burst_hist ThroughputCounter.latency_hist
       ThroughputCounter.point_hist ThroughputCounter.burst_hist].
  rewrite delete_insert_id by done.
  split; [reflexivity|].
  cbn [ThroughputCounter.outstanding_bursts ThroughputCounter.ack_hist
       ThroughputCounter.acked_burst_hist ThroughputCounter.latency_hist].
  split; [reflexivity|]. split; [|split].
  - eexists. split; reflexivity.
  - intros He. unfold ThroughputCounter.get_total_outstanding_points, bind, get, ret.
    cbn [ThroughputCounter.outstanding_bursts]. rewrite He. by rewrite map_fold_empty.
  - repeat split; try reflexivity; apply bump_total; apply advance_wf; done.
Qed.

Lemma burst_then_ack_roundtrip_witness :
  let tc := fresh_counter in
  let clk := roundtrip_clock in
  let c := 5%nat in
  let p := 405%Z in
  exists n0 : nat, forall fuel, (n0 <= fuel)%nat ->
    exists tc',
      (ThroughputCounter.process_burst (burst_record "0x00e43c9877" "0xf394" "405") ;;
       ThroughputCounter.process_ack (ack_record "0x00e43c9877" "0xf394"))
        clk fuel tc c = Ok tt tc' (7 + c)%nat
      /\ ThroughputCounter.outstanding_bursts tc' = ThroughputCounter.outstanding_bursts tc
      /\ (exists v,
            ThroughputCounter.get_total_outstanding_points clk fuel tc (7 + c)%nat
            = Ok v tc (7 + c)%nat
            /\ ThroughputCounter.get_total_outstanding_points clk fuel tc' (7 + c)%nat
               = Ok v tc' (7 + c)%nat)
      /\ (ThroughputCounter.outstanding_bursts tc = ∅ ->
          ThroughputCounter.get_total_outstanding_points clk fuel tc' (7 + c)%nat
          = Ok 0%Z tc' (7 + c)%nat)
      /\ (let w := advance (clk (4 + c)%nat) (ThroughputCounter.ack_hist tc) in
          ThroughputCounter.ack_hist tc' = bump (inject_Z p) w
          /\ (total (ThroughputCounter.ack_hist tc') == total w + inject_Z p)%Q)
      /\ (let w := advance (clk (5 + c)%nat) (ThroughputCounter.acked_burst_hist tc) in
          ThroughputCounter.acked_burst_hist tc' = bump 1 w
          /\ (total (ThroughputCounter.acked_burst_hist tc') == total w + 1)%Q)
      /\ (let w := advance (clk (6 + c)%nat) (ThroughputCounter.latency_hist tc) in
          let latency := (clk (3 + c)%nat - clk c)%Q in
          ThroughputCounter.latency_hist tc' = bump latency w
          /\ (total (ThroughputCounter.latency_hist tc') == total w + latency)%Q).
Proof.
  intros tc clk c p.
  apply (burst_then_ack_roundtrip clk tc c
           (burst_record "0x00e43c9877" "0xf394" "405")
           (ack_record "0x00e43c9877" "0xf394")
           "0x00e43c9877" "0xf394" "405" p).
  - exact fresh_counter_wf.
  - reflexivity.
  - reflexivity.
  - reflexivity.
  - reflexivity.
  - reflexivity.
  - reflexivity.
  - reflexivity.
Defined.

(** C6 as stated fails on the outstanding total: with another burst (50
    points) still outstanding, the table has no entry for the new key, yet
    after the burst and its ack, two seconds later, the total is 50, not 0. *)
Lemma roundtrip_total_counterexample :
  let clk := clock_of (replicate 11 0 ++ [2])%Q in
  exists tc1 tc2,
    ThroughputCounter.process_burst (burst_record "0x00e43c9880" "0xeb9a" "50")
      clk 2 fresh_counter 5%nat = Ok tt tc1 8%nat
    /\ ThroughputCounter.outstanding_bursts tc1 !! ("0x00e43c9877" +:+ "0xf394") = None
    /\ (ThroughputCounter.process_burst (burst_record "0x00e43c9877" "0xf394" "405") ;;
        ThroughputCounter.process_ack (ack_record "0x00e43c9877" "0xf394") ;;
        ThroughputCounter.get_total_outstanding_points)
         clk 2 tc1 8%nat = Ok 50%Z tc2 15%nat
    /\ 50%Z <> 0%Z.
Proof.
  intros clk. do 2 eexists. split; [vm_compute; reflexivity|].
  split; [vm_compute; reflexivity|].
  split; [vm_compute; reflexivity|]. discriminate.
Qed.

(** ** Repeated reads at one clock reading *)

Lemma ticks_due_after m tnow h :
  (0 < TimeHistogram.ticklen h)%Z ->
  ticks_due m tnow h -> ticks_due 0 tnow (Nat.iter m tick h).
Proof.
  revert h. induction m as [|m IH]; intros h Ht Hd; [done|].
  rewrite Nat.iter_succ_r. apply IH; [done|].
  by apply ticks_due_S.
Qed.

(** Once caught up with a reading, a window has no tick due at it. *)
Lemma advance_idem tnow h :
  wf h -> advance tnow (advance tnow h) = advance tnow h.
Proof.
  intros [Hi Ht]. unfold advance at 1.
  assert (Ht' : (0 < TimeHistogram.ticklen (advance tnow h))%Z).
  { unfold advance. by rewrite iter_tick_ticklen. }
  rewrite (ticks_due_unique 0 tnow (advance tnow h) Ht'); [done|].
  apply ticks_due_after; [done|]. by apply whole_ticks_due.
Qed.

Lemma whole_ticks_advance tnow h :
  wf h -> whole_ticks tnow (advance tnow h) = 0%nat.
Proof.
  intros [Hi Ht]. apply ticks_due_unique.
  - unfold advance. by rewrite iter_tick_ticklen.
  - apply ticks_due_after; [done|]. by apply whole_ticks_due.
Qed.

Lemma window_sum_spec k clk fuel h c :
  wf h -> (whole_ticks (clk c) h <= fuel)%nat ->
  TimeHistogram.sum k clk fuel h c
  = Ok (window_sum k (advance (clk c) h)) (advance (clk c) h) (S c).
Proof.
  intros Hw Hf. rewrite sum_spec by done. unfold window_sum, advance.
  by rewrite iter_tick_ticklen.
Qed.

Lemma mapM_sum_frozen clk fuel tnow ks :
  forall h c,
    wf h ->
    (forall j, (j < length ks)%nat -> clk (c + j)%nat = tnow) ->
    (whole_ticks tnow h <= fuel)%nat ->
    mapM TimeHistogram.sum ks clk fuel h c
    = Ok (map (fun k => window_sum k (advance tnow h)) ks)
         (match ks with [] => h | _ :: _ => advance tnow h end)
         (c + length ks)%nat.
Proof.
  induction ks as [|k ks IH]; intros h c Hw Hclk Hf.
  - simpl. unfold ret. by rewrite Nat.add_0_r.
  - assert (Hc : clk c = tnow).
    { rewrite <- (Hclk 0%nat) by (simpl; lia). by rewrite Nat.add_0_r. }
    cbn [mapM]. unfold bind at 1.
    rewrite window_sum_spec by (done || rewrite Hc; done). rewrite Hc.
    unfold bind at 1. rewrite IH.
    + unfold ret. cbn [map length]. rewrite advance_idem by done.
      replace (S c + length ks)%nat with (c + S (length ks))%nat by lia.
      by destruct ks.
    + by apply advance_wf.
    + intros j Hj. rewrite <- (Hclk (S j)) by (simpl; lia). f_equal. lia.
    + rewrite whole_ticks_advance by done. lia.
Qed.

(** Mapping a method of a sub-object runs inside that sub-object. *)
Lemma mapM_zoom {St T A B} (proj : St -> T) (upd : T -> St -> St)
    (f : A -> M T B) (ks : list A) clk fuel :
  (forall t s, proj (upd t s) = t) ->
  (forall t t' s, upd t' (upd t s) = upd t' s) ->
  (forall s, upd (proj s) s = s) ->
  forall s c,
    mapM (fun k => zoom proj upd (f k)) ks clk fuel s c
    = zoom proj upd (mapM f ks) clk fuel s c.
Proof.
  intros L1 L2 L3. induction ks as [|k ks IH]; intros s c.
  - unfold zoom. simpl. unfold ret. by rewrite L3.
  - cbn [mapM]. unfold bind, zoom, ret in *.
    destruct (f k clk fuel (proj s) c) as [y t' c'| |]; [|done|done].
    rewrite IH, L1.
    destruct (mapM f ks clk fuel t' c') as [ys t'' c''| |]; by rewrite ?L2.
Qed.

Lemma zip_with_map {A B C D} (f : B -> C -> D) (g : A -> B) (h : A -> C) (l : list A) :
  zip_with f (map g l) (map h l) = map (fun k => f (g k) (h k)) l.
Proof. induction l as [|x l IH]; simpl; [done | by rewrite IH]. Qed.

(** ** Reads at successive clock readings *)

Lemma caught_up_wf clk n : forall c h, wf h -> wf (caught_up clk c n h).
Proof.
  induction n as [|n IH]; intros c h Hw; [done|].
  simpl. apply IH. by apply advance_wf.
Qed.

Lemma caught_up_S clk n : forall c h,
  caught_up clk c (S n) h = advance (clk (c + n)%nat) (caught_up clk c n h).
Proof.
  induction n as [|n IH]; intros c h.
  - simpl. by rewrite Nat.add_0_r.
  - change (caught_up clk c (S (S n)) h)
      with (caught_up clk (S c) (S n) (advance (clk c) h)).
    rewrite IH. simpl. do 2 f_equal. lia.
Qed.

(** With the clock standing still, catching up once is all there is. *)
Lemma caught_up_frozen clk tnow n : forall c h,
  wf h ->
  (forall j, (j < S n)%nat -> clk (c + j)%nat = tnow) ->
  caught_up clk c (S n) h = advance tnow h.
Proof.
  induction n as [|n IH]; intros c h Hw Hclk.
  - simpl. rewrite <- (Hclk 0%nat) by lia. by rewrite Nat.add_0_r.
  - change (caught_up clk c (S (S n)) h)
      with (caught_up clk (S c) (S n) (advance (clk c) h)).
    assert (Hc : clk c = tnow).
    { rewrite <- (Hclk 0%nat) by lia. by rewrite Nat.add_0_r. }
    rewrite IH.
    + rewrite Hc. by apply advance_idem.
    + by apply advance_wf.
    + intros j Hj. rewrite <- (Hclk (S j)) by lia. f_equal. lia.
Qed.

(** Mapping [sum] over a list of horizons reads the clock once per
    horizon, and each read sees the window caught up with the readings so
    far. *)
Lemma mapM_sum_spec clk ks : forall h c,
  wf h ->
  exists n0 : nat, forall fuel, (n0 <= fuel)%nat ->
    mapM TimeHistogram.sum ks clk fuel h c
    = Ok (imap (fun j k => window_sum k (caught_up clk c (S j) h)) ks)
         (caught_up clk c (length ks) h)
         (c + length ks)%nat.
Proof.
  induction ks as [|k ks IH]; intros h c Hw.
  - exists 0%nat. intros fuel _. simpl. unfold ret. by rewrite Nat.add_0_r.
  - destruct (IH (advance (clk c) h) (S c) (advance_wf _ _ Hw)) as [n1 H1].
    exists (Nat.max (whole_ticks (clk c) h) n1). intros fuel Hf.
    cbn [mapM]. unfold bind at 1. rewrite window_sum_spec by (done || lia).
    unfold bind at 1. rewrite H1 by lia. unfold ret.
    cbn [imap length caught_up].
    replace (S c + length ks)%nat with (c + S (length ks))%nat by lia.
    reflexivity.
Qed.

Lemma zip_with_imap {A B C D} (f : B -> C -> D) (l : list A) :
  forall (g : nat -> A -> B) (h : nat -> A -> C),
    zip_with f (imap g l) (imap h l) = imap (fun j k => f (g j k) (h j k)) l.
Proof.
  induction l as [|x l IH]; intros g h; [done|].
  cbn [imap zip_with]. by rewrite IH.
Qed.

(** C1, as the code has it: [get_outstanding] reads the points window and
    the acks window, both weighted by points ([process_burst] adds the
    burst's points to the first, [process_ack] the acknowledged burst's
    points to the second), never the two counting windows. Whatever the
    clock does, it reads the clock once per horizon and window, the points
    window first; entry [j] of the result is, for horizon [k], what [sum k]
    reads off the points window minus what it reads off the acks window,
    each caught up with the readings taken for it so far. With the clock
    standing still during the call this is one reading for all. *)
Theorem get_outstanding_is_point_weighted clk tc c hs :
  wf (ThroughputCounter.point_hist tc) ->
  wf (ThroughputCounter.ack_hist tc) ->
  let n := length hs in
  let P j := caught_up clk c j (ThroughputCounter.point_hist tc) in
  let A j := caught_up clk (c + n) j (ThroughputCounter.ack_hist tc) in
  exists n0 : nat, forall fuel, (n0 <= fuel)%nat ->
    ThroughputCounter.get_outstanding hs clk fuel tc c
    = Ok (imap (fun j k => (window_sum k (P (S j)) - window_sum k (A (S j)))%Q) hs)
         (ThroughputCounter.set_ack_hist (A n) (ThroughputCounter.set_point_hist (P n) tc))
         (c + 2 * n)%nat
    /\ (forall tnow,
          (forall j, (j < 2 * n)%nat -> clk (c + j)%nat = tnow) ->
          forall j, (j < n)%nat ->
            P (S j) = advance tnow (ThroughputCounter.point_hist tc)
            /\ A (S j) = advance tnow (ThroughputCounter.ack_hist tc)).
Proof.
  intros Hp Ha n P A.
  destruct (mapM_sum_spec clk hs _ c Hp) as [n1 H1].
  destruct (mapM_sum_spec clk hs _ (c + n)%nat Ha) as [n2 H2].
  exists (Nat.max n1 n2). intros fuel Hf. split.
  - unfold ThroughputCounter.get_outstanding.
    unfold bind at 1.
    rewrite (mapM_zoom ThroughputCounter.point_hist ThroughputCounter.set_point_hist)
      by (done || by intros []).
    unfold zoom at 1. rewrite H1 by lia.
    unfold bind at 1.
    rewrite (mapM_zoom ThroughputCounter.ack_hist ThroughputCounter.set_ack_hist)
      by (done || by intros []).
    unfold zoom at 1. cbn [ThroughputCounter.ack_hist ThroughputCounter.set_point_hist].
    fold n. rewrite H2 by lia.
    unfold ret. rewrite zip_with_imap. fold n.
    replace (c + n + n)%nat with (c + 2 * n)%nat by lia.
    reflexivity.
  - intros tnow Hclk j Hj. split.
    + apply caught_up_frozen; [done|]. intros i Hi. apply Hclk. lia.
    + apply caught_up_frozen; [done|]. intros i Hi.
      rewrite <- Nat.add_assoc. apply Hclk. lia.
Qed.

Lemma get_outstanding_is_point_weighted_witness :
  let clk := clock_of [0; 0; 0; 0; 0; 0; 3; 7; 7]%Q in
  let n := 2%nat in
  let P j := caught_up clk 5 j (ThroughputCounter.point_hist fresh_counter) in
  let A j := caught_up clk (5 + n) j (ThroughputCounter.ack_hist fresh_counter) in
  exists n0 : nat, forall fuel, (n0 <= fuel)%nat ->
    ThroughputCounter.get_outstanding [10; 60]%Z clk fuel fresh_counter 5%nat
    = Ok (imap (fun j k => (window_sum k (P (S j)) - window_sum k (A (S j)))%Q) [10; 60]%Z)
         (ThroughputCounter.set_ack_hist (A n)
            (ThroughputCounter.set_point_hist (P n) fresh_counter))
         (5 + 2 * n)%nat
    /\ (forall tnow,
          (forall j, (j < 2 * n)%nat -> clk (5 + j)%nat = tnow) ->
          forall j, (j < n)%nat ->
            P (S j) = advance tnow (ThroughputCounter.point_hist fresh_counter)
            /\ A (S j) = advance tnow (ThroughputCounter.ack_hist fresh_counter)).
Proof.
  intros clk.
  apply (get_outstanding_is_point_weighted clk fresh_counter 5%nat [10; 60]%Z).
  - apply fresh_counter_wf.
  - apply fresh_counter_wf.
Defined.

(** C1 as stated fails: after one burst of 405 points and no ack, one burst
    and no ack have been counted in the last 10 and 60 seconds (the bursts
    window reads 1, the acked-bursts window 0), but [get_outstanding]
    returns 405 for both horizons. *)
Lemma outstanding_counts_counterexample :
  let clk := clock_of [0]%Q in
  exists tc1,
    ThroughputCounter.process_burst (burst_record "0x00e43c9877" "0xf394" "405")
      clk 1 fresh_counter 5%nat = Ok tt tc1 8%nat
    /\ ThroughputCounter.get_outstanding [10; 60]%Z clk 1 tc1 8%nat
       = Ok [405; 405]%Q tc1 12%nat
    /\ zoom ThroughputCounter.burst_hist ThroughputCounter.set_burst_hist
         (TimeHistogram.sum 10) clk 1 tc1 8%nat = Ok 1%Q tc1 9%nat
    /\ zoom ThroughputCounter.acked_burst_hist ThroughputCounter.set_acked_burst_hist
         (TimeHistogram.sum 10) clk 1 tc1 8%nat = Ok 0%Q tc1 9%nat
    /\ ~ (405 == 1 - 0)%Q.
Proof.
  intros clk. eexists. split; [vm_compute; reflexivity|].
  split; [vm_compute; reflexivity|].
  split; [vm_compute; reflexivity|].
  split; [vm_compute; reflexivity|].
  intros H. discriminate H.
Qed.

(** * Further properties *)

(** ** Boundaries and counters after ticks *)

Lemma iter_tick_last_tick m h :
  (TimeHistogram.last_tick (Nat.iter m tick h)
   == TimeHistogram.last_tick h + inject_Z (Z.of_nat m * TimeHistogram.ticklen h))%Q.
Proof.
  induction m as [|m IH]; simpl (Nat.iter _ _ _).
  - change (Z.of_nat 0) with 0%Z. rewrite Z.mul_0_l. change (inject_Z 0) with 0%Q. ring.
  - unfold tick at 1. cbn [TimeHistogram.last_tick]. rewrite IH, iter_tick_ticklen.
    replace (Z.of_nat (S m) * TimeHistogram.ticklen h)%Z
      with (Z.of_nat m * TimeHistogram.ticklen h + TimeHistogram.ticklen h)%Z by lia.
    rewrite inject_Z_plus. ring.
Qed.

Lemma iter_tick_totalticktime m h :
  TimeHistogram.totalticktime (Nat.iter m tick h)
  = (TimeHistogram.totalticktime h + Z.of_nat m * TimeHistogram.ticklen h)%Z.
Proof.
  induction m as [|m IH]; simpl (Nat.iter _ _ _).
  - simpl. lia.
  - unfold tick at 1. simpl. rewrite IH, iter_tick_ticklen. lia.
Qed.

Lemma iter_tick_start_time m h :
  TimeHistogram.start_time (Nat.iter m tick h) = TimeHistogram.start_time h.
Proof. induction m; simpl; [done | by rewrite <- IHm]. Qed.

Lemma elapsed_iter m tnow h :
  (elapsed tnow (Nat.iter m tick h)
   == elapsed tnow h - inject_Z (Z.of_nat m * TimeHistogram.ticklen h))%Q.
Proof. unfold elapsed. rewrite iter_tick_last_tick. ring. Qed.

Lemma counters_consistent_iter m h :
  counters_consistent h -> counters_consistent (Nat.iter m tick h).
Proof.
  intros (Ht & Hn & Hl). unfold counters_consistent.
  rewrite iter_tick_totalticktime, iter_tick_n_ticks, iter_tick_ticklen,
    iter_tick_last_tick, iter_tick_start_time.
  repeat split; [lia | lia |].
  rewrite Hl, inject_Z_plus. ring.
Qed.

Lemma counters_consistent_bump n h :
  counters_consistent h -> counters_consistent (bump n h).
Proof. done. Qed.

(** Ticks due at a later reading, counted from the window caught up with
    an earlier one, add up to the ticks due from the start. *)
Lemma ticks_due_add m1 m2 t1 t2 h :
  (0 < TimeHistogram.ticklen h)%Z ->
  (t1 <= t2)%Q ->
  ticks_due m1 t1 h ->
  ticks_due m2 t2 (Nat.iter m1 tick h) ->
  ticks_due (m2 + m1) t2 h.
Proof.
  intros HT Hle [H1a H1b] [H2a H2b].
  rewrite iter_tick_ticklen in H2a, H2b. rewrite elapsed_iter in H2a, H2b.
  assert (He : (elapsed t1 h <= elapsed t2 h)%Q) by (unfold elapsed; lra).
  unfold ticks_due.
  set (T := TimeHistogram.ticklen h) in *.
  assert (E1 : (inject_Z ((Z.of_nat (m2 + m1) + 1) * T)
                == inject_Z ((Z.of_nat m2 + 1) * T) + inject_Z (Z.of_nat m1 * T))%Q).
  { rewrite <- inject_Z_plus. apply inject_Z_injective. lia. }
  assert (E2 : (inject_Z (Z.of_nat (m2 + m1) * T)
                == inject_Z (Z.of_nat m2 * T) + inject_Z (Z.of_nat m1 * T))%Q).
  { rewrite <- inject_Z_plus. apply inject_Z_injective. lia. }
  split.
  - rewrite E1. lra.
  - intros Hpos. destruct m2 as [|m2].
    + specialize (H1b ltac:(lia)). change (0 + m1)%nat with m1. lra.
    + rewrite E2. specialize (H2b ltac:(lia)). lra.
Qed.

(** Polling a window at an earlier reading does not change what it is at a
    later one. *)
Lemma advance_advance t1 t2 h :
  wf h -> (t1 <= t2)%Q -> advance t2 (advance t1 h) = advance t2 h.
Proof.
  intros [Hi HT] Hle. unfold advance at 1 3.
  assert (HT' : (0 < TimeHistogram.ticklen (advance t1 h))%Z).
  { unfold advance. by rewrite iter_tick_ticklen. }
  pose proof (whole_ticks_due t1 h HT) as H1.
  pose proof (whole_ticks_due t2 (advance t1 h) HT') as H2.
  unfold advance in H2 at 2.
  pose proof (ticks_due_add _ _ _ _ _ HT Hle H1 H2) as H12.
  rewrite (ticks_due_unique _ _ _ HT H12).
  unfold advance. by rewrite Nat.iter_add.
Qed.

(** A reading before the last boundary leaves the window alone. *)
Lemma advance_backwards tnow h :
  (0 < TimeHistogram.ticklen h)%Z ->
  (tnow < TimeHistogram.last_tick h + inject_Z (TimeHistogram.ticklen h))%Q ->
  advance tnow h = h.
Proof.
  intros HT Hlt. unfold advance.
  rewrite (ticks_due_unique 0 tnow h HT); [done|].
  apply ticks_due_0. unfold elapsed. lra.
Qed.

(** ** Sequences of calls on a window *)

(** [mean] ends in one of three ways: at once with 0, after the tick check
    with a quotient, or after the tick check with [OverflowError]. *)
Lemma mean_cases clk k h c :
  wf h ->
  exists h1 c1,
    ((h1 = h /\ c1 = c) \/ (h1 = advance (clk c) h /\ c1 = S c))
    /\ ((exists v, forall fuel, (whole_ticks (clk c) h <= fuel)%nat ->
           TimeHistogram.mean k clk fuel h c = Ok v h1 c1)
        \/ (forall fuel, (whole_ticks (clk c) h <= fuel)%nat ->
              TimeHistogram.mean k clk fuel h c = Raise OverflowError h1 c1)).
Proof.
  intros Hw.
  set (b := ((if (TimeHistogram.totalticktime h <? k)%Z
              then TimeHistogram.totalticktime h else k) / TimeHistogram.ticklen h)%Z).
  set (s := pysum (slice_from (- b) (ordered (advance (clk c) h)))).
  assert (Hm : forall fuel, (whole_ticks (clk c) h <= fuel)%nat ->
            TimeHistogram.mean k clk fuel h c
            = if (b =? 0)%Z then Ok 0%Q h c
              else if fits_double (inject_Z b) && fits_double s
                   then Ok (s / inject_Z b)%Q (advance (clk c) h) (S c)
                   else Raise OverflowError (advance (clk c) h) (S c)).
  { intros fuel Hf. by rewrite mean_spec. }
  destruct (b =? 0)%Z; [|destruct (fits_double (inject_Z b) && fits_double s)].
  - exists h, c. split; [by left|]. left. by exists 0%Q.
  - exists (advance (clk c) h), (S c). split; [by right|]. left. by eexists.
  - exists (advance (clk c) h), (S c). split; [by right|]. by right.
Qed.

Lemma run_call_good clk o h c :
  wf h -> counters_consistent h ->
  exists h1 c1,
    wf h1 /\ counters_consistent h1
    /\ TimeHistogram.nbins h1 = TimeHistogram.nbins h
    /\ TimeHistogram.ticklen h1 = TimeHistogram.ticklen h
    /\ TimeHistogram.start_time h1 = TimeHistogram.start_time h
    /\ ((forall fuel, (whole_ticks (clk c) h <= fuel)%nat ->
           run_call o clk fuel h c = Ok tt h1 c1)
        \/ (forall fuel, (whole_ticks (clk c) h <= fuel)%nat ->
              run_call o clk fuel h c = Raise OverflowError h1 c1)).
Proof.
  intros Hw Hc.
  assert (Ha1 : wf (advance (clk c) h)) by (by apply advance_wf).
  assert (Ha2 : counters_consistent (advance (clk c) h))
    by (by apply counters_consistent_iter).
  pose proof (iter_tick_nbins (whole_ticks (clk c) h) h) as Ha3.
  pose proof (iter_tick_ticklen (whole_ticks (clk c) h) h) as Ha4.
  pose proof (iter_tick_start_time (whole_ticks (clk c) h) h) as Ha5.
  fold (advance (clk c) h) in Ha3, Ha4, Ha5.
  destruct o as [n|k|k| |]; cbn [run_call].
  - exists (bump n (advance (clk c) h)), (S c).
    split_and!; [by apply bump_wf | done | done | done | done |].
    left. intros fuel Hf. by apply add_spec.
  - exists (advance (clk c) h), (S c). split_and!; [done..|].
    left. intros fuel Hf. unfold bind. by rewrite sum_spec.
  - destruct (mean_cases clk k h c Hw) as (h1 & c1 & Hh1 & Hm).
    exists h1, c1.
    assert (wf h1 /\ counters_consistent h1
            /\ TimeHistogram.nbins h1 = TimeHistogram.nbins h
            /\ TimeHistogram.ticklen h1 = TimeHistogram.ticklen h
            /\ TimeHistogram.start_time h1 = TimeHistogram.start_time h)
      as (?&?&?&?&?) by (by destruct Hh1 as [[-> ->]|[-> ->]]).
    split_and!; [done..|].
    destruct Hm as [[v Hm]|Hm]; [left|right];
      intros fuel Hf; unfold bind; by rewrite Hm.
  - exists (advance (clk c) h), (S c). split_and!; [done..|].
    left. intros fuel Hf. unfold bind. by rewrite bins_spec.
  - exists (advance (clk c) h), (S c). split_and!; [done..|].
    left. intros fuel Hf. by apply check_for_tick_changed_spec.
Qed.

Lemma run_calls_good clk os :
  forall h c,
    wf h -> counters_consistent h ->
    exists n0 : nat, forall fuel, (n0 <= fuel)%nat ->
      exists h' c',
        (run_calls os clk fuel h c = Ok tt h' c'
         \/ run_calls os clk fuel h c = Raise OverflowError h' c')
        /\ wf h' /\ counters_consistent h'
        /\ TimeHistogram.nbins h' = TimeHistogram.nbins h
        /\ TimeHistogram.ticklen h' = TimeHistogram.ticklen h
        /\ TimeHistogram.start_time h' = TimeHistogram.start_time h.
Proof.
  induction os as [|o os IH]; intros h c Hw Hc.
  - exists 0%nat. intros fuel _. exists h, c. split_and!; [by left | done..].
  - destruct (run_call_good clk o h c Hw Hc)
      as (h1 & c1 & Hw1 & Hc1 & Hn & Ht & Hs & [Hrun|Hrun]).
    + destruct (IH h1 c1 Hw1 Hc1) as [n1 Hrest].
      exists (Nat.max (whole_ticks (clk c) h) n1). intros fuel Hf.
      destruct (Hrest fuel ltac:(lia)) as (h' & c' & Hr & Hw' & Hc' & Hn' & Ht' & Hs').
      exists h', c'. cbn [run_calls]. unfold bind. rewrite Hrun by lia.
      split_and!; [done | done | done | congruence | congruence | congruence].
    + exists (whole_ticks (clk c) h). intros fuel Hf.
      exists h1, c1. cbn [run_calls]. unfold bind. rewrite Hrun by lia.
      split_and!; [by right | done..].
Qed.

(** X1: a window built by the constructor with a positive number of bins
    and a positive tick length survives any sequence of calls ([add], [sum],
    [mean], the ordered-bins read, the tick check) under any clock: given
    enough fuel the sequence runs to its end, or stops at a call that raises
    [OverflowError] (a [mean] whose division has an operand beyond the range
    of a double); there is no [IndexError], no [ZeroDivisionError] and no
    endless loop. Either way the window still has its [nbins] bins, an index
    inside them, its tick length and start time, and tick counters that
    agree: [totalticktime = n_ticks * ticklen] and
    [last_tick = start_time + totalticktime]. *)
Theorem constructed_window_survives_calls clk (nb sp : Z) calls c :
  (0 < nb)%Z -> (0 < sp)%Z ->
  exists h0,
    TimeHistogram.init nb sp clk 0 tt c = Ok h0 tt (S c)
    /\ exists n0 : nat, forall fuel, (n0 <= fuel)%nat ->
         exists h c',
           (run_calls calls clk fuel h0 (S c) = Ok tt h c'
            \/ run_calls calls clk fuel h0 (S c) = Raise OverflowError h c')
           /\ wf h /\ counters_consistent h
           /\ TimeHistogram.nbins h = nb
           /\ TimeHistogram.ticklen h = sp
           /\ TimeHistogram.start_time h = clk c.
Proof.
  intros Hnb Hsp. eexists. split; [reflexivity|].
  apply run_calls_good.
  - unfold wf, inv. simpl. rewrite length_replicate. lia.
  - unfold counters_consistent. simpl. split_and!; [lia | lia |].
    change (inject_Z 0) with 0%Q. ring.
Qed.

Lemma constructed_window_survives_calls_witness :
  exists h0,
    TimeHistogram.init 3 2 (clock_of [0; 1; 7; 7; 9]%Q) 0 tt 0%nat = Ok h0 tt 1%nat
    /\ exists n0 : nat, forall fuel, (n0 <= fuel)%nat ->
         exists h c',
           (run_calls [CallAdd 5; CallSum 4; CallBins; CallMean 60; CallCheck]
              (clock_of [0; 1; 7; 7; 9]%Q) fuel h0 1%nat = Ok tt h c'
            \/ run_calls [CallAdd 5; CallSum 4; CallBins; CallMean 60; CallCheck]
                 (clock_of [0; 1; 7; 7; 9]%Q) fuel h0 1%nat = Raise OverflowError h c')
           /\ wf h /\ counters_consistent h
           /\ TimeHistogram.nbins h = 3%Z
           /\ TimeHistogram.ticklen h = 2%Z
           /\ TimeHistogram.start_time h = clock_of [0; 1; 7; 7; 9]%Q 0%nat.
Proof.
  apply (constructed_window_survives_calls (clock_of [0; 1; 7; 7; 9]%Q) 3 2
           [CallAdd 5; CallSum 4; CallBins; CallMean 60; CallCheck] 0%nat); lia.
Defined.

(** Both ends are met: the sample calls run to their end, and a sequence
    that adds [10 ^ 400] and asks for a mean one tick later stops with
    [OverflowError]. *)
Example calls_run_to_their_end :
  exists h c',
    run_calls [CallAdd 5; CallSum 4; CallBins; CallMean 60; CallCheck]
      (clock_of [0; 1; 7; 7; 9]%Q) 3
      (TimeHistogram.mk 0 0 2 0 0 3 [0; 0; 0]%Q 0) 1%nat = Ok tt h c'.
Proof. do 2 eexists. vm_compute. reflexivity. Qed.

Example calls_stop_with_overflow :
  exists h c',
    run_calls [CallCheck; CallAdd (inject_Z (10 ^ 400)); CallMean 2; CallAdd 1]
      (clock_of [2; 2; 2; 2]%Q) 3
      (TimeHistogram.mk 0 0 2 0 0 3 [0; 0; 0]%Q 0) 1%nat = Raise OverflowError h c'.
Proof. do 2 eexists. vm_compute. reflexivity. Qed.

(** ** A tick length that is not positive *)

Lemma while_ticks_forever clk fuel tnow c :
  forall n h,
    inv h ->
    (TimeHistogram.ticklen h <= 0)%Z ->
    (inject_Z (TimeHistogram.ticklen h) <= elapsed tnow h)%Q ->
    while_loop n (tick_cond tnow) tick_body clk fuel h c = OutOfFuel.
Proof.
  induction n as [|n IH]; intros h Hi HT He.
  - simpl. by rewrite (proj2 (tick_cond_true tnow h) He).
  - simpl. rewrite (proj2 (tick_cond_true tnow h) He), tick_body_spec by done.
    apply IH; [by apply tick_inv | done |].
    assert (E : (elapsed tnow (tick h) == elapsed tnow h - inject_Z (TimeHistogram.ticklen h))%Q).
    { unfold elapsed, tick. cbn [TimeHistogram.last_tick]. ring. }
    change (TimeHistogram.ticklen (tick h)) with (TimeHistogram.ticklen h). rewrite E.
    assert (HT' : (inject_Z (TimeHistogram.ticklen h) <= 0)%Q).
    { change 0%Q with (inject_Z 0). by rewrite <- Zle_Qle. }
    lra.
Qed.

(** X2: with a tick length of zero or less, as soon as the clock reading is
    at least one such tick length past the last boundary (for a zero tick
    length: not before it), the tick loop never ends: whatever the fuel, the
    check and every [add] built on it run out of it. Each pass moves
    [last_tick] by [ticklen], which never brings the elapsed time below
    [ticklen]. *)
Theorem nonpositive_ticklen_never_returns clk h c n :
  inv h ->
  (TimeHistogram.ticklen h <= 0)%Z ->
  (inject_Z (TimeHistogram.ticklen h) <= clk c - TimeHistogram.last_tick h)%Q ->
  forall fuel,
    TimeHistogram.check_for_tick_changed clk fuel h c = OutOfFuel
    /\ TimeHistogram.add n clk fuel h c = OutOfFuel.
Proof.
  intros Hi HT He fuel.
  assert (Hc : TimeHistogram.check_for_tick_changed clk fuel h c = OutOfFuel).
  { change (while_loop fuel (tick_cond (clk c)) tick_body clk fuel h (S c) = OutOfFuel).
    by apply while_ticks_forever. }
  split; [done|]. unfold TimeHistogram.add, bind. by rewrite Hc.
Qed.

Lemma nonpositive_ticklen_never_returns_witness :
  TimeHistogram.check_for_tick_changed (clock_of [0]%Q) 1000
    (TimeHistogram.mk 0 0 0 0 0 3 [0; 0; 0]%Q 0) 1%nat = OutOfFuel
  /\ TimeHistogram.add 1 (clock_of [0]%Q) 1000
       (TimeHistogram.mk 0 0 0 0 0 3 [0; 0; 0]%Q 0) 1%nat = OutOfFuel.
Proof.
  apply (nonpositive_ticklen_never_returns (clock_of [0]%Q)
           (TimeHistogram.mk 0 0 0 0 0 3 [0; 0; 0]%Q 0) 1%nat 1).
  - unfold inv. simpl. lia.
  - simpl. lia.
  - vm_compute. discriminate.
Defined.

(** ** The window slides *)

(** X3: when [m] ticks are due, the ordered-bins read returns the bins that
    were there, in time order, without the [m] oldest, followed by
    [min m nbins] zeros: ticks drop the oldest bins and keep all the others,
    in order. *)
Theorem bins_slide_by_ticks_due clk h c (m : nat) :
  wf h ->
  ticks_due m (clk c) h ->
  exists n0 : nat, forall fuel, (n0 <= fuel)%nat ->
    TimeHistogram.bins clk fuel h c
    = Ok (drop m (ordered h) ++ replicate (min m (Z.to_nat (TimeHistogram.nbins h))) 0%Q)
         (Nat.iter m tick h) (S c).
Proof.
  intros Hw Hd. exists m. intros fuel Hf.
  pose proof (ticks_due_unique m (clk c) h (proj2 Hw) Hd) as Hu.
  rewrite bins_spec by (done || lia). unfold advance. rewrite Hu.
  rewrite ordered_iter by apply Hw.
  destruct Hw as [[Hl _] _]. by rewrite <- Hl, Nat2Z.id.
Qed.

Lemma bins_slide_by_ticks_due_witness :
  exists n0 : nat, forall fuel, (n0 <= fuel)%nat ->
    TimeHistogram.bins (clock_of [5]%Q) fuel window3 0%nat
    = Ok (drop 1 (ordered window3) ++ replicate (min 1 (Z.to_nat 3)) 0%Q)
         (Nat.iter 1 tick window3) 1%nat.
Proof.
  apply (bins_slide_by_ticks_due (clock_of [5]%Q) window3 0%nat 1).
  - unfold wf, inv. simpl. lia.
  - split.
    + reflexivity.
    + intros _. vm_compute. discriminate.
Defined.

(** ** Adding within one tick *)

(** In time order the current bin comes last. *)
Lemma ordered_bump n h :
  inv h ->
  ordered (bump n h)
  = alter (fun x => (x + n)%Q) (length (TimeHistogram._bins h) - 1)%nat (ordered h).
Proof.
  intros [Hl Hc]. unfold ordered, bump. cbn [TimeHistogram._bins TimeHistogram.current_bin
    TimeHistogram.set_bins].
  set (l := TimeHistogram._bins h) in *.
  set (cb := TimeHistogram.current_bin h) in *.
  replace (Z.to_nat (cb + 1)) with (S (Z.to_nat cb)) by lia.
  rewrite drop_alter_lt, take_alter_lt by lia.
  replace (length l - 1)%nat with (length (drop (S (Z.to_nat cb)) l) + Z.to_nat cb)%nat
    by (rewrite length_drop; lia).
  by rewrite alter_app_r.
Qed.

Lemma pysum_lastn_alter_last (l : list Q) (b : nat) (n : Q) :
  (1 <= b)%nat -> (1 <= length l)%nat ->
  (pysum (lastn b (alter (fun x => x + n) (length l - 1)%nat l)) == pysum (lastn b l) + n)%Q.
Proof.
  intros Hb Hl. unfold lastn. rewrite length_alter.
  rewrite drop_alter_ge by lia. apply pysum_alter. rewrite length_drop. lia.
Qed.

(** A horizon of at least one bin sees what is added to the current bin. *)
Lemma window_sum_bump k n h :
  inv h ->
  (1 <= k / TimeHistogram.ticklen h)%Z ->
  (window_sum k (bump n h) == window_sum k h + n)%Q.
Proof.
  intros Hi Hk. unfold window_sum.
  change (TimeHistogram.ticklen (bump n h)) with (TimeHistogram.ticklen h).
  rewrite !slice_from_neg_lastn by done. rewrite ordered_bump by done.
  rewrite <- (ordered_length h Hi).
  apply pysum_lastn_alter_last; [lia|].
  rewrite ordered_length by done. destruct Hi. lia.
Qed.

Lemma add_all_frozen clk fuel tnow ns :
  forall h c,
    wf h ->
    whole_ticks tnow h = 0%nat ->
    (forall j, (j < length ns)%nat -> clk (c + j)%nat = tnow) ->
    exists h',
      add_all ns clk fuel h c = Ok tt h' (c + length ns)%nat
      /\ wf h' /\ whole_ticks tnow h' = 0%nat
      /\ TimeHistogram.ticklen h' = TimeHistogram.ticklen h
      /\ forall k, (1 <= k / TimeHistogram.ticklen h)%Z ->
           (window_sum k h' == window_sum k h + Qsum ns)%Q.
Proof.
  induction ns as [|n ns IH]; intros h c Hw H0 Hclk.
  - exists h. simpl. unfold ret. rewrite Nat.add_0_r. split_and!; try done.
    intros k _. ring.
  - assert (Hc : clk c = tnow).
    { rewrite <- (Hclk 0%nat) by (simpl; lia). by rewrite Nat.add_0_r. }
    assert (Ha : advance tnow h = h) by (unfold advance; by rewrite H0).
    destruct (IH (bump n h) (S c)) as (h' & Hrun & Hw' & H0' & Ht' & Hsum).
    + by apply bump_wf.
    + exact H0.
    + intros j Hj. rewrite <- (Hclk (S j)) by (simpl; lia). f_equal. lia.
    + exists h'. cbn [add_all]. unfold bind.
      rewrite add_spec by (done || rewrite Hc, H0; lia). rewrite Hc, Ha, Hrun.
      split_and!; try done.
      * f_equal. simpl. lia.
      * intros k Hk. rewrite Hsum by done. rewrite window_sum_bump by (done || apply Hw).
        simpl. ring.
Qed.

(** X4: while the clock stands still, values added one after the other pile
    up in the current bin: after the pending ticks have been caught up with
    by the first call, [sum k] over any horizon of at least one bin returns
    what it would have returned before the adds plus the exact sum of the
    values added. *)
Theorem adds_within_a_tick_accumulate clk h c ns k tnow :
  wf h ->
  (1 <= k / TimeHistogram.ticklen h)%Z ->
  (forall j, (j <= length ns)%nat -> clk (c + j)%nat = tnow) ->
  exists n0 : nat, forall fuel, (n0 <= fuel)%nat ->
    exists v h',
      (add_all ns ;; TimeHistogram.sum k) clk fuel h c = Ok v h' (c + length ns + 1)%nat
      /\ (v == window_sum k (advance tnow h) + Qsum ns)%Q.
Proof.
  intros Hw Hk Hclk. exists (whole_ticks tnow h). intros fuel Hf.
  destruct ns as [|n ns].
  - exists (window_sum k (advance tnow h)), (advance tnow h).
    assert (Hc : clk c = tnow).
    { rewrite <- (Hclk 0%nat) by (simpl; lia). by rewrite Nat.add_0_r. }
    cbn [add_all]. unfold bind, ret. rewrite window_sum_spec by (done || rewrite Hc; done).
    rewrite Hc. split; [f_equal; simpl; lia | simpl; ring].
  - assert (Hc : clk c = tnow).
    { rewrite <- (Hclk 0%nat) by (simpl; lia). by rewrite Nat.add_0_r. }
    pose proof (advance_wf tnow h Hw) as Hwa.
    pose proof (whole_ticks_advance tnow h Hw) as H0.
    destruct (add_all_frozen clk fuel tnow ns (bump n (advance tnow h)) (S c))
      as (h' & Hrun & Hw' & H0' & Ht' & Hsum).
    + by apply bump_wf.
    + exact H0.
    + intros j Hj. rewrite <- (Hclk (S j)) by (simpl; lia). f_equal. lia.
    + exists (window_sum k h'), h'. cbn [add_all]. unfold bind at 1. unfold bind at 1.
      rewrite add_spec by (done || rewrite Hc; done). rewrite Hc, Hrun.
      assert (Hc' : clk (S c + length ns)%nat = tnow).
      { rewrite <- (Hclk (S (length ns))) by (simpl; lia). f_equal. lia. }
      rewrite window_sum_spec by (done || rewrite Hc', H0'; lia).
      rewrite Hc'. assert (Ha : advance tnow h' = h') by (unfold advance; by rewrite H0').
      rewrite Ha. split; [f_equal; simpl; lia|].
      assert (Hk' : (1 <= k / TimeHistogram.ticklen (bump n (advance tnow h)))%Z).
      { change (TimeHistogram.ticklen (bump n (advance tnow h)))
          with (TimeHistogram.ticklen (advance tnow h)).
        unfold advance. by rewrite iter_tick_ticklen. }
      rewrite (Hsum k Hk'). rewrite window_sum_bump.
      * simpl. ring.
      * apply Hwa.
      * unfold advance. by rewrite iter_tick_ticklen.
Qed.

Lemma adds_within_a_tick_accumulate_witness :
  exists n0 : nat, forall fuel, (n0 <= fuel)%nat ->
    exists v h',
      (add_all [10; 20; 12]%Q ;; TimeHistogram.sum 4) (clock_of [7]%Q) fuel window3 0%nat
      = Ok v h' (0 + 3 + 1)%nat
      /\ (v == window_sum 4 (advance 7 window3) + Qsum [10; 20; 12]%Q)%Q.
Proof.
  apply (adds_within_a_tick_accumulate (clock_of [7]%Q) window3 0%nat [10; 20; 12]%Q 4 7%Q).
  - unfold wf, inv. simpl. lia.
  - vm_compute. discriminate.
  - intros j Hj. simpl in Hj. do 4 (destruct j as [|j]; [reflexivity|]). lia.
Defined.

(** ** Polling *)

(** X5: how often a window is polled does not matter. With a clock that
    does not go back between the two readings, a tick check followed by an
    ordered-bins read returns the same bins and leaves the same window as
    the ordered-bins read alone, made at the second reading. *)
Theorem polling_in_between_changes_nothing clk h c :
  wf h ->
  (clk c <= clk (S c))%Q ->
  exists n0 : nat, forall fuel, (n0 <= fuel)%nat ->
    exists bs h',
      (TimeHistogram.check_for_tick_changed ;; TimeHistogram.bins) clk fuel h c
      = Ok bs h' (S (S c))
      /\ TimeHistogram.bins clk fuel h (S c) = Ok bs h' (S (S c)).
Proof.
  intros Hw Hle.
  exists (Nat.max (whole_ticks (clk c) h)
            (Nat.max (whole_ticks (clk (S c)) h)
                     (whole_ticks (clk (S c)) (advance (clk c) h)))).
  intros fuel Hf.
  exists (ordered (advance (clk (S c)) h)), (advance (clk (S c)) h).
  split.
  - unfold bind. rewrite check_for_tick_changed_spec by (done || lia).
    rewrite bins_spec by (try apply advance_wf; done || lia).
    by rewrite advance_advance.
  - rewrite bins_spec by (done || lia). reflexivity.
Qed.

Lemma polling_in_between_changes_nothing_witness :
  exists n0 : nat, forall fuel, (n0 <= fuel)%nat ->
    exists bs h',
      (TimeHistogram.check_for_tick_changed ;; TimeHistogram.bins)
        (clock_of [5; 9]%Q) fuel window3 0%nat = Ok bs h' 2%nat
      /\ TimeHistogram.bins (clock_of [5; 9]%Q) fuel window3 1%nat = Ok bs h' 2%nat.
Proof.
  apply (polling_in_between_changes_nothing (clock_of [5; 9]%Q) window3 0%nat).
  - unfold wf, inv. simpl. lia.
  - vm_compute. discriminate.
Defined.

(** ** Horizons longer than the window *)

Lemma lastn_all {A} (n : nat) (l : list A) : (length l <= n)%nat -> lastn n l = l.
Proof. intros H. unfold lastn. replace (length l - n)%nat with 0%nat by lia. apply drop_0. Qed.

(** X6: a horizon of [nbins] bins or more is capped at the window: [sum k]
    returns the total of all [nbins] bins and does not fail. *)
Theorem sum_over_long_horizon_is_window_total clk h c k :
  wf h ->
  (TimeHistogram.nbins h <= k / TimeHistogram.ticklen h)%Z ->
  exists n0 : nat, forall fuel, (n0 <= fuel)%nat ->
    let h' := advance (clk c) h in
    TimeHistogram.sum k clk fuel h c = Ok (pysum (ordered h')) h' (S c)
    /\ length (ordered h') = Z.to_nat (TimeHistogram.nbins h).
Proof.
  intros Hw Hk. exists (whole_ticks (clk c) h). intros fuel Hf h'.
  pose proof (advance_wf (clk c) h Hw) as [[Hl Hc] _]. fold h' in Hl, Hc.
  assert (Hn : TimeHistogram.nbins h' = TimeHistogram.nbins h) by apply iter_tick_nbins.
  assert (Ho : length (ordered h') = Z.to_nat (TimeHistogram.nbins h)).
  { rewrite ordered_length by done. lia. }
  split; [|done].
  rewrite sum_spec by done. fold h'.
  rewrite slice_from_neg_lastn by lia. rewrite lastn_all by lia. reflexivity.
Qed.

Lemma sum_over_long_horizon_is_window_total_witness :
  exists n0 : nat, forall fuel, (n0 <= fuel)%nat ->
    let h' := advance (clock_of [2]%Q 0%nat) window3 in
    TimeHistogram.sum 600 (clock_of [2]%Q) fuel window3 0%nat = Ok (pysum (ordered h')) h' 1%nat
    /\ length (ordered h') = Z.to_nat 3.
Proof.
  apply (sum_over_long_horizon_is_window_total (clock_of [2]%Q) window3 0%nat 600).
  - unfold wf, inv. simpl. lia.
  - vm_compute. discriminate.
Defined.

(** ** Catching up *)

(** X7: the tick check catches up with the clock and never overtakes it:
    afterwards less than one tick length separates the reading from the last
    boundary; the boundary has not moved back; and if it was not ahead of
    the reading before, it is not ahead of it after. *)
Theorem check_leaves_less_than_one_tick clk h c :
  wf h ->
  exists n0 : nat, forall fuel, (n0 <= fuel)%nat ->
    exists h',
      TimeHistogram.check_for_tick_changed clk fuel h c = Ok tt h' (S c)
      /\ (clk c - TimeHistogram.last_tick h' < inject_Z (TimeHistogram.ticklen h))%Q
      /\ (TimeHistogram.last_tick h <= TimeHistogram.last_tick h')%Q
      /\ ((TimeHistogram.last_tick h <= clk c)%Q ->
          (TimeHistogram.last_tick h' <= clk c)%Q).
Proof.
  intros Hw. exists (whole_ticks (clk c) h). intros fuel Hf.
  exists (advance (clk c) h). split; [by apply check_for_tick_changed_spec|].
  destruct Hw as [Hi HT].
  pose proof (whole_ticks_due (clk c) h HT) as Hd.
  pose proof (ticks_due_after _ _ _ HT Hd) as Ha.
  apply ticks_due_0 in Ha. fold (advance (clk c) h) in Ha.
  unfold advance in Ha at 2. rewrite iter_tick_ticklen in Ha. unfold elapsed in Ha.
  unfold advance in *. set (m := whole_ticks (clk c) h) in *.
  pose proof (iter_tick_last_tick m h) as Hl.
  assert (Hm : (0 <= inject_Z (Z.of_nat m * TimeHistogram.ticklen h))%Q).
  { change 0%Q with (inject_Z 0). rewrite <- Zle_Qle. apply Z.mul_nonneg_nonneg; lia. }
  split_and!.
  - exact Ha.
  - rewrite Hl. lra.
  - intros Hle. destruct Hd as [_ Hd]. destruct m as [|m].
    + exact Hle.
    + specialize (Hd ltac:(lia)). unfold elapsed in Hd. rewrite Hl. lra.
Qed.

Lemma check_leaves_less_than_one_tick_witness :
  exists n0 : nat, forall fuel, (n0 <= fuel)%nat ->
    exists h',
      TimeHistogram.check_for_tick_changed (clock_of [7]%Q) fuel window3 0%nat = Ok tt h' 1%nat
      /\ (clock_of [7]%Q 0%nat - TimeHistogram.last_tick h' < inject_Z 2)%Q
      /\ (2 <= TimeHistogram.last_tick h')%Q
      /\ ((2 <= clock_of [7]%Q 0%nat)%Q -> (TimeHistogram.last_tick h' <= clock_of [7]%Q 0%nat)%Q).
Proof.
  apply (check_leaves_less_than_one_tick (clock_of [7]%Q) window3 0%nat).
  unfold wf, inv. simpl. lia.
Defined.

(** ** Returning normally: rules *)

Lemma returns_ret {St A} clk (a : A) (s : St) c (Q : A -> St -> nat -> Prop) :
  Q a s c -> returns clk (ret a) s c Q.
Proof. intros HQ. exists a, s, c, 0%nat. by split. Qed.

Lemma returns_bind {St A B} clk (m : M St A) (f : A -> M St B) s c
    (Q : B -> St -> nat -> Prop) :
  returns clk m s c (fun a s' c' => returns clk (f a) s' c' Q) ->
  returns clk (bind m f) s c Q.
Proof.
  intros (a & s' & c' & n0 & (b & s'' & c'' & n1 & HQ & Hf) & Hm).
  exists b, s'', c'', (Nat.max n0 n1). split; [done|].
  intros fuel Hfuel. unfold bind. rewrite Hm by lia. apply Hf. lia.
Qed.

Lemma returns_weaken {St A} clk (m : M St A) s c (Q Q' : A -> St -> nat -> Prop) :
  returns clk m s c Q -> (forall a s' c', Q a s' c' -> Q' a s' c') ->
  returns clk m s c Q'.
Proof.
  intros (a & s' & c' & n0 & HQ & Hm) HQQ. exists a, s', c', n0. split; [by apply HQQ | done].
Qed.

Lemma returns_zoom {St T A} clk (proj : St -> T) (upd : T -> St -> St) (m : M T A) s c
    (Q : A -> T -> nat -> Prop) :
  returns clk m (proj s) c Q ->
  returns clk (zoom proj upd m) s c (fun a s' c' => exists t', s' = upd t' s /\ Q a t' c').
Proof.
  intros (a & t' & c' & n0 & HQ & Hm). exists a, (upd t' s), c', n0.
  split; [by exists t'|]. intros fuel Hf. unfold zoom. by rewrite Hm.
Qed.

Lemma returns_mapM {St A B} clk (f : A -> M St B) (I : St -> Prop) xs :
  (forall x s c, I s -> returns clk (f x) s c (fun _ s' _ => I s')) ->
  forall s c, I s ->
    returns clk (mapM f xs) s c (fun ys s' _ => I s' /\ length ys = length xs).
Proof.
  intros Hf. induction xs as [|x xs IH]; intros s c HI.
  - apply returns_ret. by split.
  - cbn [mapM]. apply returns_bind.
    eapply returns_weaken; [by apply Hf|].
    intros y s' c' HI'. apply returns_bind.
    eapply returns_weaken; [by apply IH|].
    intros ys s'' c'' [HI'' Hlen]. apply returns_ret. split; [done|].
    simpl. by rewrite Hlen.
Qed.

Lemma raises_weaken {St A} clk (m : M St A) s c e (Q Q' : St -> Prop) :
  raises clk m s c e Q -> (forall s', Q s' -> Q' s') -> raises clk m s c e Q'.
Proof.
  intros (s' & c' & n0 & HQ & Hm) HQQ. exists s', c', n0. split; [by apply HQQ | done].
Qed.

Lemma settles_bind {St A B} clk (m : M St A) (f : A -> M St B) s c e (Q : St -> Prop) :
  returns clk m s c
    (fun a s' c' => returns clk (f a) s' c' (fun _ s'' _ => Q s'')
                    \/ raises clk (f a) s' c' e Q)
  \/ raises clk m s c e Q ->
  returns clk (bind m f) s c (fun _ s' _ => Q s') \/ raises clk (bind m f) s c e Q.
Proof.
  intros [(a & s' & c' & n0 & [Hr|Hr] & Hm)|(s' & c' & n0 & HQ & Hm)].
  - left. destruct Hr as (b & s'' & c'' & n1 & HQ & Hf).
    exists b, s'', c'', (Nat.max n0 n1). split; [done|].
    intros fuel Hfuel. unfold bind. rewrite Hm by lia. apply Hf. lia.
  - right. destruct Hr as (s'' & c'' & n1 & HQ & Hf).
    exists s'', c'', (Nat.max n0 n1). split; [done|].
    intros fuel Hfuel. unfold bind. rewrite Hm by lia. apply Hf. lia.
  - right. exists s', c', n0. split; [done|].
    intros fuel Hfuel. unfold bind. by rewrite Hm.
Qed.

Lemma raises_zoom {St T A} clk (proj : St -> T) (upd : T -> St -> St) (m : M T A) s c e
    (Q : T -> Prop) :
  raises clk m (proj s) c e Q ->
  raises clk (zoom proj upd m) s c e (fun s' => exists t', s' = upd t' s /\ Q t').
Proof.
  intros (t' & c' & n0 & HQ & Hm). exists (upd t' s), c', n0.
  split; [by exists t'|]. intros fuel Hf. unfold zoom. by rewrite Hm.
Qed.

Lemma settles_mapM {St A B} clk (f : A -> M St B) (I : St -> Prop) e xs :
  (forall x s c, I s ->
     returns clk (f x) s c (fun _ s' _ => I s') \/ raises clk (f x) s c e I) ->
  forall s c, I s ->
    returns clk (mapM f xs) s c (fun _ s' _ => I s') \/ raises clk (mapM f xs) s c e I.
Proof.
  intros Hf. induction xs as [|x xs IH]; intros s c HI.
  - left. by apply returns_ret.
  - cbn [mapM]. apply settles_bind.
    destruct (Hf x s c HI) as [Hr|Hr]; [left|by right].
    eapply returns_weaken; [exact Hr|].
    intros y s' c' HI'. cbv beta. apply settles_bind.
    destruct (IH s' c' HI') as [Hr'|Hr']; [left|by right].
    eapply returns_weaken; [exact Hr'|].
    intros ys s'' c'' HI''. cbv beta. left. by apply returns_ret.
Qed.

(** ** The methods of a window return normally *)

Lemma returns_add clk n h c :
  wf h -> returns clk (TimeHistogram.add n) h c (fun _ h' _ => wf h').
Proof.
  intros Hw. exists tt, (bump n (advance (clk c) h)), (S c), (whole_ticks (clk c) h).
  split; [by apply bump_wf, advance_wf|]. intros fuel Hf. by apply add_spec.
Qed.

Lemma returns_sum clk k h c :
  wf h -> returns clk (TimeHistogram.sum k) h c (fun _ h' _ => wf h').
Proof.
  intros Hw. eexists _, (advance (clk c) h), (S c), (whole_ticks (clk c) h).
  split; [by apply advance_wf|]. intros fuel Hf. by apply sum_spec.
Qed.

(** [mean] returns, or raises [OverflowError] at its division. *)
Lemma settles_mean clk k h c :
  wf h ->
  returns clk (TimeHistogram.mean k) h c (fun _ h' _ => wf h')
  \/ raises clk (TimeHistogram.mean k) h c OverflowError wf.
Proof.
  intros Hw. destruct (mean_cases clk k h c Hw) as (h1 & c1 & Hh1 & Hm).
  assert (Hw1 : wf h1).
  { destruct Hh1 as [[-> ->]|[-> ->]]; [done | by apply advance_wf]. }
  destruct Hm as [[v Hm]|Hm].
  - left. by exists v, h1, c1, (whole_ticks (clk c) h).
  - right. by exists h1, c1, (whole_ticks (clk c) h).
Qed.

(** ** The methods of an aggregator return normally *)

Lemma wf_counter_set_point_hist h tc :
  wf h -> wf_counter tc -> wf_counter (ThroughputCounter.set_point_hist h tc).
Proof. intros Hh (?&?&?&?&?). by split_and!. Qed.

Lemma wf_counter_set_burst_hist h tc :
  wf h -> wf_counter tc -> wf_counter (ThroughputCounter.set_burst_hist h tc).
Proof. intros Hh (?&?&?&?&?). by split_and!. Qed.

Lemma wf_counter_set_acked_burst_hist h tc :
  wf h -> wf_counter tc -> wf_counter (ThroughputCounter.set_acked_burst_hist h tc).
Proof. intros Hh (?&?&?&?&?). by split_and!. Qed.

Lemma wf_counter_set_latency_hist h tc :
  wf h -> wf_counter tc -> wf_counter (ThroughputCounter.set_latency_hist h tc).
Proof. intros Hh (?&?&?&?&?). by split_and!. Qed.

Lemma wf_counter_set_ack_hist h tc :
  wf h -> wf_counter tc -> wf_counter (ThroughputCounter.set_ack_hist h tc).
Proof. intros Hh (?&?&?&?&?). by split_and!. Qed.

Lemma wf_counter_set_outstanding_bursts m tc :
  wf_counter tc -> wf_counter (ThroughputCounter.set_outstanding_bursts m tc).
Proof. intros (?&?&?&?&?). by split_and!. Qed.

Lemma returns_zoom_wf {A} clk (proj : ThroughputCounter.t -> TimeHistogram.t)
    (upd : TimeHistogram.t -> ThroughputCounter.t -> ThroughputCounter.t)
    (m : M TimeHistogram.t A) tc c :
  (forall h s, wf h -> wf_counter s -> wf_counter (upd h s)) ->
  wf_counter tc ->
  returns clk m (proj tc) c (fun _ h' _ => wf h') ->
  returns clk (zoom proj upd m) tc c (fun _ tc' _ => wf_counter tc').
Proof.
  intros Hupd Hw Hm. eapply returns_weaken; [by apply returns_zoom|].
  intros a s' c' (t' & -> & Ht'). by apply Hupd.
Qed.

Lemma returns_process_burst clk data tc c :
  (forall i m ps,
     data !! "identity" = Some i -> data !! "message id" = Some m ->
     data !! "points" = Some ps -> py_int ps <> None) ->
  wf_counter tc ->
  returns clk (ThroughputCounter.process_burst data) tc c (fun _ tc' _ => wf_counter tc').
Proof.
  intros Hnum Hw. unfold ThroughputCounter.process_burst.
  destruct (data !! "identity") as [i|]; [|by apply returns_ret].
  destruct (data !! "message id") as [m|]; [|by apply returns_ret].
  destruct (data !! "points") as [ps|]; [|by apply returns_ret].
  destruct (py_int ps) as [p|] eqn:Hp; [|by destruct (Hnum i m ps)].
  apply returns_bind. exists (clk c), tc, (S c), 0%nat. split; [|done].
  apply returns_bind. eexists tt, _, (S c), 0%nat. split; [|reflexivity].
  apply returns_bind.
  eapply returns_weaken.
  { apply returns_zoom_wf; [apply wf_counter_set_burst_hist | |].
    - by apply wf_counter_set_outstanding_bursts.
    - apply returns_add. apply Hw. }
  intros ? tc1 c1 Hw1. cbv beta.
  apply returns_zoom_wf; [apply wf_counter_set_point_hist | done |].
  apply returns_add. apply Hw1.
Qed.

Lemma returns_process_ack clk data tc c :
  wf_counter tc ->
  returns clk (ThroughputCounter.process_ack data) tc c (fun _ tc' _ => wf_counter tc').
Proof.
  intros Hw. unfold ThroughputCounter.process_ack.
  destruct (data !! "identity") as [i|]; [|by apply returns_ret].
  destruct (data !! "message id") as [m|]; [|by apply returns_ret].
  apply returns_bind. exists tc, tc, c, 0%nat. split; [|done].
  destruct (ThroughputCounter.outstanding_bursts tc !! (i +:+ m)) as [[ts p]|];
    [|by apply returns_ret].
  apply returns_bind. eexists tt, _, c, 0%nat. split; [|reflexivity].
  apply returns_bind. eexists (clk c), _, (S c), 0%nat. split; [|reflexivity].
  apply returns_bind.
  eapply returns_weaken.
  { apply returns_zoom_wf; [apply wf_counter_set_ack_hist | |].
    - by apply wf_counter_set_outstanding_bursts.
    - apply returns_add. apply Hw. }
  intros ? tc1 c1 Hw1. cbv beta.
  apply returns_bind.
  eapply returns_weaken.
  { apply returns_zoom_wf; [apply wf_counter_set_acked_burst_hist | done |].
    apply returns_add. apply Hw1. }
  intros ? tc2 c2 Hw2. cbv beta.
  apply returns_zoom_wf; [apply wf_counter_set_latency_hist | done |].
  apply returns_add. apply Hw2.
Qed.

Lemma returns_mapM_zoom {B} clk (proj : ThroughputCounter.t -> TimeHistogram.t)
    (upd : TimeHistogram.t -> ThroughputCounter.t -> ThroughputCounter.t)
    (f : Z -> M TimeHistogram.t B) hs tc c :
  (forall h s, wf h -> wf_counter s -> wf_counter (upd h s)) ->
  (forall s, wf_counter s -> wf (proj s)) ->
  (forall k h c, wf h -> returns clk (f k) h c (fun _ h' _ => wf h')) ->
  wf_counter tc ->
  returns clk (mapM (fun k => zoom proj upd (f k)) hs) tc c
    (fun ys tc' _ => wf_counter tc' /\ length ys = length hs).
Proof.
  intros Hupd Hproj Hf Hw. apply (returns_mapM clk _ wf_counter); [|done].
  intros k s c0 Hs. apply returns_zoom_wf; [done | done |]. apply Hf. by apply Hproj.
Qed.

Lemma settles_mapM_zoom_mean clk (proj : ThroughputCounter.t -> TimeHistogram.t)
    (upd : TimeHistogram.t -> ThroughputCounter.t -> ThroughputCounter.t) hs tc c :
  (forall h s, wf h -> wf_counter s -> wf_counter (upd h s)) ->
  (forall s, wf_counter s -> wf (proj s)) ->
  wf_counter tc ->
  returns clk (mapM (fun k => zoom proj upd (TimeHistogram.mean k)) hs) tc c
    (fun _ tc' _ => wf_counter tc')
  \/ raises clk (mapM (fun k => zoom proj upd (TimeHistogram.mean k)) hs) tc c
       OverflowError wf_counter.
Proof.
  intros Hupd Hproj Hw. apply (settles_mapM clk _ wf_counter); [|done].
  intros k s c0 Hs. destruct (settles_mean clk k (proj s) c0 (Hproj s Hs)) as [Hr|Hr].
  - left. by apply returns_zoom_wf.
  - right. eapply raises_weaken; [by apply raises_zoom|].
    intros s' (t' & -> & Ht'). by apply Hupd.
Qed.

Lemma settles_run_event clk e tc c :
  numeric_points e -> wf_counter tc ->
  returns clk (run_event e) tc c (fun _ tc' _ => wf_counter tc')
  \/ raises clk (run_event e) tc c OverflowError wf_counter.
Proof.
  intros Hnum Hw.
  assert (Hdrop : forall (m : M ThroughputCounter.t (list Q)) n,
            returns clk m tc c (fun ys tc' _ => wf_counter tc' /\ length ys = n) ->
            returns clk (_ <- m ;; ret tt) tc c (fun _ tc' _ => wf_counter tc')).
  { intros m n Hm. apply returns_bind. eapply returns_weaken; [exact Hm|].
    intros ys tc' c' [Hw' _]. by apply returns_ret. }
  assert (Hmean : forall (m : M ThroughputCounter.t (list Q)),
            returns clk m tc c (fun _ tc' _ => wf_counter tc')
            \/ raises clk m tc c OverflowError wf_counter ->
            returns clk (_ <- m ;; ret tt) tc c (fun _ tc' _ => wf_counter tc')
            \/ raises clk (_ <- m ;; ret tt) tc c OverflowError wf_counter).
  { intros m [Hm|Hm]; apply settles_bind; [left|by right].
    eapply returns_weaken; [exact Hm|].
    intros ys tc' c' Hw'. cbv beta. left. by apply returns_ret. }
  destruct e as [data|data|hs|hs|hs|hs|hs|]; cbn [run_event].
  - left. apply returns_process_burst; [|done]. intros i m ps _ _. apply Hnum.
  - left. by apply returns_process_ack.
  - left. apply (Hdrop _ (length hs)). unfold ThroughputCounter.get_outstanding.
    apply returns_bind. eapply returns_weaken.
    { apply returns_mapM_zoom; [apply wf_counter_set_point_hist | by intros s (?&?&?&?&?)
                               | apply returns_sum | done]. }
    intros ys tc1 c1 [Hw1 Hl1]. cbv beta.
    apply returns_bind. eapply returns_weaken.
    { apply returns_mapM_zoom; [apply wf_counter_set_ack_hist | by intros s (?&?&?&?&?)
                               | apply returns_sum | done]. }
    intros zs tc2 c2 [Hw2 Hl2]. cbv beta. apply returns_ret. split; [done|].
    rewrite length_zip_with. lia.
  - apply Hmean.
    apply settles_mapM_zoom_mean; [apply wf_counter_set_point_hist | by intros s (?&?&?&?&?)
                                  | done].
  - apply Hmean.
    apply settles_mapM_zoom_mean; [apply wf_counter_set_burst_hist | by intros s (?&?&?&?&?)
                                  | done].
  - apply Hmean.
    apply settles_mapM_zoom_mean; [apply wf_counter_set_ack_hist | by intros s (?&?&?&?&?)
                                  | done].
  - left. apply (Hdrop _ (length hs)). unfold ThroughputCounter.get_average_latencies.
    apply returns_bind. eapply returns_weaken.
    { apply returns_mapM_zoom; [apply wf_counter_set_acked_burst_hist | by intros s (?&?&?&?&?)
                               | apply returns_sum | done]. }
    intros ys tc1 c1 [Hw1 Hl1]. cbv beta.
    apply returns_bind. eapply returns_weaken.
    { apply returns_mapM_zoom; [apply wf_counter_set_latency_hist | by intros s (?&?&?&?&?)
                               | apply returns_sum | done]. }
    intros zs tc2 c2 [Hw2 Hl2]. cbv beta. apply returns_ret. split; [done|].
    rewrite length_zip_with. lia.
  - left. apply returns_bind. unfold ThroughputCounter.get_total_outstanding_points.
    apply returns_bind. exists tc, tc, c, 0%nat. split; [|done].
    apply returns_ret. by apply returns_ret.
Qed.

Lemma settles_run_events clk es :
  Forall numeric_points es ->
  forall tc c, wf_counter tc ->
    returns clk (run_events es) tc c (fun _ tc' _ => wf_counter tc')
    \/ raises clk (run_events es) tc c OverflowError wf_counter.
Proof.
  induction 1 as [|e es He Hes IH]; intros tc c Hw.
  - left. by apply returns_ret.
  - cbn [run_events]. apply settles_bind.
    destruct (settles_run_event clk e tc c He Hw) as [Hr|Hr]; [left|by right].
    eapply returns_weaken; [exact Hr|].
    intros ? tc' c' Hw'. cbv beta. by apply IH.
Qed.

Lemma init_wf_counter clk fuel c :
  exists tc0,
    ThroughputCounter.init clk fuel tt c = Ok tc0 tt (5 + c)%nat
    /\ wf_counter tc0
    /\ ThroughputCounter.outstanding_bursts tc0 = ∅.
Proof.
  eexists. split; [reflexivity|]. split; [|reflexivity].
  unfold wf_counter, wf, inv. simpl. repeat split; lia.
Qed.

(** X8: an aggregator built by the constructor survives any sequence of
    requests (burst and ack records, and every metric read) under any
    clock, provided no burst record carries a point count that [int]
    rejects: given enough fuel the sequence runs to its end, or stops at a
    request that raises [OverflowError] (a mean over points, bursts or acks
    whose division has an operand beyond the range of a double), and all
    five windows are well formed at that point. No request raises
    [IndexError], [ZeroDivisionError] or [ValueError], and none loops for
    ever. Records lacking fields, unmatched acks, repeated keys and empty
    horizon lists are all among the requests covered. *)
Theorem aggregator_survives_events clk events c :
  Forall numeric_points events ->
  exists tc0,
    ThroughputCounter.init clk 0 tt c = Ok tc0 tt (5 + c)%nat
    /\ exists tc' c' (n0 : nat),
         wf_counter tc'
         /\ ((forall fuel, (n0 <= fuel)%nat ->
                run_events events clk fuel tc0 (5 + c)%nat = Ok tt tc' c')
             \/ (forall fuel, (n0 <= fuel)%nat ->
                   run_events events clk fuel tc0 (5 + c)%nat
                   = Raise OverflowError tc' c')).
Proof.
  intros Hnum. destruct (init_wf_counter clk 0 c) as (tc0 & Hinit & Hw & _).
  exists tc0. split; [done|].
  destruct (settles_run_events clk events Hnum tc0 (5 + c)%nat Hw)
    as [([] & tc' & c' & n0 & Hw' & Hrun)|(tc' & c' & n0 & Hw' & Hrun)].
  - exists tc', c', n0. split; [done | by left].
  - exists tc', c', n0. split; [done | by right].
Qed.

Lemma aggregator_survives_events_witness :
  let events :=
    [EvBurst (burst_record "0x00e43c9877" "0xf394" "405");
     EvBurst (burst_record "0x00e43c9877" "0xf394" "-7");
     EvBurst (ack_record "0x00e43c9877" "0xf395");
     EvOutstanding [10; 60]%Z;
     EvAck (ack_record "0x00e43c9877" "0xf394");
     EvAck (ack_record "0x00e43c9877" "0xf394");
     EvAverageLatencies [600; 60; 1; 0; -3]%Z;
     EvPointsPerSecond [600; 60; 1]%Z;
     EvTotalBursts []; EvAcksPerSecond [1]%Z;
     EvTotalOutstandingPoints] in
  exists tc0,
    ThroughputCounter.init roundtrip_clock 0 tt 0%nat = Ok tc0 tt 5%nat
    /\ exists tc' c' (n0 : nat),
         wf_counter tc'
         /\ ((forall fuel, (n0 <= fuel)%nat ->
                run_events events roundtrip_clock fuel tc0 5%nat = Ok tt tc' c')
             \/ (forall fuel, (n0 <= fuel)%nat ->
                   run_events events roundtrip_clock fuel tc0 5%nat
                   = Raise OverflowError tc' c')).
Proof.
  intros events.
  apply (aggregator_survives_events roundtrip_clock events 0%nat).
  repeat match goal with |- Forall _ _ => constructor end; try exact I;
    intros ps H; vm_compute in H;
    first [discriminate H | injection H as <-; vm_compute; discriminate].
Defined.

(** ** The outstanding total *)

Lemma get_total_outstanding_points_spec clk fuel tc c :
  ThroughputCounter.get_total_outstanding_points clk fuel tc c
  = Ok (points_outstanding (ThroughputCounter.outstanding_bursts tc)) tc c.
Proof. reflexivity. Qed.

Lemma points_outstanding_insert_fresh key v (m : gmap string (Q * Z)) :
  m !! key = None ->
  points_outstanding (<[key := v]> m) = (points_outstanding m + v.2)%Z.
Proof.
  intros Hk. unfold points_outstanding.
  rewrite map_fold_insert_L; [done | | done].
  intros. lia.
Qed.

Lemma points_outstanding_delete key v (m : gmap string (Q * Z)) :
  m !! key = Some v ->
  points_outstanding (delete key m) = (points_outstanding m - v.2)%Z.
Proof.
  intros Hk. unfold points_outstanding.
  rewrite (map_fold_delete_L _ _ key v m); [lia | | done].
  intros. lia.
Qed.

Lemma points_outstanding_insert key ts p (m : gmap string (Q * Z)) :
  points_outstanding (<[key := (ts, p)]> m)
  = (points_outstanding m - points_under key m + p)%Z.
Proof.
  unfold points_under. destruct (m !! key) as [[ts0 p0]|] eqn:Hk.
  - rewrite <- (insert_delete_eq m key (ts, p)).
    rewrite points_outstanding_insert_fresh by apply lookup_delete_eq.
    rewrite (points_outstanding_delete key (ts0, p0)) by done. simpl. lia.
  - rewrite points_outstanding_insert_fresh by done. simpl. lia.
Qed.

Lemma unmatched_ack_noop clk fuel tc c data i m :
  data !! "identity" = Some i ->
  data !! "message id" = Some m ->
  ThroughputCounter.outstanding_bursts tc !! (i +:+ m) = None ->
  ThroughputCounter.process_ack data clk fuel tc c = Ok tt tc c.
Proof.
  intros Hi Hm Hk. unfold ThroughputCounter.process_ack. rewrite Hi, Hm.
  unfold bind, get. by rewrite Hk.
Qed.

(** X9: a well-formed burst record of [p] points is entered in the
    outstanding table under [identity ++ message id] with the clock reading
    taken first; every other entry stays; and the outstanding point total
    becomes the former total, minus the points of the entry the key had
    before (a reused key silently replaces it), plus [p]. *)
Theorem burst_enters_outstanding_table clk tc c data i m ps p :
  wf_counter tc ->
  data !! "identity" = Some i -> data !! "message id" = Some m ->
  data !! "points" = Some ps -> py_int ps = Some p ->
  exists n0 : nat, forall fuel, (n0 <= fuel)%nat ->
    exists tc',
      ThroughputCounter.process_burst data clk fuel tc c = Ok tt tc' (3 + c)%nat
      /\ ThroughputCounter.outstanding_bursts tc' !! (i +:+ m) = Some (clk c, p)
      /\ (forall key, key <> i +:+ m ->
            ThroughputCounter.outstanding_bursts tc' !! key
            = ThroughputCounter.outstanding_bursts tc !! key)
      /\ ThroughputCounter.get_total_outstanding_points clk fuel tc' (3 + c)%nat
         = Ok (points_outstanding (ThroughputCounter.outstanding_bursts tc)
               - points_under (i +:+ m) (ThroughputCounter.outstanding_bursts tc) + p)%Z
              tc' (3 + c)%nat.
Proof.
  intros (Hwp & Hwb & _) Hi Hm Hps Hint.
  exists (Nat.max (whole_ticks (clk (S c)) (ThroughputCounter.burst_hist tc))
                  (whole_ticks (clk (S (S c))) (ThroughputCounter.point_hist tc))).
  intros fuel Hf. eexists.
  rewrite (process_burst_spec clk fuel tc c data i m ps p) by (done || lia).
  split; [reflexivity|]. cbn [ThroughputCounter.outstanding_bursts]. split_and!.
  - apply lookup_insert_eq.
  - intros key Hne. by apply lookup_insert_ne.
  - rewrite get_total_outstanding_points_spec. cbn [ThroughputCounter.outstanding_bursts].
    by rewrite points_outstanding_insert.
Qed.

Lemma burst_enters_outstanding_table_witness :
  exists n0 : nat, forall fuel, (n0 <= fuel)%nat ->
    exists tc',
      ThroughputCounter.process_burst (burst_record "0x00e43c9877" "0xf394" "405")
        roundtrip_clock fuel fresh_counter 5%nat = Ok tt tc' (3 + 5)%nat
      /\ ThroughputCounter.outstanding_bursts tc' !! ("0x00e43c9877" +:+ "0xf394")
         = Some (roundtrip_clock 5%nat, 405%Z)
      /\ (forall key, key <> "0x00e43c9877" +:+ "0xf394" ->
            ThroughputCounter.outstanding_bursts tc' !! key
            = ThroughputCounter.outstanding_bursts fresh_counter !! key)
      /\ ThroughputCounter.get_total_outstanding_points roundtrip_clock fuel tc' (3 + 5)%nat
         = Ok (points_outstanding (ThroughputCounter.outstanding_bursts fresh_counter)
               - points_under ("0x00e43c9877" +:+ "0xf394")
                   (ThroughputCounter.outstanding_bursts fresh_counter) + 405)%Z
              tc' (3 + 5)%nat.
Proof.
  apply (burst_enters_outstanding_table roundtrip_clock fresh_counter 5%nat
           (burst_record "0x00e43c9877" "0xf394" "405") "0x00e43c9877" "0xf394" "405" 405).
  - exact fresh_counter_wf.
  - reflexivity.
  - reflexivity.
  - reflexivity.
  - reflexivity.
Defined.

(** X10: an ack whose key has an outstanding entry [(ts, p)] settles it:
    the entry is removed and no other is touched, the outstanding total
    drops by [p], the latency window receives the reading taken by
    [process_ack] minus [ts], the acks window [p] and the acked-bursts window
    1; the points and bursts windows are not touched. The same ack
    presented again is then unmatched and changes nothing. *)
Theorem matched_ack_settles_the_burst clk tc c data i m ts p :
  wf_counter tc ->
  data !! "identity" = Some i -> data !! "message id" = Some m ->
  ThroughputCounter.outstanding_bursts tc !! (i +:+ m) = Some (ts, p) ->
  exists n0 : nat, forall fuel, (n0 <= fuel)%nat ->
    exists tc',
      ThroughputCounter.process_ack data clk fuel tc c = Ok tt tc' (4 + c)%nat
      /\ ThroughputCounter.outstanding_bursts tc'
         = delete (i +:+ m) (ThroughputCounter.outstanding_bursts tc)
      /\ ThroughputCounter.get_total_outstanding_points clk fuel tc' (4 + c)%nat
         = Ok (points_outstanding (ThroughputCounter.outstanding_bursts tc) - p)%Z
              tc' (4 + c)%nat
      /\ ThroughputCounter.latency_hist tc'
         = bump (clk c - ts) (advance (clk (3 + c)%nat) (ThroughputCounter.latency_hist tc))
      /\ ThroughputCounter.ack_hist tc'
         = bump (inject_Z p) (advance (clk (1 + c)%nat) (ThroughputCounter.ack_hist tc))
      /\ ThroughputCounter.acked_burst_hist tc'
         = bump 1 (advance (clk (2 + c)%nat) (ThroughputCounter.acked_burst_hist tc))
      /\ ThroughputCounter.point_hist tc' = ThroughputCounter.point_hist tc
      /\ ThroughputCounter.burst_hist tc' = ThroughputCounter.burst_hist tc
      /\ ThroughputCounter.process_ack data clk fuel tc' (4 + c)%nat = Ok tt tc' (4 + c)%nat.
Proof.
  intros (_ & _ & Hwab & Hwl & Hwa) Hi Hm Hk.
  exists (Nat.max (whole_ticks (clk (S c)) (ThroughputCounter.ack_hist tc))
         (Nat.max (whole_ticks (clk (S (S c))) (ThroughputCounter.acked_burst_hist tc))
                  (whole_ticks (clk (S (S (S c)))) (ThroughputCounter.latency_hist tc)))).
  intros fuel Hf. eexists.
  rewrite (process_ack_spec clk fuel tc c data i m ts p) by (done || lia).
  split; [reflexivity|].
  cbn [ThroughputCounter.outstanding_bursts ThroughputCounter.latency_hist
       ThroughputCounter.ack_hist ThroughputCounter.acked_burst_hist
       ThroughputCounter.point_hist ThroughputCounter.burst_hist].
  split_and!; try reflexivity.
  - rewrite get_total_outstanding_points_spec. cbn [ThroughputCounter.outstanding_bursts].
    by rewrite (points_outstanding_delete _ (ts, p)).
  - apply (unmatched_ack_noop clk fuel _ _ data i m); [done | done |].
    cbn [ThroughputCounter.outstanding_bursts]. apply lookup_delete_eq.
Qed.

Example counter_after_burst_reached :
  ThroughputCounter.process_burst (burst_record "0x00e43c9877" "0xf394" "405")
    roundtrip_clock 1 fresh_counter 5%nat
  = Ok tt counter_after_burst 8%nat.
Proof. vm_compute. reflexivity. Qed.

Lemma counter_after_burst_wf : wf_counter counter_after_burst.
Proof.
  destruct fresh_counter_wf as (Hp & Hb & Hab & Hl & Ha).
  unfold counter_after_burst, wf_counter. cbn [ThroughputCounter.point_hist
    ThroughputCounter.burst_hist ThroughputCounter.acked_burst_hist
    ThroughputCounter.latency_hist ThroughputCounter.ack_hist].
  split_and!; try done; by apply bump_wf.
Qed.

Lemma matched_ack_settles_the_burst_witness :
  let tc := counter_after_burst in
  let clk := roundtrip_clock in
  let c := 8%nat in
  exists n0 : nat, forall fuel, (n0 <= fuel)%nat ->
    exists tc',
      ThroughputCounter.process_ack (ack_record "0x00e43c9877" "0xf394") clk fuel tc c
      = Ok tt tc' (4 + c)%nat
      /\ ThroughputCounter.outstanding_bursts tc'
         = delete ("0x00e43c9877" +:+ "0xf394") (ThroughputCounter.outstanding_bursts tc)
      /\ ThroughputCounter.get_total_outstanding_points clk fuel tc' (4 + c)%nat
         = Ok (points_outstanding (ThroughputCounter.outstanding_bursts tc) - 405)%Z
              tc' (4 + c)%nat
      /\ ThroughputCounter.latency_hist tc'
         = bump (clk c - 0) (advance (clk (3 + c)%nat) (ThroughputCounter.latency_hist tc))
      /\ ThroughputCounter.ack_hist tc'
         = bump (inject_Z 405) (advance (clk (1 + c)%nat) (ThroughputCounter.ack_hist tc))
      /\ ThroughputCounter.acked_burst_hist tc'
         = bump 1 (advance (clk (2 + c)%nat) (ThroughputCounter.acked_burst_hist tc))
      /\ ThroughputCounter.point_hist tc' = ThroughputCounter.point_hist tc
      /\ ThroughputCounter.burst_hist tc' = ThroughputCounter.burst_hist tc
      /\ ThroughputCounter.process_ack (ack_record "0x00e43c9877" "0xf394") clk fuel tc'
           (4 + c)%nat = Ok tt tc' (4 + c)%nat.
Proof.
  intros tc clk c.
  apply (matched_ack_settles_the_burst clk tc c (ack_record "0x00e43c9877" "0xf394")
           "0x00e43c9877" "0xf394" 0%Q 405%Z).
  - exact counter_after_burst_wf.
  - reflexivity.
  - reflexivity.
  - reflexivity.
Defined.

(** X11: when a key is reused before its ack, only the later burst can be
    acknowledged. After two well-formed bursts under one key ([p1] then [p2]
    points) and two acks for it, the table is what it was before without the
    key; the acks window has received [p2] only and the acked-bursts window 1
    only; the latency recorded runs from the second burst's reading to the
    first ack's; the second ack has changed nothing. The earlier burst
    remains counted in the bursts and points windows but is never reported
    as outstanding or acknowledged. *)
Theorem reused_key_loses_the_earlier_burst clk tc c b1 b2 ack i m ps1 p1 ps2 p2 :
  wf_counter tc ->
  b1 !! "identity" = Some i -> b1 !! "message id" = Some m ->
  b1 !! "points" = Some ps1 -> py_int ps1 = Some p1 ->
  b2 !! "identity" = Some i -> b2 !! "message id" = Some m ->
  b2 !! "points" = Some ps2 -> py_int ps2 = Some p2 ->
  ack !! "identity" = Some i -> ack !! "message id" = Some m ->
  exists n0 : nat, forall fuel, (n0 <= fuel)%nat ->
    exists tc',
      (ThroughputCounter.process_burst b1 ;; ThroughputCounter.process_burst b2 ;;
       ThroughputCounter.process_ack ack ;; ThroughputCounter.process_ack ack)
        clk fuel tc c = Ok tt tc' (10 + c)%nat
      /\ ThroughputCounter.outstanding_bursts tc'
         = delete (i +:+ m) (ThroughputCounter.outstanding_bursts tc)
      /\ ThroughputCounter.ack_hist tc'
         = bump (inject_Z p2) (advance (clk (7 + c)%nat) (ThroughputCounter.ack_hist tc))
      /\ ThroughputCounter.acked_burst_hist tc'
         = bump 1 (advance (clk (8 + c)%nat) (ThroughputCounter.acked_burst_hist tc))
      /\ ThroughputCounter.latency_hist tc'
         = bump (clk (6 + c)%nat - clk (3 + c)%nat)
             (advance (clk (9 + c)%nat) (ThroughputCounter.latency_hist tc))
      /\ ThroughputCounter.burst_hist tc'
         = bump 1 (advance (clk (4 + c)%nat)
                     (bump 1 (advance (clk (1 + c)%nat) (ThroughputCounter.burst_hist tc))))
      /\ ThroughputCounter.point_hist tc'
         = bump (inject_Z p2)
             (advance (clk (5 + c)%nat)
                (bump (inject_Z p1) (advance (clk (2 + c)%nat) (ThroughputCounter.point_hist tc)))).
Proof.
  intros (Hwp & Hwb & Hwab & Hwl & Hwa) Hi1 Hm1 Hps1 Hint1 Hi2 Hm2 Hps2 Hint2 Hia Hma.
  set (B1 := bump 1 (advance (clk (S c)) (ThroughputCounter.burst_hist tc))).
  set (P1 := bump (inject_Z p1) (advance (clk (S (S c))) (ThroughputCounter.point_hist tc))).
  exists (Nat.max (whole_ticks (clk (S c)) (ThroughputCounter.burst_hist tc))
         (Nat.max (whole_ticks (clk (S (S c))) (ThroughputCounter.point_hist tc))
         (Nat.max (whole_ticks (clk (4 + c)%nat) B1)
         (Nat.max (whole_ticks (clk (5 + c)%nat) P1)
         (Nat.max (whole_ticks (clk (7 + c)%nat) (ThroughputCounter.ack_hist tc))
         (Nat.max (whole_ticks (clk (8 + c)%nat) (ThroughputCounter.acked_burst_hist tc))
                  (whole_ticks (clk (9 + c)%nat) (ThroughputCounter.latency_hist tc)))))))).
  intros fuel Hf. eexists.
  assert (HwB1 : wf B1) by (by apply bump_wf, advance_wf).
  assert (HwP1 : wf P1) by (by apply bump_wf, advance_wf).
  unfold bind at 1.
  rewrite (process_burst_spec clk fuel tc c b1 i m ps1 p1) by (done || lia).
  fold B1 P1. unfold bind at 1.
  rewrite (process_burst_spec clk fuel _ _ b2 i m ps2 p2);
    try done;
    try (cbn [ThroughputCounter.burst_hist ThroughputCounter.point_hist]; simpl in Hf; lia).
  cbn [ThroughputCounter.burst_hist ThroughputCounter.point_hist
       ThroughputCounter.acked_burst_hist ThroughputCounter.latency_hist
       ThroughputCounter.ack_hist ThroughputCounter.outstanding_bursts].
  rewrite insert_insert_eq. unfold bind at 1.
  rewrite (process_ack_spec clk fuel _ _ ack i m (clk (S (S (S c)))) p2);
    try done;
    try (cbn [ThroughputCounter.ack_hist ThroughputCounter.acked_burst_hist
              ThroughputCounter.latency_hist]; simpl in Hf; lia).
  2:{ cbn [ThroughputCounter.outstanding_bursts]. apply lookup_insert_eq. }
  cbn [ThroughputCounter.burst_hist ThroughputCounter.point_hist
       ThroughputCounter.acked_burst_hist ThroughputCounter.latency_hist
       ThroughputCounter.ack_hist ThroughputCounter.outstanding_bursts].
  rewrite delete_insert_eq.
  rewrite (unmatched_ack_noop clk fuel _ _ ack i m); [|done|done|].
  2:{ cbn [ThroughputCounter.outstanding_bursts]. apply lookup_delete_eq. }
  split; [reflexivity|].
  cbn [ThroughputCounter.burst_hist ThroughputCounter.point_hist
       ThroughputCounter.acked_burst_hist ThroughputCounter.latency_hist
       ThroughputCounter.ack_hist ThroughputCounter.outstanding_bursts].
  by split_and!.
Qed.

Lemma reused_key_loses_the_earlier_burst_witness :
  let tc := fresh_counter in
  let clk := clock_of (replicate 11 0 ++ [2])%Q in
  let c := 5%nat in
  let i := "0x00e43c9877" in
  let m := "0xf394" in
  exists n0 : nat, forall fuel, (n0 <= fuel)%nat ->
    exists tc',
      (ThroughputCounter.process_burst (burst_record i m "405") ;;
       ThroughputCounter.process_burst (burst_record i m "61") ;;
       ThroughputCounter.process_ack (ack_record i m) ;;
       ThroughputCounter.process_ack (ack_record i m))
        clk fuel tc c = Ok tt tc' (10 + c)%nat
      /\ ThroughputCounter.outstanding_bursts tc'
         = delete (i +:+ m) (ThroughputCounter.outstanding_bursts tc)
      /\ ThroughputCounter.ack_hist tc'
         = bump (inject_Z 61) (advance (clk (7 + c)%nat) (ThroughputCounter.ack_hist tc))
      /\ ThroughputCounter.acked_burst_hist tc'
         = bump 1 (advance (clk (8 + c)%nat) (ThroughputCounter.acked_burst_hist tc))
      /\ ThroughputCounter.latency_hist tc'
         = bump (clk (6 + c)%nat - clk (3 + c)%nat)
             (advance (clk (9 + c)%nat) (ThroughputCounter.latency_hist tc))
      /\ ThroughputCounter.burst_hist tc'
         = bump 1 (advance (clk (4 + c)%nat)
                     (bump 1 (advance (clk (1 + c)%nat) (ThroughputCounter.burst_hist tc))))
      /\ ThroughputCounter.point_hist tc'
         = bump (inject_Z 61)
             (advance (clk (5 + c)%nat)
                (bump (inject_Z 405) (advance (clk (2 + c)%nat) (ThroughputCounter.point_hist tc)))).
Proof.
  intros tc clk c i m.
  apply (reused_key_loses_the_earlier_burst clk tc c
           (burst_record i m "405") (burst_record i m "61") (ack_record i m)
           i m "405" 405 "61" 61).
  - exact fresh_counter_wf.
  - reflexivity.
  - reflexivity.
  - reflexivity.
  - reflexivity.
  - reflexivity.
  - reflexivity.
  - reflexivity.
  - reflexivity.
  - reflexivity.
  - reflexivity.
Defined.

(** ** Derived metrics *)

(** X12: with the clock standing at [tnow] during the call,
    [get_average_latencies] catches the acked-bursts and latency windows up
    with [tnow] and returns, for each horizon [k], what [sum k] reads off
    the latency window divided by what it reads off the acked-bursts window,
    or 0 when the latter is not positive; it never divides by zero and the
    answer has one entry per horizon. *)
Theorem average_latencies_are_latency_over_count clk tc c hs tnow :
  wf (ThroughputCounter.acked_burst_hist tc) ->
  wf (ThroughputCounter.latency_hist tc) ->
  (forall j, (j < 2 * length hs)%nat -> clk (c + j)%nat = tnow) ->
  exists n0 : nat, forall fuel, (n0 <= fuel)%nat ->
    let B := advance tnow (ThroughputCounter.acked_burst_hist tc) in
    let L := advance tnow (ThroughputCounter.latency_hist tc) in
    ThroughputCounter.get_average_latencies hs clk fuel tc c
    = Ok (map (fun k => if negb (Qle_bool (window_sum k B) 0)
                        then (window_sum k L / window_sum k B)%Q else 0%Q) hs)
         (match hs with
          | [] => tc
          | _ :: _ => ThroughputCounter.set_latency_hist L
                        (ThroughputCounter.set_acked_burst_hist B tc)
          end)
         (c + 2 * length hs)%nat.
Proof.
  intros Hb Hl Hclk.
  exists (Nat.max (whole_ticks tnow (ThroughputCounter.acked_burst_hist tc))
                  (whole_ticks tnow (ThroughputCounter.latency_hist tc))).
  intros fuel Hf B L. unfold ThroughputCounter.get_average_latencies.
  unfold bind at 1.
  rewrite (mapM_zoom ThroughputCounter.acked_burst_hist ThroughputCounter.set_acked_burst_hist)
    by (done || by intros []).
  unfold zoom at 1.
  rewrite (mapM_sum_frozen clk fuel tnow hs); [|done| |lia].
  2:{ intros j Hj. apply Hclk. lia. }
  unfold bind at 1.
  rewrite (mapM_zoom ThroughputCounter.latency_hist ThroughputCounter.set_latency_hist)
    by (done || by intros []).
  unfold zoom at 1.
  cbn [ThroughputCounter.latency_hist ThroughputCounter.set_acked_burst_hist].
  rewrite (mapM_sum_frozen clk fuel tnow hs); [|done| |lia].
  2:{ intros j Hj. rewrite <- Nat.add_assoc. apply Hclk. lia. }
  unfold ret. rewrite zip_with_map. fold B. fold L.
  replace (c + length hs + length hs)%nat with (c + 2 * length hs)%nat by lia.
  f_equal. destruct hs; [by destruct tc | reflexivity].
Qed.

Lemma average_latencies_are_latency_over_count_witness :
  exists n0 : nat, forall fuel, (n0 <= fuel)%nat ->
    let B := advance 0 (ThroughputCounter.acked_burst_hist counter_after_burst) in
    let L := advance 0 (ThroughputCounter.latency_hist counter_after_burst) in
    ThroughputCounter.get_average_latencies [600; 60; 1]%Z (clock_of [0]%Q) fuel
      counter_after_burst 8%nat
    = Ok (map (fun k => if negb (Qle_bool (window_sum k B) 0)
                        then (window_sum k L / window_sum k B)%Q else 0%Q) [600; 60; 1]%Z)
         (ThroughputCounter.set_latency_hist L
            (ThroughputCounter.set_acked_burst_hist B counter_after_burst))
         (8 + 2 * 3)%nat.
Proof.
  apply (average_latencies_are_latency_over_count (clock_of [0]%Q) counter_after_burst 8%nat
           [600; 60; 1]%Z 0%Q).
  - apply counter_after_burst_wf.
  - apply counter_after_burst_wf.
  - intros j Hj. simpl in Hj. do 6 (destruct j as [|j]; [reflexivity|]). lia.
Defined.

Lemma mean_before_first_tick clk fuel k h c :
  TimeHistogram.ticklen h <> 0%Z ->
  TimeHistogram.totalticktime h = 0%Z ->
  (0 <= k)%Z ->
  TimeHistogram.mean k clk fuel h c = Ok 0%Q h c.
Proof.
  intros HT H0 Hk. unfold TimeHistogram.mean, bind, get. rewrite H0.
  destruct (Z.eqb_spec (TimeHistogram.ticklen h) 0); [done|].
  assert (E : ((if (0 <? k)%Z then 0 else k) = 0)%Z) by (destruct (Z.ltb_spec 0 k); lia).
  rewrite E. reflexivity.
Qed.

Lemma mapM_zoom_mean_before_first_tick clk fuel
    (proj : ThroughputCounter.t -> TimeHistogram.t)
    (upd : TimeHistogram.t -> ThroughputCounter.t -> ThroughputCounter.t) hs tc c :
  (forall s, upd (proj s) s = s) ->
  TimeHistogram.ticklen (proj tc) <> 0%Z ->
  TimeHistogram.totalticktime (proj tc) = 0%Z ->
  Forall (fun k => 0 <= k)%Z hs ->
  mapM (fun k => zoom proj upd (TimeHistogram.mean k)) hs clk fuel tc c
  = Ok (map (fun _ => 0%Q) hs) tc c.
Proof.
  intros Hlens HT H0 Hhs. induction Hhs as [|k hs Hk Hhs IH]; [done|].
  cbn [mapM map]. unfold bind at 1. unfold zoom at 1.
  rewrite mean_before_first_tick by done. rewrite Hlens.
  unfold bind at 1. by rewrite IH.
Qed.

(** X13: a window that has recorded no tick yet ([totalticktime = 0]) is
    reported as 0 by the three mean metrics, for every list of non-negative
    horizons, whatever its bins hold and whatever the clock reads; the read
    neither looks at the clock nor changes the aggregator, so that it
    records no tick itself and the answer stays 0 until another operation
    advances the window. *)
Theorem means_are_zero_before_first_tick clk fuel tc c hs :
  Forall (fun k => 0 <= k)%Z hs ->
  (TimeHistogram.ticklen (ThroughputCounter.point_hist tc) <> 0%Z ->
   TimeHistogram.totalticktime (ThroughputCounter.point_hist tc) = 0%Z ->
   ThroughputCounter.get_points_per_seconds hs clk fuel tc c
   = Ok (map (fun _ => 0%Q) hs) tc c)
  /\ (TimeHistogram.ticklen (ThroughputCounter.burst_hist tc) <> 0%Z ->
      TimeHistogram.totalticktime (ThroughputCounter.burst_hist tc) = 0%Z ->
      ThroughputCounter.get_total_bursts hs clk fuel tc c
      = Ok (map (fun _ => 0%Q) hs) tc c)
  /\ (TimeHistogram.ticklen (ThroughputCounter.ack_hist tc) <> 0%Z ->
      TimeHistogram.totalticktime (ThroughputCounter.ack_hist tc) = 0%Z ->
      ThroughputCounter.get_acks_per_second hs clk fuel tc c
      = Ok (map (fun _ => 0%Q) hs) tc c).
Proof.
  intros Hhs. split_and!; intros HT H0.
  - apply mapM_zoom_mean_before_first_tick; try done. by intros [].
  - apply mapM_zoom_mean_before_first_tick; try done. by intros [].
  - apply mapM_zoom_mean_before_first_tick; try done. by intros [].
Qed.

Lemma means_are_zero_before_first_tick_witness :
  ThroughputCounter.get_points_per_seconds [600; 60; 1]%Z (clock_of [500]%Q) 0
    counter_after_burst 8%nat
  = Ok (map (fun _ => 0%Q) [600; 60; 1]%Z) counter_after_burst 8%nat
  /\ ThroughputCounter.get_total_bursts [600; 60; 1]%Z (clock_of [500]%Q) 0
       counter_after_burst 8%nat
     = Ok (map (fun _ => 0%Q) [600; 60; 1]%Z) counter_after_burst 8%nat
  /\ ThroughputCounter.get_acks_per_second [600; 60; 1]%Z (clock_of [500]%Q) 0
       counter_after_burst 8%nat
     = Ok (map (fun _ => 0%Q) [600; 60; 1]%Z) counter_after_burst 8%nat.
Proof.
  destruct (means_are_zero_before_first_tick (clock_of [500]%Q) 0 counter_after_burst 8%nat
              [600; 60; 1]%Z) as (H1 & H2 & H3).
  - repeat constructor; lia.
  - split_and!; [apply H1 | apply H2 | apply H3]; (discriminate || reflexivity).
Defined.

(** * The line reader *)

(** ** One line *)

Lemma process_line_field clk fuel r c line k v :
  parse_field line = Some (k, v) ->
  let state := <[k := PStr v]> (LineReader._reader_state r) in
  LineReader.process_line line clk fuel r c
  = (if LineReader.get_is state "reading" "burst" && String.eqb k "points" then
       zoom LineReader.core LineReader.set_core
         (ThroughputCounter.process_burst (strs state))
     else if LineReader.get_is state "reading" "ack" && String.eqb k "message id" then
       zoom LineReader.core LineReader.set_core
         (ThroughputCounter.process_ack (strs state))
     else ret tt)
      clk fuel (LineReader.set_reader_state state r) c.
Proof.
  unfold parse_field, LineReader.process_line.
  destruct (partition ":" (strip line)) as [[k' tok] v'] eqn:E.
  destruct (String.eqb tok ":") eqn:Etok; [|discriminate].
  destruct (contains "received " (strip line)) eqn:Er; [discriminate|].
  destruct (contains "got ingestd ACK" (strip line)) eqn:Ea; [discriminate|].
  simpl. intros [= <- <-].
  unfold bind at 1. unfold bind at 1. unfold modify at 1. unfold bind at 1. unfold get at 1.
  cbn [LineReader._reader_state LineReader.set_reader_state].
  destruct (LineReader.get_is _ "reading" "burst" && String.eqb k' "points").
  - unfold bind at 1. unfold bind at 1.
    destruct (zoom _ _ _ clk fuel _ c) as [[] s' c'| |]; try reflexivity.
  - unfold bind at 1. unfold ret at 1.
    destruct (LineReader.get_is _ "reading" "ack" && String.eqb k' "message id").
    + destruct (zoom _ _ _ clk fuel _ c) as [[] s' c'| |]; try reflexivity.
    + reflexivity.
Qed.

Lemma process_line_ack_header clk fuel r c line :
  is_ack_header line = true ->
  LineReader.process_line line clk fuel r c
  = Ok tt (LineReader.set_reader_state (<["reading" := PStr "ack"]> ∅) r) c.
Proof.
  unfold is_ack_header, LineReader.process_line.
  destruct (partition ":" (strip line)) as [[k' tok] v'] eqn:E.
  destruct (String.eqb tok ":") eqn:Etok; [discriminate|].
  destruct (contains "received " (strip line)) eqn:Er; [discriminate|].
  destruct (contains "got ingestd ACK" (strip line)) eqn:Ea; [|discriminate].
  reflexivity.
Qed.

Lemma process_line_burst_header clk fuel r c line z :
  burst_header_bytes line = Some z ->
  LineReader.process_line line clk fuel r c
  = Ok tt (LineReader.set_reader_state
             (<["reading" := PStr "burst"]> (<["bytes" := PInt z]> ∅)) r) c.
Proof.
  unfold burst_header_bytes, LineReader.process_line.
  destruct (partition ":" (strip line)) as [[k' tok] v'] eqn:E.
  destruct (String.eqb tok ":") eqn:Etok; [discriminate|].
  destruct (contains "received " (strip line)) eqn:Er; [|discriminate].
  simpl. destruct (split (strip line) !! 1%nat) as [w|]; [|discriminate].
  intros ->. reflexivity.
Qed.

(** [process_burst] and [process_ack] look at their three, respectively
    two, keys only. *)
Lemma process_burst_ext d1 d2 :
  d1 !! "identity" = d2 !! "identity" ->
  d1 !! "message id" = d2 !! "message id" ->
  d1 !! "points" = d2 !! "points" ->
  ThroughputCounter.process_burst d1 = ThroughputCounter.process_burst d2.
Proof. intros H1 H2 H3. unfold ThroughputCounter.process_burst. by rewrite H1, H2, H3. Qed.

Lemma process_ack_ext d1 d2 :
  d1 !! "identity" = d2 !! "identity" ->
  d1 !! "message id" = d2 !! "message id" ->
  ThroughputCounter.process_ack d1 = ThroughputCounter.process_ack d2.
Proof. intros H1 H2. unfold ThroughputCounter.process_ack. by rewrite H1, H2. Qed.

Lemma strs_insert_str k s d : strs (<[k := PStr s]> d) = <[k := s]> (strs d).
Proof. unfold strs. by rewrite omap_insert. Qed.

Lemma strs_insert_int k z d : strs (<[k := PInt z]> d) = delete k (strs d).
Proof. unfold strs. by rewrite omap_insert. Qed.

Lemma get_is_insert_eq d k s s' :
  LineReader.get_is (<[k := PStr s]> d) k s' = String.eqb s s'.
Proof. unfold LineReader.get_is. by rewrite lookup_insert_eq. Qed.

Lemma get_is_insert_ne d k k' v s :
  k <> k' -> LineReader.get_is (<[k := v]> d) k' s = LineReader.get_is d k' s.
Proof. intros Hne. unfold LineReader.get_is. by rewrite lookup_insert_ne. Qed.

(** ** Whole records *)

Lemma bind_ret_tt {St} (m : M St unit) clk fuel s c :
  (m ;; ret tt) clk fuel s c = m clk fuel s c.
Proof. unfold bind, ret. by destruct (m clk fuel s c) as [[] ? ?| |]. Qed.

Ltac reader_simpl :=
  repeat first
    [ rewrite get_is_insert_eq
    | rewrite get_is_insert_ne by done
    | rewrite Bool.andb_false_r
    | rewrite Bool.andb_true_r
    | progress cbn [String.eqb Ascii.eqb Bool.eqb andb] ].

(** X14: the three lines of an ack record (the header, then identity, then
    message id), read from any reader state, do to the aggregator exactly
    what [process_ack] does with that identity and message id, whatever its
    outcome; the reader state is afterwards the record just read, still in
    place. *)
Theorem ack_record_lines_dispatch_one_ack clk fuel r c h l1 l2 i m :
  is_ack_header h = true ->
  parse_field l1 = Some ("identity", i) ->
  parse_field l2 = Some ("message id", m) ->
  feed [h; l1; l2] clk fuel r c
  = zoom LineReader.core LineReader.set_core
      (ThroughputCounter.process_ack (ack_record i m)) clk fuel
      (LineReader.set_reader_state
         (<["message id" := PStr m]>
            (<["identity" := PStr i]> (<["reading" := PStr "ack"]> ∅))) r) c.
Proof.
  intros Hh H1 H2. cbn [feed].
  unfold bind at 1. rewrite process_line_ack_header by done.
  unfold bind at 1. rewrite (process_line_field _ _ _ _ l1 "identity" i) by done.
  cbn [LineReader._reader_state LineReader.set_reader_state].
  reader_simpl. unfold ret at 1. rewrite bind_ret_tt.
  rewrite (process_line_field _ _ _ _ l2 "message id" m) by done.
  cbn [LineReader._reader_state LineReader.set_reader_state LineReader.core].
  reader_simpl.
  rewrite (process_ack_ext _ (ack_record i m)); [reflexivity | |].
  - rewrite !strs_insert_str. unfold ack_record.
    rewrite lookup_insert_ne by done. rewrite !lookup_insert_eq. reflexivity.
  - rewrite !strs_insert_str. unfold ack_record.
    rewrite lookup_insert_eq. rewrite lookup_insert_ne by done.
    by rewrite lookup_insert_eq.
Qed.

Lemma ack_record_lines_dispatch_one_ack_witness :
  feed sample_ack_lines roundtrip_clock 2 (LineReader.mk counter_after_burst ∅ []) 8%nat
  = zoom LineReader.core LineReader.set_core
      (ThroughputCounter.process_ack (ack_record "0x00e43c9880" "0xeb9a")) roundtrip_clock 2
      (LineReader.set_reader_state
         (<["message id" := PStr "0xeb9a"]>
            (<["identity" := PStr "0x00e43c9880"]> (<["reading" := PStr "ack"]> ∅)))
         (LineReader.mk counter_after_burst ∅ [])) 8%nat.
Proof.
  apply (ack_record_lines_dispatch_one_ack roundtrip_clock 2
           (LineReader.mk counter_after_burst ∅ []) 8%nat
           "got ingestd ACK" "    identity:   0x00e43c9880" "    message id: 0xeb9a"
           "0x00e43c9880" "0xeb9a"); reflexivity.
Defined.

(** X15: the six lines of a burst record (the header with its byte count,
    then identity, message id, compressed, uncompressed and points), read
    from any reader state, do to the aggregator exactly what [process_burst]
    does with that identity, message id and point count, whatever its
    outcome ([ValueError] for a point count that is no number included); the
    reader state is afterwards the record just read, still in place. *)
Theorem burst_record_lines_dispatch_one_burst clk fuel r c h l1 l2 l3 l4 l5 z i m x y ps :
  burst_header_bytes h = Some z ->
  parse_field l1 = Some ("identity", i) ->
  parse_field l2 = Some ("message id", m) ->
  parse_field l3 = Some ("compressed", x) ->
  parse_field l4 = Some ("uncompressed", y) ->
  parse_field l5 = Some ("points", ps) ->
  feed [h; l1; l2; l3; l4; l5] clk fuel r c
  = zoom LineReader.core LineReader.set_core
      (ThroughputCounter.process_burst (burst_record i m ps)) clk fuel
      (LineReader.set_reader_state
         (<["points" := PStr ps]>
            (<["uncompressed" := PStr y]>
               (<["compressed" := PStr x]>
                  (<["message id" := PStr m]>
                     (<["identity" := PStr i]>
                        (<["reading" := PStr "burst"]> (<["bytes" := PInt z]> ∅)))))))
         r) c.
Proof.
  intros Hh H1 H2 H3 H4 H5. cbn [feed].
  unfold bind at 1. rewrite (process_line_burst_header _ _ _ _ h z) by done.
  unfold bind at 1. rewrite (process_line_field _ _ _ _ l1 "identity" i) by done.
  cbn [LineReader._reader_state LineReader.set_reader_state].
  reader_simpl. unfold ret at 1.
  unfold bind at 1. rewrite (process_line_field _ _ _ _ l2 "message id" m) by done.
  cbn [LineReader._reader_state LineReader.set_reader_state].
  reader_simpl. unfold ret at 1.
  unfold bind at 1. rewrite (process_line_field _ _ _ _ l3 "compressed" x) by done.
  cbn [LineReader._reader_state LineReader.set_reader_state].
  reader_simpl. unfold ret at 1.
  unfold bind at 1. rewrite (process_line_field _ _ _ _ l4 "uncompressed" y) by done.
  cbn [LineReader._reader_state LineReader.set_reader_state].
  reader_simpl. unfold ret at 1.
  rewrite bind_ret_tt.
  rewrite (process_line_field _ _ _ _ l5 "points" ps) by done.
  cbn [LineReader._reader_state LineReader.set_reader_state LineReader.core].
  reader_simpl.
  rewrite (process_burst_ext _ (burst_record i m ps)); [reflexivity | | |];
    rewrite !strs_insert_str; unfold burst_record;
    repeat (rewrite lookup_insert_ne by done); by rewrite !lookup_insert_eq.
Qed.

Lemma burst_record_lines_dispatch_one_burst_witness :
  feed sample_burst_lines roundtrip_clock 2 (LineReader.mk fresh_counter ∅ []) 5%nat
  = zoom LineReader.core LineReader.set_core
      (ThroughputCounter.process_burst (burst_record "0x00e43c9877" "0xf394" "405"))
      roundtrip_clock 2
      (LineReader.set_reader_state
         (<["points" := PStr "405"]>
            (<["uncompressed" := PStr "61133 bytes"]>
               (<["compressed" := PStr "5214 bytes"]>
                  (<["message id" := PStr "0xf394"]>
                     (<["identity" := PStr "0x00e43c9877"]>
                        (<["reading" := PStr "burst"]> (<["bytes" := PInt 5222]> ∅)))))))
         (LineReader.mk fresh_counter ∅ [])) 5%nat.
Proof.
  apply (burst_record_lines_dispatch_one_burst roundtrip_clock 2
           (LineReader.mk fresh_counter ∅ []) 5%nat
           "received 5222 bytes" "    identity:   0x00e43c9877" "    message id: 0xf394"
           "    compressed: 5214 bytes" "    uncompressed:       61133 bytes"
           "    points:             405"
           5222 "0x00e43c9877" "0xf394" "5214 bytes" "61133 bytes" "405"); reflexivity.
Defined.

(** ** What stays in the reader state *)

Lemma zoom_core_reader_state {A} (m : M ThroughputCounter.t A) clk fuel r c r' :
  outcome_state (zoom LineReader.core LineReader.set_core m clk fuel r c) = Some r' ->
  LineReader._reader_state r' = LineReader._reader_state r
  /\ LineReader.input_stream r' = LineReader.input_stream r.
Proof.
  unfold zoom. destruct (m clk fuel (LineReader.core r) c) as [a t' c'|e t' c'|];
    simpl; [| |discriminate]; by intros [= <-].
Qed.

(** X16: dispatching a record does not clear the reader state. Once the six
    lines of a burst record have been read and the burst recorded, a further
    points line arriving without a new header records a second burst under
    the same identity and message id, with the new point count. *)
Theorem points_line_after_a_record_dispatches_again
    clk fuel r c h l1 l2 l3 l4 l5 l6 z i m x y ps q r1 c1 :
  burst_header_bytes h = Some z ->
  parse_field l1 = Some ("identity", i) ->
  parse_field l2 = Some ("message id", m) ->
  parse_field l3 = Some ("compressed", x) ->
  parse_field l4 = Some ("uncompressed", y) ->
  parse_field l5 = Some ("points", ps) ->
  parse_field l6 = Some ("points", q) ->
  feed [h; l1; l2; l3; l4; l5] clk fuel r c = Ok tt r1 c1 ->
  LineReader._reader_state r1 !! "reading" = Some (PStr "burst")
  /\ LineReader.process_line l6 clk fuel r1 c1
     = zoom LineReader.core LineReader.set_core
         (ThroughputCounter.process_burst (burst_record i m q)) clk fuel
         (LineReader.set_reader_state
            (<["points" := PStr q]> (LineReader._reader_state r1)) r1) c1.
Proof.
  intros Hh H1 H2 H3 H4 H5 H6 Hfeed.
  rewrite (burst_record_lines_dispatch_one_burst clk fuel r c h l1 l2 l3 l4 l5 z i m x y ps)
    in Hfeed by done.
  assert (Hs : outcome_state
                 (zoom LineReader.core LineReader.set_core
                    (ThroughputCounter.process_burst (burst_record i m ps)) clk fuel
                    (LineReader.set_reader_state
                       (<["points" := PStr ps]>
                          (<["uncompressed" := PStr y]>
                             (<["compressed" := PStr x]>
                                (<["message id" := PStr m]>
                                   (<["identity" := PStr i]>
                                      (<["reading" := PStr "burst"]>
                                         (<["bytes" := PInt z]> ∅))))))) r) c)
               = Some r1) by (by rewrite Hfeed).
  apply zoom_core_reader_state in Hs as [Hs _].
  cbn [LineReader._reader_state LineReader.set_reader_state] in Hs.
  split.
  - rewrite Hs. repeat (rewrite lookup_insert_ne by done). apply lookup_insert_eq.
  - rewrite (process_line_field _ _ _ _ l6 "points" q) by done.
    cbn zeta. rewrite get_is_insert_ne by done.
    assert (Hg : LineReader.get_is (LineReader._reader_state r1) "reading" "burst" = true).
    { unfold LineReader.get_is. rewrite Hs.
      repeat (rewrite lookup_insert_ne by done). by rewrite lookup_insert_eq. }
    rewrite Hg. cbn [String.eqb Ascii.eqb Bool.eqb andb].
    rewrite (process_burst_ext _ (burst_record i m q)); [reflexivity | | |];
      rewrite Hs, !strs_insert_str; unfold burst_record;
      repeat (rewrite lookup_insert_ne by done); by rewrite !lookup_insert_eq.
Qed.

Lemma points_line_after_a_record_dispatches_again_witness :
  let r1 := LineReader.mk counter_after_burst sample_burst_state [] in
  LineReader._reader_state r1 !! "reading" = Some (PStr "burst")
  /\ LineReader.process_line "points: 61" roundtrip_clock 2 r1 8%nat
     = zoom LineReader.core LineReader.set_core
         (ThroughputCounter.process_burst (burst_record "0x00e43c9877" "0xf394" "61"))
         roundtrip_clock 2
         (LineReader.set_reader_state
            (<["points" := PStr "61"]> (LineReader._reader_state r1)) r1) 8%nat.
Proof.
  intros r1.
  apply (points_line_after_a_record_dispatches_again roundtrip_clock 2
           (LineReader.mk fresh_counter ∅ []) 5%nat
           "received 5222 bytes" "    identity:   0x00e43c9877" "    message id: 0xf394"
           "    compressed: 5214 bytes" "    uncompressed:       61133 bytes"
           "    points:             405" "points: 61"
           5222 "0x00e43c9877" "0xf394" "5214 bytes" "61133 bytes" "405" "61" r1 8%nat);
    reflexivity.
Defined.


(** ** The two halves of [process_line] *)

Lemma process_line_steps line :
  LineReader.process_line line
  = (let '(k, tok, v) := partition ":" (strip line) in
     field_step k tok v ;; header_step (strip line)).
Proof. reflexivity. Qed.

Lemma header_step_frame line clk fuel r c x :
  header_step line clk fuel (LineReader.set_input_stream x r) c
  = result_map_state (LineReader.set_input_stream x) (header_step line clk fuel r c).
Proof.
  unfold header_step.
  destruct (contains "received " line).
  - destruct (split line !! 1%nat) as [w|]; [|reflexivity].
    destruct (py_int w); reflexivity.
  - destruct (contains "got ingestd ACK" line); reflexivity.
Qed.

Lemma zoom_core_frame {A} (m : M ThroughputCounter.t A) clk fuel d r c x :
  zoom LineReader.core LineReader.set_core m clk fuel
    (LineReader.set_reader_state d (LineReader.set_input_stream x r)) c
  = result_map_state (LineReader.set_input_stream x)
      (zoom LineReader.core LineReader.set_core m clk fuel
         (LineReader.set_reader_state d r) c).
Proof.
  unfold zoom.
  change (LineReader.core (LineReader.set_reader_state d (LineReader.set_input_stream x r)))
    with (LineReader.core r).
  change (LineReader.core (LineReader.set_reader_state d r)) with (LineReader.core r).
  destruct (m clk fuel (LineReader.core r) c); reflexivity.
Qed.

Lemma field_step_frame k tok v clk fuel r c x :
  field_step k tok v clk fuel (LineReader.set_input_stream x r) c
  = result_map_state (LineReader.set_input_stream x) (field_step k tok v clk fuel r c).
Proof.
  unfold field_step. destruct (String.eqb tok ":"); [|reflexivity].
  unfold bind, modify, get, ret. cbv beta.
  change (LineReader._reader_state (LineReader.set_input_stream x r))
    with (LineReader._reader_state r).
  set (d := <[k := PStr (strip v)]> (LineReader._reader_state r)).
  change (LineReader._reader_state (LineReader.set_reader_state d r)) with d.
  change (LineReader._reader_state
            (LineReader.set_reader_state d (LineReader.set_input_stream x r))) with d.
  destruct (LineReader.get_is d "reading" "burst" && String.eqb k "points").
  - rewrite zoom_core_frame.
    destruct (zoom LineReader.core LineReader.set_core
                (ThroughputCounter.process_burst (strs d)) clk fuel
                (LineReader.set_reader_state d r) c); reflexivity.
  - destruct (LineReader.get_is d "reading" "ack" && String.eqb k "message id");
      [|reflexivity].
    rewrite zoom_core_frame.
    destruct (zoom LineReader.core LineReader.set_core
                (ThroughputCounter.process_ack (strs d)) clk fuel
                (LineReader.set_reader_state d r) c); reflexivity.
Qed.

(** [process_line] neither reads nor changes the input stream. *)
Lemma process_line_frame line clk fuel r c x :
  LineReader.process_line line clk fuel (LineReader.set_input_stream x r) c
  = result_map_state (LineReader.set_input_stream x)
      (LineReader.process_line line clk fuel r c).
Proof.
  rewrite process_line_steps. destruct (partition ":" (strip line)) as [[k tok] v].
  unfold bind. rewrite field_step_frame.
  destruct (field_step k tok v clk fuel r c) as [[] r1 c1| |]; try reflexivity.
  apply header_step_frame.
Qed.

Lemma field_step_reader_state k tok v clk fuel r c r1 :
  outcome_state (field_step k tok v clk fuel r c) = Some r1 ->
  LineReader._reader_state r1 = LineReader._reader_state r
  \/ LineReader._reader_state r1 = <[k := PStr (strip v)]> (LineReader._reader_state r).
Proof.
  unfold field_step. destruct (String.eqb tok ":"); [|intros [= <-]; by left].
  unfold bind, modify, get, ret. cbv beta.
  set (d := <[k := PStr (strip v)]> (LineReader._reader_state r)).
  change (LineReader._reader_state (LineReader.set_reader_state d r)) with d.
  intros H. right.
  destruct (LineReader.get_is d "reading" "burst" && String.eqb k "points").
  - destruct (zoom LineReader.core LineReader.set_core
                (ThroughputCounter.process_burst (strs d)) clk fuel
                (LineReader.set_reader_state d r) c) as [a s' c'|e s' c'|] eqn:E.
    + assert (Hs : LineReader._reader_state s' = d).
      { eapply (zoom_core_reader_state _ clk fuel (LineReader.set_reader_state d r) c s').
        by rewrite E. }
      change (LineReader.get_is ∅ "reading" "ack") with false in H. simpl in H. by injection H as <-.
    + simpl in H. injection H as <-.
      eapply (zoom_core_reader_state _ clk fuel (LineReader.set_reader_state d r) c s').
      by rewrite E.
    + discriminate H.
  - destruct (LineReader.get_is d "reading" "ack" && String.eqb k "message id").
    + eapply (zoom_core_reader_state _ clk fuel (LineReader.set_reader_state d r) c r1).
      exact H.
    + by injection H as <-.
Qed.

Lemma header_step_reader_state line clk fuel r c r1 :
  outcome_state (header_step line clk fuel r c) = Some r1 ->
  LineReader._reader_state r1 = LineReader._reader_state r
  \/ LineReader._reader_state r1 = <["reading" := PStr "ack"]> ∅
  \/ exists n, LineReader._reader_state r1
               = <["reading" := PStr "burst"]> (<["bytes" := PInt n]> ∅).
Proof.
  unfold header_step. destruct (contains "received " line).
  - destruct (split line !! 1%nat) as [w|]; [|intros [= <-]; by left].
    destruct (py_int w) as [n|]; [|intros [= <-]; by left].
    intros [= <-]. right. right. by exists n.
  - destruct (contains "got ingestd ACK" line); intros [= <-]; [right|]; by left.
Qed.

Lemma ints_under_bytes_only_insert_str k s d :
  ints_under_bytes_only d -> ints_under_bytes_only (<[k := PStr s]> d).
Proof.
  intros Hd k' z. destruct (decide (k = k')) as [->|Hne].
  - by rewrite lookup_insert_eq.
  - rewrite lookup_insert_ne by done. apply Hd.
Qed.

Lemma ints_under_bytes_only_ack_header :
  ints_under_bytes_only (<["reading" := PStr "ack"]> ∅).
Proof. apply ints_under_bytes_only_insert_str. intros k z. by rewrite lookup_empty. Qed.

Lemma ints_under_bytes_only_burst_header n :
  ints_under_bytes_only (<["reading" := PStr "burst"]> (<["bytes" := PInt n]> ∅)).
Proof.
  apply ints_under_bytes_only_insert_str. intros k z.
  destruct (decide ("bytes" = k)) as [<-|Hne]; [done|].
  rewrite lookup_insert_ne by done. by rewrite lookup_empty.
Qed.

(** X17: the reader's dictionary never holds an [int] anywhere but under
    ['bytes']: if that is so before a line is read, it is so after, whether
    the line was read normally or raised on the way. In particular the
    identity, message id and points handed to [process_burst] and
    [process_ack] are always strings. *)
Theorem reader_state_ints_under_bytes_only line clk fuel r c r' :
  ints_under_bytes_only (LineReader._reader_state r) ->
  outcome_state (LineReader.process_line line clk fuel r c) = Some r' ->
  ints_under_bytes_only (LineReader._reader_state r').
Proof.
  intros Hinv. rewrite process_line_steps.
  destruct (partition ":" (strip line)) as [[k tok] v]. unfold bind.
  destruct (field_step k tok v clk fuel r c) as [[] r1 c1|e r1 c1|] eqn:E;
    [| |discriminate].
  - assert (H1 : ints_under_bytes_only (LineReader._reader_state r1)).
    { destruct (field_step_reader_state k tok v clk fuel r c r1) as [->| ->];
        [by rewrite E | done | by apply ints_under_bytes_only_insert_str]. }
    intros H.
    destruct (header_step_reader_state _ _ _ _ _ _ H) as [->|[->|[n ->]]];
      auto using ints_under_bytes_only_ack_header, ints_under_bytes_only_burst_header.
  - intros [= <-].
    destruct (field_step_reader_state k tok v clk fuel r c r1) as [->| ->];
      [by rewrite E | done | by apply ints_under_bytes_only_insert_str].
Qed.

Lemma reader_state_ints_under_bytes_only_witness :
  ints_under_bytes_only
    (LineReader._reader_state
       (LineReader.set_reader_state
          (<["reading" := PStr "burst"]> (<["bytes" := PInt 5222]> ∅))
          (LineReader.mk fresh_counter ∅ []))).
Proof.
  apply (reader_state_ints_under_bytes_only "received 5222 bytes" roundtrip_clock 2
           (LineReader.mk fresh_counter ∅ []) 5%nat).
  - intros k z H. vm_compute in H. discriminate H.
  - reflexivity.
Defined.

(** ** Words of a stripped line *)

Lemma rstrip_cons_fix a s :
  rstrip (String a s) = String a s -> s = EmptyString \/ (rstrip s = s /\ s <> EmptyString).
Proof.
  cbn [rstrip]. destruct (rstrip s) as [|b r'] eqn:E.
  - destruct (is_space a); [discriminate|]. intros [= <-]. by left.
  - intros [= <-]. right. by split.
Qed.

Lemma rstrip_idem s : rstrip (rstrip s) = rstrip s.
Proof.
  induction s as [|a s IH]; [done|]. cbn [rstrip].
  destruct (rstrip s) as [|b r'] eqn:E.
  - destruct (is_space a) eqn:Ea; [done|]. cbn [rstrip]. by rewrite Ea.
  - cbn [rstrip] in IH |- *. by rewrite IH.
Qed.

Lemma strip_rstrip_fix s : rstrip (strip s) = strip s.
Proof. apply rstrip_idem. Qed.

Lemma split_nil_rstrip s : split s = [] -> rstrip s = EmptyString.
Proof.
  induction s as [|a s IH]; [done|]. cbn [split rstrip].
  destruct (is_space a) eqn:Ea.
  - intros H. by rewrite (IH H).
  - destruct s as [|b s']; [discriminate|].
    destruct (is_space b); [discriminate|]. by destruct (split (String b s')).
Qed.

Lemma has_gap_has_space s : has_gap s = true -> has_space s = true.
Proof.
  induction s as [|a s IH]; [done|]. cbn [has_gap has_space].
  destruct (is_space a); [done|]. by intros ->.
Qed.

(** A stripped line with white space after its first word has a second
    word. *)
Lemma has_gap_two_words s :
  rstrip s = s -> has_gap s = true -> exists w1 w2 ws, split s = w1 :: w2 :: ws.
Proof.
  induction s as [|a s IH]; [done|]. intros Hfix Hgap.
  destruct (rstrip_cons_fix a s Hfix) as [->|[Hs Hne]].
  { cbn [has_gap has_space] in Hgap. destruct (is_space a); discriminate Hgap. }
  cbn [has_gap] in Hgap. cbn [split].
  destruct (is_space a) eqn:Ea; [by apply IH|].
  destruct s as [|b s']; [done|].
  destruct (is_space b) eqn:Eb.
  - destruct (split (String b s')) as [|w ws] eqn:Esp.
    + apply split_nil_rstrip in Esp. congruence.
    + by exists (String a EmptyString), w, ws.
  - destruct IH as (w1 & w2 & ws & Hsp); [done | |].
    + cbn [has_gap]. rewrite Eb. cbn [has_space] in Hgap. by rewrite Eb in Hgap.
    + rewrite Hsp. by exists (String a w1), w2, ws.
Qed.

Lemma prefix_cons_inv a p s :
  String.prefix (String a p) s = true ->
  exists s', s = String a s' /\ String.prefix p s' = true.
Proof.
  destruct s as [|b s']; [done|]. cbn [String.prefix].
  destruct (ascii_dec a b) as [<-|]; [|done]. by exists s'.
Qed.

Lemma prefix_received_has_gap s : String.prefix "received " s = true -> has_gap s = true.
Proof.
  intros Hp.
  do 9 (apply prefix_cons_inv in Hp as (? & -> & Hp)).
  reflexivity.
Qed.

Lemma contains_received_has_gap s : contains "received " s = true -> has_gap s = true.
Proof.
  induction s as [|a s IH]; [done|]. cbn [contains].
  intros [Hp|Hc]%orb_true_iff.
  - by apply prefix_received_has_gap.
  - specialize (IH Hc). cbn [has_gap].
    destruct (is_space a); [done | by apply has_gap_has_space].
Qed.

(** The second word that the burst header asks for is always there. *)
Lemma received_line_has_second_word line :
  contains "received " (strip line) = true ->
  exists w, split (strip line) !! 1%nat = Some w.
Proof.
  intros Hc.
  destruct (has_gap_two_words (strip line)) as (w1 & w2 & ws & ->).
  - apply strip_rstrip_fix.
  - by apply contains_received_has_gap.
  - by exists w2.
Qed.

(** ** Reading lines never fails but with [ValueError] *)

Lemma settles_process_burst clk data tc c :
  wf_counter tc ->
  returns clk (ThroughputCounter.process_burst data) tc c (fun _ tc' _ => wf_counter tc')
  \/ raises clk (ThroughputCounter.process_burst data) tc c ValueError wf_counter.
Proof.
  intros Hw.
  destruct (data !! "identity") as [i|] eqn:Hi;
    [|left; apply returns_process_burst; [intros; congruence | done]].
  destruct (data !! "message id") as [m|] eqn:Hm;
    [|left; apply returns_process_burst; [intros; congruence | done]].
  destruct (data !! "points") as [ps|] eqn:Hps;
    [|left; apply returns_process_burst; [intros; congruence | done]].
  destruct (py_int ps) as [p|] eqn:Hp.
  - left. apply returns_process_burst; [intros; congruence | done].
  - right. exists tc, c, 0%nat. split; [done|]. intros fuel _.
    unfold ThroughputCounter.process_burst. by rewrite Hi, Hm, Hps, Hp.
Qed.

Lemma settles_zoom_core {A} clk (m : M ThroughputCounter.t A) r c :
  returns clk m (LineReader.core r) c (fun _ tc' _ => wf_counter tc')
  \/ raises clk m (LineReader.core r) c ValueError wf_counter ->
  returns clk (zoom LineReader.core LineReader.set_core m) r c
    (fun _ r' _ => wf_counter (LineReader.core r'))
  \/ raises clk (zoom LineReader.core LineReader.set_core m) r c ValueError
       (fun r' => wf_counter (LineReader.core r')).
Proof.
  intros [Hr|Hr].
  - left. eapply returns_weaken; [by apply returns_zoom|].
    intros a s' c' (t' & -> & Ht'). exact Ht'.
  - right. eapply raises_weaken; [by apply raises_zoom|].
    intros s' (t' & -> & Ht'). exact Ht'.
Qed.

Lemma settles_field_step clk k tok v r c :
  wf_counter (LineReader.core r) ->
  returns clk (field_step k tok v) r c (fun _ r' _ => wf_counter (LineReader.core r'))
  \/ raises clk (field_step k tok v) r c ValueError
       (fun r' => wf_counter (LineReader.core r')).
Proof.
  intros Hw. unfold field_step.
  destruct (String.eqb tok ":"); [|left; by apply returns_ret].
  apply settles_bind. left. eexists tt, _, c, 0%nat. split; [|reflexivity].
  set (d := <[k := PStr (strip v)]> (LineReader._reader_state r)).
  apply settles_bind. left. eexists _, _, c, 0%nat. split; [|reflexivity].
  cbn [LineReader._reader_state LineReader.set_reader_state]. fold d.
  apply settles_bind.
  destruct (LineReader.get_is d "reading" "burst" && String.eqb k "points").
  - assert (Hb : returns clk
                   (zoom LineReader.core LineReader.set_core
                      (ThroughputCounter.process_burst (strs d)))
                   (LineReader.set_reader_state d r) c
                   (fun _ r' _ => wf_counter (LineReader.core r'))
                 \/ raises clk
                      (zoom LineReader.core LineReader.set_core
                         (ThroughputCounter.process_burst (strs d)))
                      (LineReader.set_reader_state d r) c ValueError
                      (fun r' => wf_counter (LineReader.core r'))).
    { apply settles_zoom_core. by apply settles_process_burst. }
    destruct Hb as [Hb|Hb].
    + left. apply returns_bind. eapply returns_weaken; [exact Hb|].
      intros ? r1 c1 Hw1. apply returns_ret.
      change (LineReader.get_is ∅ "reading" "ack") with false. cbn [andb].
      left. by apply returns_ret.
    + right. destruct Hb as (s' & c' & n0 & HQ & Hm). exists s', c', n0.
      split; [done|]. intros fuel Hf. unfold bind. by rewrite Hm.
  - left. apply returns_ret.
    destruct (LineReader.get_is d "reading" "ack" && String.eqb k "message id").
    + apply (settles_zoom_core clk
                (ThroughputCounter.process_ack (strs d))
                (LineReader.set_reader_state d r) c).
      left. by apply returns_process_ack.
    + left. by apply returns_ret.
Qed.

Lemma settles_header_step clk line r c :
  wf_counter (LineReader.core r) ->
  returns clk (header_step (strip line)) r c
    (fun _ r' _ => wf_counter (LineReader.core r'))
  \/ raises clk (header_step (strip line)) r c ValueError
       (fun r' => wf_counter (LineReader.core r')).
Proof.
  intros Hw. unfold header_step.
  destruct (contains "received " (strip line)) eqn:Hc.
  - destruct (received_line_has_second_word line Hc) as [w ->].
    destruct (py_int w) as [n|].
    + left. eexists tt, _, c, 0%nat. split; [|reflexivity]. exact Hw.
    + right. exists r, c, 0%nat. by split.
  - destruct (contains "got ingestd ACK" (strip line)).
    + left. eexists tt, _, c, 0%nat. split; [|reflexivity]. exact Hw.
    + left. by apply returns_ret.
Qed.

Lemma settles_process_line clk line r c :
  wf_counter (LineReader.core r) ->
  returns clk (LineReader.process_line line) r c
    (fun _ r' _ => wf_counter (LineReader.core r'))
  \/ raises clk (LineReader.process_line line) r c ValueError
       (fun r' => wf_counter (LineReader.core r')).
Proof.
  intros Hw. rewrite process_line_steps.
  destruct (partition ":" (strip line)) as [[k tok] v].
  apply settles_bind.
  destruct (settles_field_step clk k tok v r c Hw) as [Hf|Hf]; [left | by right].
  eapply returns_weaken; [exact Hf|].
  intros ? r1 c1 Hw1. by apply settles_header_step.
Qed.

Lemma settles_feed clk lines :
  forall r c,
    wf_counter (LineReader.core r) ->
    returns clk (feed lines) r c (fun _ r' _ => wf_counter (LineReader.core r'))
    \/ raises clk (feed lines) r c ValueError
         (fun r' => wf_counter (LineReader.core r')).
Proof.
  induction lines as [|l ls IH]; intros r c Hw.
  - left. by apply returns_ret.
  - cbn [feed]. apply settles_bind.
    destruct (settles_process_line clk l r c Hw) as [Hl|Hl]; [left | by right].
    eapply returns_weaken; [exact Hl|].
    intros ? r1 c1 Hw1. by apply IH.
Qed.

(** X18: reading any lines whatever, from any reader state and a well-formed
    aggregator, either returns normally or stops with [ValueError] (a
    non-numeric point count, or a non-numeric word after a ['received ']
    mark): given enough fuel it never raises [IndexError] (a stripped line
    holding ['received '] always has a second word) nor
    [ZeroDivisionError], never loops for ever, and leaves the aggregator
    well formed in both cases. *)
Theorem reading_lines_fails_with_value_error_only clk lines r c :
  wf_counter (LineReader.core r) ->
  (exists r' c' (n0 : nat),
     wf_counter (LineReader.core r')
     /\ forall fuel, (n0 <= fuel)%nat -> feed lines clk fuel r c = Ok tt r' c')
  \/ (exists r' c' (n0 : nat),
        wf_counter (LineReader.core r')
        /\ forall fuel, (n0 <= fuel)%nat -> feed lines clk fuel r c = Raise ValueError r' c').
Proof.
  intros Hw. destruct (settles_feed clk lines r c Hw) as [Hr|Hr].
  - left. destruct Hr as ([] & r' & c' & n0 & Hw' & Hf). by exists r', c', n0.
  - right. exact Hr.
Qed.

Lemma reading_lines_fails_with_value_error_only_witness :
  let lines := sample_burst_lines ++ sample_ack_lines
               ++ ["received"; "xreceived  "; "points: 4o5"; "received some bytes"] in
  let r := LineReader.mk fresh_counter ∅ [] in
  (exists r' c' (n0 : nat),
     wf_counter (LineReader.core r')
     /\ forall fuel, (n0 <= fuel)%nat -> feed lines roundtrip_clock fuel r 5%nat = Ok tt r' c')
  \/ (exists r' c' (n0 : nat),
        wf_counter (LineReader.core r')
        /\ forall fuel, (n0 <= fuel)%nat ->
             feed lines roundtrip_clock fuel r 5%nat = Raise ValueError r' c').
Proof.
  intros lines r.
  apply (reading_lines_fails_with_value_error_only roundtrip_clock lines r 5%nat).
  exact fresh_counter_wf.
Defined.

(** ** Reading a stream *)

Lemma process_lines_from_stream_loop clk fuel r c :
  LineReader.process_lines_from_stream clk fuel r c
  = LineReader.loop_until_return fuel drain_body clk fuel r c.
Proof. reflexivity. Qed.

(** A pass that finds a line hands it to [process_line], the stream one
    line shorter. *)
Lemma drain_body_line clk fuel r c l xs :
  LineReader.input_stream r = Line l :: xs ->
  drain_body clk fuel r c
  = match LineReader.process_line l clk fuel r c with
    | Ok _ r' c' => Ok true (LineReader.set_input_stream xs r') c'
    | Raise e r' c' => Raise e (LineReader.set_input_stream xs r') c'
    | OutOfFuel => OutOfFuel
    end.
Proof.
  intros Hs. unfold drain_body, bind at 1, LineReader.readline, bind at 1, get.
  rewrite Hs. unfold bind at 1, put, ret at 1. unfold bind.
  rewrite process_line_frame.
  destruct (LineReader.process_line l clk fuel r c) as [[] r' c'| |]; reflexivity.
Qed.


Lemma process_line_empty clk fuel r c :
  LineReader.process_line EmptyString clk fuel r c = Ok tt r c.
Proof. reflexivity. Qed.

Lemma drain_body_end clk fuel r c :
  LineReader.input_stream r = [] ->
  drain_body clk fuel r c = Ok true r c.
Proof.
  intros Hs. unfold drain_body, bind at 1, LineReader.readline, bind at 1, get.
  rewrite Hs. unfold ret at 1. unfold bind. by rewrite process_line_empty.
Qed.

Lemma set_input_stream_id r : LineReader.set_input_stream (LineReader.input_stream r) r = r.
Proof. by destruct r. Qed.

Lemma feed_frame lines clk fuel : forall r c x,
  feed lines clk fuel (LineReader.set_input_stream x r) c
  = result_map_state (LineReader.set_input_stream x) (feed lines clk fuel r c).
Proof.
  induction lines as [|l ls IH]; intros r c x; [reflexivity|].
  cbn [feed]. unfold bind. rewrite process_line_frame.
  destruct (LineReader.process_line l clk fuel r c) as [[] r' c'| |]; try reflexivity.
  apply IH.
Qed.




Lemma loop_at_end_of_input clk fuel lines : forall n r c,
  LineReader.input_stream r = map Line lines ->
  match feed lines clk fuel r c with
  | Ok _ _ _ => LineReader.loop_until_return n drain_body clk fuel r c = OutOfFuel
  | Raise e r1 c1 =>
      LineReader.loop_until_return n drain_body clk fuel r c = OutOfFuel
      \/ exists xs, LineReader.loop_until_return n drain_body clk fuel r c
                    = Raise e (LineReader.set_input_stream xs r1) c1
  | OutOfFuel => LineReader.loop_until_return n drain_body clk fuel r c = OutOfFuel
  end.
Proof.
  intros n. revert lines. induction n as [|n IHn]; intros lines r c Hs.
  - cbn [LineReader.loop_until_return].
    destruct (feed lines clk fuel r c); [done | by left | done].
  - destruct lines as [|l ls].
    + cbn [feed]. unfold ret. cbn [LineReader.loop_until_return].
      rewrite drain_body_end by done.
      apply (IHn [] r c Hs).
    + cbn [feed LineReader.loop_until_return]. unfold bind.
      rewrite (drain_body_line clk fuel r c l (map Line ls)) by done.
      destruct (LineReader.process_line l clk fuel r c) as [[] r' c'|e r' c'|].
      * specialize (IHn ls (LineReader.set_input_stream (map Line ls) r') c' eq_refl).
        rewrite feed_frame in IHn.
        destruct (feed ls clk fuel r' c') as [[] r1 c1|e r1 c1|]; cbn [result_map_state] in IHn.
        -- exact IHn.
        -- destruct IHn as [IHn|[xs IHn]]; [by left|]. right. exists xs. exact IHn.
        -- exact IHn.
      * right. by exists (map Line ls).
      * reflexivity.
Qed.

(** X20: at the end of the input [readline] returns the empty string, not
    an [IOError], and [process_line] does nothing with it: once the stream
    has nothing but lines left, [process_lines_from_stream] never returns.
    It reads the lines and then spins on the empty string for ever, unless
    one of the lines raises, which ends it with that exception. *)
Theorem end_of_input_never_returns clk fuel lines r c :
  LineReader.input_stream r = map Line lines ->
  (forall r' c', LineReader.process_lines_from_stream clk fuel r c <> Ok tt r' c')
  /\ (forall r1 c1, feed lines clk fuel r c = Ok tt r1 c1 ->
        LineReader.process_lines_from_stream clk fuel r c = OutOfFuel).
Proof.
  intros Hs. rewrite process_lines_from_stream_loop.
  pose proof (loop_at_end_of_input clk fuel lines fuel r c Hs) as H.
  destruct (feed lines clk fuel r c) as [[] r1 c1|e r1 c1|].
  - split; [intros r' c'; by rewrite H | by intros].
  - split; [|by intros].
    intros r' c'. destruct H as [H|[xs H]]; by rewrite H.
  - split; [intros r' c'; by rewrite H | by intros].
Qed.

Lemma end_of_input_never_returns_witness :
  let r := LineReader.mk fresh_counter ∅ (map Line sample_ack_lines) in
  (forall r' c', LineReader.process_lines_from_stream roundtrip_clock 1000 r 5%nat <> Ok tt r' c')
  /\ (forall r1 c1, feed sample_ack_lines roundtrip_clock 1000 r 5%nat = Ok tt r1 c1 ->
        LineReader.process_lines_from_stream roundtrip_clock 1000 r 5%nat = OutOfFuel).
Proof.
  intros r.
  apply (end_of_input_never_returns roundtrip_clock 1000 sample_ack_lines r 5%nat).
  reflexivity.
Defined.
